(** * Metadata codec, image classification and auto-save of the Krita
      metadata-and-downloads plugin

    A shallow embedding of
      - [ai_diffusion/persistence.py]     (record building, size limit, labels),
      - [ai_diffusion/krita_ai_metadata_downloads/auto_save.py]
                                          (per-job and history-wide saving),
      - [ai_diffusion/ui/generation.py]   (reading text chunks back from a PNG,
                                           the text of the metadata dialog),
      - [ai_diffusion/krita_ai_metadata_downloads/metadata_panel.py]
                                          (reading through QImageReader),
    followed by the statements proved about them.

    Python values are modelled as follows: [str] is a list of Unicode code
    points, [bytes] a list of [byte], [int] is [Z], [float] is an IEEE-754
    binary64 value ([spec_float]), [dict] is an insertion-ordered association
    list with unique keys.  An exception is a value of type [exn]; a
    computation that may raise returns a [result]. *)

From Stdlib Require Import ZArith NArith PArith List Bool Ascii String Lia.
From Stdlib.Strings Require Import Byte.
From Stdlib Require Import SpecFloat Decimal DecimalNat DecimalZ DecimalN.
From stdpp Require Import base option list gmap.

Local Open Scope Z_scope.

(* ===================================================================== *)
(** ** Python text and binary strings                                     *)
(* ===================================================================== *)

Module Py.

(** [str]: a sequence of code points; [bytes]: a sequence of octets. *)
Abbreviation str := (list N).
Abbreviation bytes := (list byte).

#[global] Instance byte_eq_dec : EqDecision byte.
Proof.
  intros x y. destruct (Byte.eqb x y) eqn:E.
  - left. now apply Byte.byte_dec_bl.
  - right. now apply Byte.eqb_false.
Defined.

(** A [bytes] literal [b'...']. *)
Definition b (lit : string) : bytes := list_byte_of_string lit.

Definition byte_in (lo hi : N) (x : byte) : bool :=
  (N.leb lo (Byte.to_N x) && N.leb (Byte.to_N x) hi)%bool.

Definition cont_bits (x : byte) : N := N.land (Byte.to_N x) 63.

(** [bytes.decode('utf-8', errors='ignore')].  A well-formed sequence gives
    its code point; at an ill-formed one the decoder drops the longest
    prefix that could still start a character (at least one byte) and goes
    on with the next byte, as CPython's decoder does. *)
Fixpoint utf8_decode_ignore (bs : bytes) : str :=
  match bs with
  | [] => []
  | b0 :: t0 =>
    let n0 := Byte.to_N b0 in
    if N.ltb n0 128 then n0 :: utf8_decode_ignore t0
    else if byte_in 194 223 b0 then
      match t0 with
      | b1 :: t1 =>
        if byte_in 128 191 b1
        then (N.land n0 31 * 64 + cont_bits b1)%N :: utf8_decode_ignore t1
        else utf8_decode_ignore t0
      | [] => []
      end
    else if byte_in 224 239 b0 then
      match t0 with
      | b1 :: t1 =>
        let lo := if N.eqb n0 224 then 160%N else 128%N in
        let hi := if N.eqb n0 237 then 159%N else 191%N in
        if byte_in lo hi b1 then
          match t1 with
          | b2 :: t2 =>
            if byte_in 128 191 b2
            then ((N.land n0 15 * 64 + cont_bits b1) * 64 + cont_bits b2)%N
                   :: utf8_decode_ignore t2
            else utf8_decode_ignore t1
          | [] => []
          end
        else utf8_decode_ignore t0
      | [] => []
      end
    else if byte_in 240 244 b0 then
      match t0 with
      | b1 :: t1 =>
        let lo := if N.eqb n0 240 then 144%N else 128%N in
        let hi := if N.eqb n0 244 then 143%N else 191%N in
        if byte_in lo hi b1 then
          match t1 with
          | b2 :: t2 =>
            if byte_in 128 191 b2 then
              match t2 with
              | b3 :: t3 =>
                if byte_in 128 191 b3
                then (((N.land n0 7 * 64 + cont_bits b1) * 64 + cont_bits b2) * 64
                      + cont_bits b3)%N :: utf8_decode_ignore t3
                else utf8_decode_ignore t2
              | [] => []
              end
            else utf8_decode_ignore t1
          | [] => []
          end
        else utf8_decode_ignore t0
      | [] => []
      end
    else utf8_decode_ignore t0
  end.

Definition byte_of (n : N) : byte :=
  match Byte.of_N (n mod 256) with Some x => x | None => x00 end.

(** [str.encode('utf-8')] (lone surrogates, which Python refuses, are
    encoded like any other three-byte code point). *)
Definition utf8_encode_char (c : N) : bytes :=
  if N.ltb c 128 then [byte_of c]
  else if N.ltb c 2048 then
    [byte_of (192 + c / 64); byte_of (128 + c mod 64)]
  else if N.ltb c 65536 then
    [byte_of (224 + c / 4096); byte_of (128 + (c / 64) mod 64);
     byte_of (128 + c mod 64)]
  else
    [byte_of (240 + c / 262144); byte_of (128 + (c / 4096) mod 64);
     byte_of (128 + (c / 64) mod 64); byte_of (128 + c mod 64)].

Definition utf8_encode (s : str) : bytes := flat_map utf8_encode_char s.

(** A [str] literal, written as in the source file (UTF-8). *)
Definition u (lit : string) : str := utf8_decode_ignore (b lit).

Definition str_eqb (x y : str) : bool := bool_decide (x = y).
Definition bytes_eqb (x y : bytes) : bool := bool_decide (x = y).

(** [s.startswith(p)], on either kind of string. *)
Fixpoint startswith {A} `{EqDecision A} (p s : list A) : bool :=
  match p, s with
  | [], _ => true
  | _ :: _, [] => false
  | x :: p', y :: s' => bool_decide (x = y) && startswith p' s'
  end.

(** [sub in s]. *)
Fixpoint contains {A} `{EqDecision A} (sub s : list A) : bool :=
  startswith sub s ||
  match s with
  | [] => false
  | _ :: s' => contains sub s'
  end.

(** [s.find(x)] for a single element: the first index, if any. *)
Fixpoint find_index {A} `{EqDecision A} (x : A) (s : list A) : option nat :=
  match s with
  | [] => None
  | y :: s' => if bool_decide (x = y) then Some 0%nat
               else S <$> find_index x s'
  end.

(** [s.rfind(x)] for a single element: the last index, if any. *)
Fixpoint rfind_index {A} `{EqDecision A} (x : A) (s : list A) : option nat :=
  match s with
  | [] => None
  | y :: s' =>
    match rfind_index x s' with
    | Some i => Some (S i)
    | None => if bool_decide (x = y) then Some 0%nat else None
    end
  end.

(** [str.isspace] for one character. *)
Definition isspace (c : N) : bool :=
  ((9 <=? c) && (c <=? 13) || (28 <=? c) && (c <=? 32) || (c =? 133)
   || (c =? 160) || (c =? 5760) || (8192 <=? c) && (c <=? 8202)
   || (c =? 8232) || (c =? 8233) || (c =? 8239) || (c =? 8287)
   || (c =? 12288))%N.

Fixpoint lstrip (s : str) : str :=
  match s with
  | c :: s' => if isspace c then lstrip s' else s
  | [] => []
  end.

(** [s.strip()]. *)
Definition strip (s : str) : str := rev (lstrip (rev (lstrip s))).

(** [s.replace(old, new)] for single characters. *)
Definition replace_char (old new : N) (s : str) : str :=
  map (fun c => if N.eqb c old then new else c) s.

(** [sep.join(parts)]. *)
Fixpoint join (sep : str) (parts : list str) : str :=
  match parts with
  | [] => []
  | [p] => p
  | p :: rest => p ++ sep ++ join sep rest
  end.

(** Decimal digits, most significant first. *)
Fixpoint digits_of_uint (d : Decimal.uint) : str :=
  match d with
  | Nil => []
  | D0 d => 48%N :: digits_of_uint d
  | D1 d => 49%N :: digits_of_uint d
  | D2 d => 50%N :: digits_of_uint d
  | D3 d => 51%N :: digits_of_uint d
  | D4 d => 52%N :: digits_of_uint d
  | D5 d => 53%N :: digits_of_uint d
  | D6 d => 54%N :: digits_of_uint d
  | D7 d => 55%N :: digits_of_uint d
  | D8 d => 56%N :: digits_of_uint d
  | D9 d => 57%N :: digits_of_uint d
  end.

(** [str(n)] for a natural number, a non-negative and an arbitrary [int]. *)
Definition str_of_nat (n : nat) : str := digits_of_uint (Nat.to_uint n).
Definition str_of_N (n : N) : str := digits_of_uint (N.to_uint n).
Definition str_of_Z (z : Z) : str :=
  match z with
  | Zneg p => 45%N :: str_of_N (Npos p)
  | _ => str_of_N (Z.to_N z)
  end.

(** [str(n).zfill(w)], as the [%0wd] directives of [strftime] print. *)
Definition zfill (w : nat) (s : str) : str :=
  replicate (w - length s)%nat 48%N ++ s.

Definition is_digit (c : N) : bool := ((48 <=? c) && (c <=? 57))%N.

(** The value of a digit string, as [int(s)] computes it for digits. *)
Definition Z_of_digits (ds : str) : Z :=
  fold_left (fun acc c => 10 * acc + (Z.of_N c - 48)) ds 0.

(* --------------------------------------------------------------------- *)
(** *** [float]: binary64                                                 *)
(* --------------------------------------------------------------------- *)

Abbreviation float := spec_float.

Definition float_one : float := Eval vm_compute in SFone 53 1024.
Definition float_lt (x y : float) : bool := SFltb x y.

Definition float_same (x y : float) : bool :=
  match x, y with
  | S754_zero s1, S754_zero s2 => Bool.eqb s1 s2
  | S754_infinity s1, S754_infinity s2 => Bool.eqb s1 s2
  | S754_nan, S754_nan => true
  | S754_finite s1 m1 e1, S754_finite s2 m2 e2 =>
    Bool.eqb s1 s2 && Pos.eqb m1 m2 && Z.eqb e1 e2
  | _, _ => false
  end.

(** [float] of the decimal [d * 10^e10], rounded to nearest even as
    [float(text)] does.  For a negative exponent the quotient is computed
    with enough extra bits and a sticky bit, so that one rounding decides. *)
Definition float_of_decimal (neg : bool) (d : Z) (e10 : Z) : float :=
  match d with
  | Zpos p =>
    if 0 <=? e10 then binary_round 53 1024 neg (Z.to_pos (Zpos p * 10 ^ e10)) 0
    else
      let k := 10 ^ (- e10) in
      let s := Z.max 0 (Z.log2 k - Z.log2 (Zpos p) + 60) in
      let a := Zpos p * 2 ^ s in
      let mant := 2 * (a / k) + (if a mod k =? 0 then 0 else 1) in
      binary_round 53 1024 neg (Z.to_pos mant) (- (s + 1))
  | _ => S754_zero neg
  end.

(** [x * 10^k] for the fraction [x = num / den]. *)
Definition scale10 (num den k : Z) : Z * Z :=
  if 0 <=? k then (num * 10 ^ k, den) else (num, den * 10 ^ (- k)).

Definition ge_pow10 (num den E : Z) : bool :=
  let '(n', d') := scale10 num den (- E) in d' <=? n'.

Fixpoint adjust_down (fuel : nat) (num den E : Z) : Z :=
  match fuel with
  | O => E
  | S f => if ge_pow10 num den E then E else adjust_down f num den (E - 1)
  end.

Fixpoint adjust_up (fuel : nat) (num den E : Z) : Z :=
  match fuel with
  | O => E
  | S f => if ge_pow10 num den (E + 1) then adjust_up f num den (E + 1) else E
  end.

(** The decimal exponent [E] with [10^E <= num/den < 10^(E+1)]. *)
Definition floor_log10 (num den : Z) : Z :=
  let E0 := ((Z.log2 num - Z.log2 den) * 30103) / 100000 in
  adjust_up 4 num den (adjust_down 4 num den E0).

(** The [n]-digit decimal nearest to [x = m * 2^e] that reads back as [x],
    if there is one: the pair [(d, e10)] stands for [d * 10^e10]. *)
Definition repr_candidate (m : positive) (e : Z) (n : Z) : option (Z * Z) :=
  let x := S754_finite false m e in
  let '(num, den) := if 0 <=? e then (Zpos m * 2 ^ e, 1) else (Zpos m, 2 ^ (- e)) in
  let E := floor_log10 num den in
  let k := n - 1 - E in
  let '(a, c) := scale10 num den k in
  let lo := a / c in
  let r := a mod c in
  let ok_lo := float_same (float_of_decimal false lo (- k)) x in
  let ok_hi := negb (r =? 0) && float_same (float_of_decimal false (lo + 1) (- k)) x in
  let hi_nearer := (c <? 2 * r) || ((c =? 2 * r) && Z.odd lo) in
  if ok_lo && ok_hi then Some (if hi_nearer then lo + 1 else lo, - k)
  else if ok_lo then Some (lo, - k)
  else if ok_hi then Some (lo + 1, - k)
  else None.

Fixpoint shortest_from (count : nat) (m : positive) (e : Z) (n : Z) : Z * Z :=
  match count with
  | O => (Zpos m, 0)
  | S c =>
    match repr_candidate m e n with
    | Some de => de
    | None => shortest_from c m e (n + 1)
    end
  end.

Fixpoint strip_zeros (fuel : nat) (d e10 : Z) : Z * Z :=
  match fuel with
  | O => (d, e10)
  | S f => if (d mod 10 =? 0) && negb (d =? 0) then strip_zeros f (d / 10) (e10 + 1)
           else (d, e10)
  end.

(** The shortest digit string that identifies the float, with the position
    of the decimal point counted from its left end. *)
Definition shortest_digits (m : positive) (e : Z) : str * Z :=
  let '(d, e10) := shortest_from 17 m e 1 in
  let '(d', e10') := strip_zeros 17 d e10 in
  let ds := str_of_Z d' in
  (ds, Z.of_nat (length ds) + e10').

(** [float.__repr__]. *)
Definition float_repr (x : float) : str :=
  match x with
  | S754_nan => u "nan"
  | S754_infinity s => if s then u "-inf" else u "inf"
  | S754_zero s => if s then u "-0.0" else u "0.0"
  | S754_finite s m e =>
    let '(ds, decpt) := shortest_digits m e in
    let n := Z.of_nat (length ds) in
    let body :=
      if (decpt <=? -4) || (16 <? decpt) then
        let x10 := decpt - 1 in
        take 1 ds ++ (if 1 <? n then u "." ++ drop 1 ds else [])
          ++ u "e" ++ (if x10 <? 0 then u "-" else u "+")
          ++ zfill 2 (str_of_Z (Z.abs x10))
      else if decpt <=? 0 then
        u "0." ++ replicate (Z.to_nat (- decpt)) 48%N ++ ds
      else if n <=? decpt then
        ds ++ replicate (Z.to_nat (decpt - n)) 48%N ++ u ".0"
      else take (Z.to_nat decpt) ds ++ u "." ++ drop (Z.to_nat decpt) ds in
    (if s then u "-" else []) ++ body
  end.

(* --------------------------------------------------------------------- *)
(** *** Values, dictionaries, exceptions                                  *)
(* --------------------------------------------------------------------- *)

(** The Python values that occur in job metadata and in parsed JSON. *)
#[local] Unset Elimination Schemes.
Inductive pyval :=
  | PNone
  | PBool (v : bool)
  | PInt (z : Z)
  | PFloat (x : float)
  | PStr (s : str)
  | PList (items : list pyval)
  | PDict (entries : list (str * pyval)).
#[local] Set Elimination Schemes.

(** A [dict] with [str] keys keeps its entries in insertion order. *)
Abbreviation dict := (list (str * pyval)).

(** [d.get(k)] / [k in d]. *)
Fixpoint dict_get {V} (k : str) (d : list (str * V)) : option V :=
  match d with
  | [] => None
  | (k', v) :: r => if bool_decide (k = k') then Some v else dict_get k r
  end.

(** [d[k] = v]: an existing key keeps its place, a new one goes last. *)
Fixpoint dict_set {V} (k : str) (v : V) (d : list (str * V)) : list (str * V) :=
  match d with
  | [] => [(k, v)]
  | (k', v') :: r =>
    if bool_decide (k = k') then (k, v) :: r else (k', v') :: dict_set k v r
  end.

Definition dict_has {V} (k : str) (d : list (str * V)) : bool :=
  match dict_get k d with Some _ => true | None => false end.

(** [d.get(k, default)]. *)
Definition dict_get_default {V} (k : str) (default : V) (d : list (str * V)) : V :=
  match dict_get k d with Some v => v | None => default end.

Definition dict_keys {V} (d : list (str * V)) : list str := map fst d.

(** Truth value of an object ([if x:]). *)
Definition truthy (v : pyval) : bool :=
  match v with
  | PNone => false
  | PBool x => x
  | PInt z => negb (z =? 0)
  | PFloat (S754_zero _) => false
  | PFloat _ => true
  | PStr s => negb (bool_decide (s = []))
  | PList l => negb (bool_decide (length l = 0%nat))
  | PDict d => negb (bool_decide (length d = 0%nat))
  end.

Definition hex_digit (n : N) : N := if (n <? 10)%N then (48 + n)%N else (87 + n)%N.

(** [format(c, '0wx')]: [w] lower-case hexadecimal digits. *)
Fixpoint hex_fixed (w : nat) (c : N) : str :=
  match w with
  | O => []
  | S w' => hex_fixed w' (c / 16) ++ [hex_digit (c mod 16)]
  end.

(** [str.isprintable] for one character: exact up to U+00FF; above, the
    separators, format characters, surrogates, private-use characters and
    non-characters are excluded, and unassigned code points are not told
    apart from assigned ones. *)
Definition isprintable (c : N) : bool :=
  (if c <? 127 then 32 <=? c
   else if c <? 256 then (161 <=? c) && negb (c =? 173)
   else negb ((c =? 5760) || (8192 <=? c) && (c <=? 8207)
              || (8232 <=? c) && (c <=? 8239) || (8287 <=? c) && (c <=? 8303)
              || (c =? 12288) || (55296 <=? c) && (c <=? 63743)
              || (c =? 65279) || (65529 <=? c) && (c <=? 65535)))%N.

Definition repr_char (quote c : N) : str :=
  (if (c =? quote) || (c =? 92) then [92; c]
   else if c =? 9 then u "\t"
   else if c =? 10 then u "\n"
   else if c =? 13 then u "\r"
   else if isprintable c then [c]
   else if c <? 256 then u "\x" ++ hex_fixed 2 c
   else if c <? 65536 then u "\u" ++ hex_fixed 4 c
   else u "\U" ++ hex_fixed 8 c)%N.

(** [repr(s)] of a [str]. *)
Definition str_repr (s : str) : str :=
  let quote := if contains [39%N] s && negb (contains [34%N] s) then 34%N else 39%N in
  [quote] ++ flat_map (repr_char quote) s ++ [quote].

(** [repr(v)]. *)
Fixpoint py_repr (v : pyval) : str :=
  match v with
  | PNone => u "None"
  | PBool x => if x then u "True" else u "False"
  | PInt z => str_of_Z z
  | PFloat x => float_repr x
  | PStr s => str_repr s
  | PList l => u "[" ++ join (u ", ") (map py_repr l) ++ u "]"
  | PDict d =>
    u "{" ++ join (u ", ") (map (fun kv => str_repr (fst kv) ++ u ": " ++ py_repr (snd kv)) d)
      ++ u "}"
  end.

(** [str(v)]. *)
Definition py_str (v : pyval) : str :=
  match v with
  | PStr s => s
  | _ => py_repr v
  end.

(** Exceptions, with the text that [str(e)] gives. *)
Inductive exn :=
  | JSONDecodeError (msg : str) (doc : str) (pos : nat)
  | RecursionError
  | IndexError (msg : str)
  | AttributeError (msg : str)
  | KeyError (msg : str)
  | TypeError (msg : str)
  | ValueError (msg : str)
  | OverflowError (msg : str)
  | OSError (msg : str)
  | ZlibError (msg : str)
  | OtherError (msg : str).

Definition is_json_decode_error (e : exn) : bool :=
  match e with JSONDecodeError _ _ _ => true | _ => false end.

(** Line and column of a position, as [json.JSONDecodeError] reports them. *)
Definition lineno (doc : str) (pos : nat) : nat :=
  S (length (filter (fun c => c = 10%N) (take pos doc))).

Definition colno (doc : str) (pos : nat) : nat :=
  match rfind_index 10%N (take pos doc) with
  | Some i => (pos - i)%nat
  | None => S pos
  end.

Definition exn_str (e : exn) : str :=
  match e with
  | JSONDecodeError msg doc pos =>
    msg ++ u ": line " ++ str_of_nat (lineno doc pos) ++ u " column "
        ++ str_of_nat (colno doc pos) ++ u " (char " ++ str_of_nat pos ++ u ")"
  | RecursionError => u "maximum recursion depth exceeded"
  | IndexError msg | AttributeError msg | KeyError msg | TypeError msg
  | ValueError msg | OverflowError msg | OSError msg | ZlibError msg
  | OtherError msg => msg
  end.

(** The outcome of a computation that may raise. *)
Inductive result (A : Type) :=
  | Ok (a : A)
  | Raise (e : exn).
Arguments Ok {A} a.
Arguments Raise {A} e.

Definition bind {A B} (r : result A) (k : A -> result B) : result B :=
  match r with
  | Ok a => k a
  | Raise e => Raise e
  end.

(** [try: body / except Exception as e: handler(e)]. *)
Definition try_except {A} (body : result A) (handler : exn -> result A) : result A :=
  match body with
  | Ok a => Ok a
  | Raise e => handler e
  end.

Definition is_ok {A} (r : result A) : bool :=
  match r with Ok _ => true | Raise _ => false end.

End Py.

Notation "x <- c ;; k" := (Py.bind c (fun x => k))
  (at level 100, c at next level, right associativity).

(* ===================================================================== *)
(** ** The [json] module                                                  *)
(* ===================================================================== *)

Module Json.
Import Py.

(** [json.encoder.encode_basestring]: with [ensure_ascii=False] only the
    quote, the backslash and the control characters are escaped. *)
Definition escape_char (c : N) : str :=
  (if c =? 34 then [92; 34]
   else if c =? 92 then u "\\"
   else if c =? 10 then u "\n"
   else if c =? 13 then u "\r"
   else if c =? 9 then u "\t"
   else if c =? 8 then u "\b"
   else if c =? 12 then u "\f"
   else if c <? 32 then u "\u" ++ hex_fixed 4 c
   else [c])%N.

Definition encode_basestring (s : str) : str :=
  [34%N] ++ flat_map escape_char s ++ [34%N].

(** [json.encoder.floatstr] with [allow_nan=True]. *)
Definition floatstr (x : float) : str :=
  match x with
  | S754_nan => u "NaN"
  | S754_infinity s => if s then u "-Infinity" else u "Infinity"
  | _ => float_repr x
  end.

(** [json.dumps(v, ensure_ascii=False, separators=(',', ':'))]. *)
Fixpoint dumps (v : pyval) : str :=
  match v with
  | PNone => u "null"
  | PBool x => if x then u "true" else u "false"
  | PInt z => str_of_Z z
  | PFloat x => floatstr x
  | PStr s => encode_basestring s
  | PList l => u "[" ++ join (u ",") (map dumps l) ++ u "]"
  | PDict d =>
    u "{" ++ join (u ",")
               (map (fun kv => encode_basestring (fst kv) ++ u ":" ++ dumps (snd kv)) d)
      ++ u "}"
  end.

Definition jerr {A} (msg : string) (doc : str) (pos : nat) : result A :=
  Raise (JSONDecodeError (u msg) doc pos).

(** [json.decoder.WHITESPACE]: skip blanks, tabs and line ends. *)
Fixpoint skip_ws (idx : nat) (s : str) : nat * str :=
  match s with
  | c :: t =>
    if ((c =? 32) || (c =? 9) || (c =? 10) || (c =? 13))%N then skip_ws (S idx) t
    else (idx, s)
  | [] => (idx, [])
  end.

Definition hex_value (c : N) : option N :=
  (if (48 <=? c) && (c <=? 57) then Some (c - 48)
   else if (97 <=? c) && (c <=? 102) then Some (c - 87)
   else if (65 <=? c) && (c <=? 70) then Some (c - 55)
   else None)%N.

(** Four hexadecimal digits at the head of [s]. *)
Definition hex4 (s : str) : option (N * str) :=
  match s with
  | c1 :: c2 :: c3 :: c4 :: t =>
    match hex_value c1, hex_value c2, hex_value c3, hex_value c4 with
    | Some h1, Some h2, Some h3, Some h4 =>
      Some (((h1 * 16 + h2) * 16 + h3) * 16 + h4, t)%N
    | _, _, _, _ => None
    end
  | _ => None
  end.

Definition simple_escape (c : N) : option N :=
  (if c =? 34 then Some 34
   else if c =? 92 then Some 92
   else if c =? 47 then Some 47
   else if c =? 98 then Some 8
   else if c =? 102 then Some 12
   else if c =? 110 then Some 10
   else if c =? 114 then Some 13
   else if c =? 116 then Some 9
   else None)%N.

(** [scanstring(doc, idx, strict=True)]: [s] is the text after the opening
    quote, which stands at [start]; [acc] holds the characters read so far,
    last first.  The result is the string and the text after its closing
    quote. *)
Fixpoint scanstring (fuel : nat) (doc : str) (start idx : nat) (s acc : str)
  : result (str * nat * str) :=
  match fuel with
  | O => Raise RecursionError
  | S f =>
    match s with
    | [] => jerr "Unterminated string starting at" doc start
    | c :: t =>
      if (c =? 34)%N then Ok (rev acc, S idx, t)
      else if (c =? 92)%N then
        match t with
        | [] => jerr "Unterminated string starting at" doc start
        | e :: t' =>
          if (e =? 117)%N then
            match hex4 t' with
            | None => jerr "Invalid \uXXXX escape" doc (S idx)
            | Some (hi, t'') =>
              let pair :=
                if ((55296 <=? hi) && (hi <=? 56319))%N then
                  match t'' with
                  | 92%N :: 117%N :: t3 =>
                    match hex4 t3 with
                    | Some (lo, t4) =>
                      if ((56320 <=? lo) && (lo <=? 57343))%N
                      then Some (65536 + ((hi - 55296) * 1024 + (lo - 56320)), t4)%N
                      else None
                    | None => None
                    end
                  | _ => None
                  end
                else None in
              match pair with
              | Some (cp, t4) => scanstring f doc start (idx + 12) t4 (cp :: acc)
              | None => scanstring f doc start (idx + 6) t'' (hi :: acc)
              end
            end
          else
            match simple_escape e with
            | Some ch => scanstring f doc start (idx + 2) t' (ch :: acc)
            | None => jerr "Invalid \escape" doc idx
            end
        end
      else if (c <? 32)%N then jerr "Invalid control character at" doc idx
      else scanstring f doc start (S idx) t (c :: acc)
    end
  end.

(** The longest run of digits at the head of [s]. *)
Fixpoint span_digits (s : str) : str * str :=
  match s with
  | c :: t => if is_digit c then let '(ds, r) := span_digits t in (c :: ds, r)
              else ([], s)
  | [] => ([], [])
  end.

(** [json.scanner.NUMBER_RE] at the head of [s]: an optional minus sign, then
    [0] or a digit string without leading zero; optionally a point and
    digits; optionally [e] or [E], a sign and digits.  An integer literal
    gives an [int], one with a fraction or an exponent a [float]. *)
Definition match_number (doc : str) (idx : nat) (s : str) : result (pyval * nat * str) :=
  let '(neg, s1) := match s with 45%N :: t => (true, t) | _ => (false, s) end in
  let '(ipart, s2) :=
    match s1 with
    | 48%N :: t => ([48%N], t)
    | _ => span_digits s1
    end in
  match ipart with
  | [] => jerr "Expecting value" doc idx
  | _ =>
    let '(frac, s3) :=
      match s2 with
      | 46%N :: t =>
        let '(ds, r) := span_digits t in
        match ds with [] => ([], s2) | _ => (ds, r) end
      | _ => ([], s2)
      end in
    let '(ex, s4) :=
      match s3 with
      | e :: t =>
        if ((e =? 101) || (e =? 69))%N then
          let '(sgn, t1) :=
            match t with
            | 45%N :: t' => (-1, t')
            | 43%N :: t' => (1, t')
            | _ => (1, t)
            end in
          let '(ds, r) := span_digits t1 in
          match ds with [] => (None, s3) | _ => (Some (sgn * Z_of_digits ds), r) end
        else (None, s3)
      | [] => (None, s3)
      end in
    let idx' := (idx + (length s - length s4))%nat in
    match frac, ex with
    | [], None =>
      Ok (PInt ((if neg then -1 else 1) * Z_of_digits ipart), idx', s4)
    | _, _ =>
      let e10 := match ex with Some e => e | None => 0 end in
      Ok (PFloat (float_of_decimal neg (Z_of_digits (ipart ++ frac))
                                   (e10 - Z.of_nat (length frac))), idx', s4)
    end
  end.

(** [dict(pairs)]: a repeated key keeps its first place and its last value. *)
Definition dict_of_pairs (pairs : list (str * pyval)) : dict :=
  fold_left (fun d kv => dict_set (fst kv) (snd kv) d) pairs [].

(** [scan_once(doc, idx)] with its object and array loops.  [parse_pairs]
    starts where a property name is expected, [parse_items] where an item
    is expected; [acc] holds what was read so far, last first. *)
Fixpoint scan_once (fuel : nat) (doc : str) (idx : nat) (s : str)
  : result (pyval * nat * str) :=
  match fuel with
  | O => Raise RecursionError
  | S f =>
    match s with
    | [] => jerr "Expecting value" doc idx
    | c :: t =>
      if (c =? 34)%N then
        r <- scanstring f doc idx (S idx) t [] ;;
        let '(v, i, s') := r in Ok (PStr v, i, s')
      else if (c =? 123)%N then
        let '(i, s') := skip_ws (S idx) t in
        match s' with
        | 125%N :: s'' => Ok (PDict [], S i, s'')
        | _ => parse_pairs f doc i s' []
        end
      else if (c =? 91)%N then
        let '(i, s') := skip_ws (S idx) t in
        match s' with
        | 93%N :: s'' => Ok (PList [], S i, s'')
        | _ => parse_items f doc i s' []
        end
      else if (c =? 110)%N && startswith (u "ull") t then Ok (PNone, (idx + 4)%nat, drop 3 t)
      else if (c =? 116)%N && startswith (u "rue") t then Ok (PBool true, (idx + 4)%nat, drop 3 t)
      else if (c =? 102)%N && startswith (u "alse") t then Ok (PBool false, (idx + 5)%nat, drop 4 t)
      else if (c =? 78)%N && startswith (u "aN") t then Ok (PFloat S754_nan, (idx + 3)%nat, drop 2 t)
      else if (c =? 73)%N && startswith (u "nfinity") t
      then Ok (PFloat (S754_infinity false), (idx + 8)%nat, drop 7 t)
      else if (c =? 45)%N && startswith (u "Infinity") t
      then Ok (PFloat (S754_infinity true), (idx + 9)%nat, drop 8 t)
      else match_number doc idx s
    end
  end
with parse_pairs (fuel : nat) (doc : str) (idx : nat) (s : str) (acc : list (str * pyval))
  : result (pyval * nat * str) :=
  match fuel with
  | O => Raise RecursionError
  | S f =>
    match s with
    | 34%N :: t =>
      r <- scanstring f doc idx (S idx) t [] ;;
      let '(key, i, s1) := r in
      let '(i1, s2) := skip_ws i s1 in
      match s2 with
      | 58%N :: s3 =>
        let '(i2, s4) := skip_ws (S i1) s3 in
        r <- scan_once f doc i2 s4 ;;
        let '(v, i3, s5) := r in
        let '(i4, s6) := skip_ws i3 s5 in
        match s6 with
        | 125%N :: s7 => Ok (PDict (dict_of_pairs (rev ((key, v) :: acc))), S i4, s7)
        | 44%N :: s7 =>
          let '(i5, s8) := skip_ws (S i4) s7 in
          parse_pairs f doc i5 s8 ((key, v) :: acc)
        | _ => jerr "Expecting ',' delimiter" doc i4
        end
      | _ => jerr "Expecting ':' delimiter" doc i1
      end
    | _ => jerr "Expecting property name enclosed in double quotes" doc idx
    end
  end
with parse_items (fuel : nat) (doc : str) (idx : nat) (s : str) (acc : list pyval)
  : result (pyval * nat * str) :=
  match fuel with
  | O => Raise RecursionError
  | S f =>
    r <- scan_once f doc idx s ;;
    let '(v, i, s1) := r in
    let '(i1, s2) := skip_ws i s1 in
    match s2 with
    | 93%N :: s3 => Ok (PList (rev (v :: acc)), S i1, s3)
    | 44%N :: s3 =>
      let '(i2, s4) := skip_ws (S i1) s3 in
      parse_items f doc i2 s4 (v :: acc)
    | _ => jerr "Expecting ',' delimiter" doc i1
    end
  end.

(** [json.loads(doc)] for a [str] document.  The fuel is enough for every
    document, so [RecursionError] is never raised here: the limits of the
    interpreter (the depth of the recursion, the number of digits of an
    [int]) are not modelled. *)
Definition loads (doc : str) : result pyval :=
  match doc with
  | 65279%N :: _ => jerr "Unexpected UTF-8 BOM (decode using utf-8-sig)" doc 0
  | _ =>
    let '(i, s) := skip_ws 0 doc in
    r <- scan_once (2 * length doc + 2) doc i s ;;
    let '(v, i1, s1) := r in
    let '(i2, s2) := skip_ws i1 s1 in
    match s2 with
    | [] => Ok v
    | _ => jerr "Extra data" doc i2
    end
  end.

End Json.

(* ===================================================================== *)
(** ** The host application: jobs, clock, file system, logger             *)
(* ===================================================================== *)

Module Host.
Import Py.

(** [datetime.datetime]. *)
Record datetime := {
  year : N; month : N; day : N;
  hour : N; minute : N; second : N; microsecond : N
}.

Definition pad (w : nat) (n : N) : str := zfill w (str_of_N n).

(** [t.strftime('%Y-%m-%d %H:%M:%S')]. *)
Definition strftime_record (t : datetime) : str :=
  pad 4 (year t) ++ u "-" ++ pad 2 (month t) ++ u "-" ++ pad 2 (day t) ++ u " "
    ++ pad 2 (hour t) ++ u ":" ++ pad 2 (minute t) ++ u ":" ++ pad 2 (second t).

(** [t.strftime('%Y%m%d-%H%M%S-%f')[:-3]]: the microseconds lose their last
    three digits, which leaves milliseconds. *)
Definition strftime_millis (t : datetime) : str :=
  let s := pad 4 (year t) ++ pad 2 (month t) ++ pad 2 (day t) ++ u "-"
             ++ pad 2 (hour t) ++ pad 2 (minute t) ++ pad 2 (second t) ++ u "-"
             ++ pad 6 (microsecond t) in
  take (length s - 3) s.

(** Modelled from the spec: the enumeration [JobKind] is declared in the
    host's job module, which is not part of the plugin.  The three members
    the plugin names are kept; [other_kind] stands for any further member,
    with its [name]. *)
Inductive JobKind :=
  | diffusion
  | animation
  | upscaling
  | other_kind (name : str).

Definition kind_name (k : JobKind) : str :=
  match k with
  | diffusion => u "diffusion"
  | animation => u "animation"
  | upscaling => u "upscaling"
  | other_kind n => n
  end.

(** Modelled from the spec: the enumeration [JobState] of the host, of which
    the plugin names [finished] only. *)
Inductive JobState :=
  | queued
  | executing
  | finished
  | cancelled.

(** An image result; [Image.save] is the host's. *)
Record Image := { pixel_data : bytes }.

(** [job.params].  [name] and [strength] are read with [getattr] and
    [hasattr] by the plugin, so they may be missing. *)
Record JobParams := {
  name : option str;
  prompt : str;
  seed : Z;
  strength : option float;
  metadata : dict
}.

Record Job := {
  id : str;
  kind : JobKind;
  state : JobState;
  params : JobParams;
  timestamp : datetime;
  results : list Image
}.

(** [folder / name] for a [pathlib] path and a segment, on POSIX paths that
    are in normal form: an absolute segment replaces the folder.  [pathlib]
    also drops the empty and the [.] components of what it is given, gives
    [doc] for an empty folder, and on Windows knows drives and backslashes;
    none of this is modelled, the text is kept as it is. *)
Definition path_join (folder segment : str) : str :=
  if startswith [47%N] segment then segment else folder ++ [47%N] ++ segment.

(** [Path(p).name] and [Path(p).stem]. *)
Definition path_name (p : str) : str :=
  match rfind_index 47%N p with
  | Some i => drop (S i) p
  | None => p
  end.

Definition path_stem (p : str) : str :=
  let n := path_name p in
  match rfind_index 46%N n with
  | Some i => if (0 <? i)%nat && (i <? length n - 1)%nat then take i n else n
  | None => n
  end.

(** [Path(p).suffix]. *)
Definition path_suffix (p : str) : str :=
  let n := path_name p in
  match rfind_index 46%N n with
  | Some i => if (0 <? i)%nat && (i <? length n - 1)%nat then drop i n else []
  | None => []
  end.

(** What the plugin tells the logger; one constructor per message. *)
Inductive message :=
  | JobHasImages (n : nat)
  | SavingTo (folder image_type : str) (k : JobKind) (s : option float)
  | SavingImage (i n : nat) (path : str)
  | SavedImage (path : str) (chars : nat)
  | SaveFailed (path : str) (e : exn)
  | SavedJob (count : nat) (job : str)
  | JobFailed (job : str) (e : exn)
  | TotalSaved (total : nat)
  | HistorySavedImage (path : str) (chars : nat)
  | HistorySaveFailed (path : str) (e : exn)
  | ExtractFailed (e : exn).

Inductive log_entry :=
  | Info (m : message)
  | Warning (m : message).

(** The text chunks that [Image.save(path, metadata=...)] is given. *)
Abbreviation text_chunks := (list (str * str)).

(** The part of the world the plugin acts on: directories, files written by
    [Image.save], the number of clock readings taken, and the log. *)
Record World := {
  dirs : gset str;
  files : gmap str (Image * text_chunks);
  ticks : nat;
  log : list log_entry
}.

(** What the plugin reads from its surroundings: the settings, the name of
    the open document, the clock, and which requests the operating system
    refuses. *)
Record Env := {
  auto_save_generated : bool;
  auto_save_folder : str;
  document_filename : str;
  now : nat -> datetime;
  mkdir_refused : str -> bool;
  save_refused : str -> Image -> bool
}.

(** A statement: it changes the world and returns or raises. *)
Definition M (A : Type) : Type := World -> World * result A.

Definition ret {A} (a : A) : M A := fun w => (w, Ok a).
Definition lift {A} (r : result A) : M A := fun w => (w, r).

Definition bindM {A B} (m : M A) (k : A -> M B) : M B :=
  fun w =>
    match m w with
    | (w', Ok a) => k a w'
    | (w', Raise e) => (w', Raise e)
    end.

(** [try: body / except Exception as e: handler]. *)
Definition tryM {A} (body : M A) (handler : exn -> M A) : M A :=
  fun w =>
    match body w with
    | (w', Raise e) => handler e w'
    | r => r
    end.

(** [datetime.now()]. *)
Definition datetime_now (env : Env) : M datetime :=
  fun w =>
    ({| dirs := dirs w; files := files w; ticks := S (ticks w); log := log w |},
     Ok (now env (ticks w))).

Definition log_info (m : message) : M unit :=
  fun w =>
    ({| dirs := dirs w; files := files w; ticks := ticks w;
        log := log w ++ [Info m] |}, Ok tt).

Definition log_warning (m : message) : M unit :=
  fun w =>
    ({| dirs := dirs w; files := files w; ticks := ticks w;
        log := log w ++ [Warning m] |}, Ok tt).

(** [p.mkdir(exist_ok=True)]: nothing happens to an existing directory; a
    file of that name, or a refusal of the system, raises. *)
Definition mkdir (env : Env) (p : str) : M unit :=
  fun w =>
    if mkdir_refused env p then (w, Raise (OSError (u "Permission denied")))
    else match files w !! p with
         | Some _ => (w, Raise (OSError (u "File exists")))
         | None =>
           ({| dirs := {[p]} ∪ dirs w; files := files w; ticks := ticks w;
               log := log w |}, Ok tt)
         end.

(** [img.save(path, metadata=chunks)]: the file is written whole or not at
    all. *)
Definition image_save (env : Env) (img : Image) (path : str) (chunks : text_chunks)
  : M unit :=
  fun w =>
    if save_refused env path img then (w, Raise (OSError (u "Unable to save image")))
    else ({| dirs := dirs w; files := <[path := (img, chunks)]> (files w);
             ticks := ticks w; log := log w |}, Ok tt).

End Host.

Notation "x <~ c ;; k" := (Host.bindM c (fun x => k))
  (at level 100, c at next level, right associativity).
Notation "c ;;; k" := (Host.bindM c (fun _ => k))
  (at level 100, right associativity).

(* ===================================================================== *)
(** ** [persistence.py]                                                   *)
(* ===================================================================== *)

Module Persistence.
Import Py Host.

(** [_clean_metadata_value]: control characters other than tab, line feed
    and carriage return, and U+FFFD to U+FFFF, are removed; then the value
    is stripped. *)
Definition is_control (c : N) : bool :=
  ((c <=? 8) || (c =? 11) || (c =? 12) || (14 <=? c) && (c <=? 31) || (c =? 127))%N.

Definition is_problem (c : N) : bool :=
  ((c =? 65533) || (c =? 65534) || (c =? 65535))%N.

Definition _clean_metadata_value (value : pyval) : str :=
  let value := py_str value in
  let value := filter (fun c => negb (is_control c) = true) value in
  let value := filter (fun c => negb (is_problem c) = true) value in
  strip value.

(** The label of a job's images, as [_auto_save_images] and
    [_auto_save_images_from_history] compute it. *)
Definition is_refined (p : JobParams) : bool :=
  match strength p with
  | Some s => float_lt s float_one
  | None => false
  end.

Definition image_type (job : Job) : str :=
  match kind job with
  | upscaling => u "Upscale"
  | _ => if is_refined (params job) then u "Refine" else u "ImgGenerate"
  end.

(** [str(prompt).replace(' ', '_')[:50]] for
    [prompt = getattr(job.params, 'name', 'image')]. *)
Definition prompt_prefix (p : JobParams) : str :=
  take 50 (replace_char 32 95 (default (u "image") (name p))).

(** [f"{prompt}_{timestamp}_{image_type}_{i}.png"]. *)
Definition filename (p : JobParams) (timestamp image_type : str) (i : nat) : str :=
  prompt_prefix p ++ u "_" ++ timestamp ++ u "_" ++ image_type ++ u "_"
    ++ str_of_nat i ++ u ".png".

(** The enabled entries of [metadata["loras"]]. *)
Definition lora_list (loras : list pyval) : list pyval :=
  flat_map (fun lora =>
    match lora with
    | PDict d =>
      if truthy (dict_get_default (u "enabled") (PBool true) d)
      then [PDict [(u "name", PStr (_clean_metadata_value
                                     (dict_get_default (u "name") (PStr (u "Unknown")) d)));
                   (u "strength", dict_get_default (u "strength") (PFloat float_one) d)]]
      else []
    | _ => []
    end) loras.

Definition reserved_keys : list str :=
  [u "prompt"; u "negative_prompt"; u "style"; u "checkpoint"; u "sampler"; u "loras"].

(** The value stored for a further metadata key: cleaned, and cut to 500
    characters. *)
Definition clean_value (value : pyval) : str :=
  let c := _clean_metadata_value (PStr (py_str value)) in
  if (500 <? length c)%nat then take 497 c ++ u "..." else c.

(** The dictionary [all_metadata] built for image [i] of a job. *)
Definition all_metadata (job : Job) (i : nat) (image_type : str) : result dict :=
  let p := params job in
  let md := metadata p in
  s <- match strength p with
       | Some s => Ok s
       | None => Raise (AttributeError (u "'JobParams' object has no attribute 'strength'"))
       end ;;
  let basic : dict :=
    [ (u "prompt", PStr (_clean_metadata_value (PStr (prompt p))));
      (u "negative_prompt",
         PStr (_clean_metadata_value (dict_get_default (u "negative_prompt") (PStr []) md)));
      (u "seed", PInt (seed p));
      (u "strength", PFloat s);
      (u "style", PStr (_clean_metadata_value (dict_get_default (u "style") (PStr []) md)));
      (u "checkpoint",
         PStr (_clean_metadata_value (dict_get_default (u "checkpoint") (PStr []) md)));
      (u "sampler", PStr (_clean_metadata_value (dict_get_default (u "sampler") (PStr []) md)));
      (u "generation_type", PStr image_type);
      (u "job_kind", PStr (kind_name (kind job)));
      (u "timestamp", PStr (strftime_record (timestamp job)));
      (u "batch_index", PInt (Z.of_nat i));
      (u "total_images", PInt (Z.of_nat (length (results job)))) ] in
  let technical :=
    match dict_get (u "loras") md with
    | Some (PList loras) => dict_set (u "loras") (PList (lora_list loras)) basic
    | Some loras => dict_set (u "loras") (PStr (py_str loras)) basic
    | None => basic
    end in
  Ok (fold_left
        (fun acc kv =>
           if bool_decide (fst kv ∈ reserved_keys) then acc
           else dict_set (u "param_" ++ fst kv) (PStr (clean_value (snd kv))) acc)
        md technical).

(** The reduced record that replaces a record that is too long. *)
Definition essential_metadata (all_metadata : dict) : dict :=
  [ (u "prompt", dict_get_default (u "prompt") (PStr []) all_metadata);
    (u "seed", dict_get_default (u "seed") (PInt 0) all_metadata);
    (u "strength", dict_get_default (u "strength") (PFloat float_one) all_metadata);
    (u "generation_type", dict_get_default (u "generation_type") (PStr []) all_metadata);
    (u "timestamp", dict_get_default (u "timestamp") (PStr []) all_metadata);
    (u "truncated", PBool true) ].

(** The text stored under the key [metadata]: the compact JSON of the
    record, or of the reduced record when [len] of the former exceeds 4000. *)
Definition metadata_json (all_metadata : dict) : str :=
  let metadata_json := Json.dumps (PDict all_metadata) in
  if (4000 <? length metadata_json)%nat
  then Json.dumps (PDict (essential_metadata all_metadata))
  else metadata_json.

Section AutoSave.
Variable env : Env.

(** The folder name that stands for the open document. *)
Definition doc_name : str :=
  if bool_decide (document_filename env = []) then u "document_non_sauvegarde"
  else path_stem (document_filename env).

(** One turn of the loop over [enumerate(job.results)] in
    [_auto_save_images]. *)
Definition auto_save_image (job : Job) (type_folder image_type : str)
           (i : nat) (img : Image) : M unit :=
  t <~ datetime_now env ;;
  let path := path_join type_folder
                (filename (params job) (strftime_millis t) image_type i) in
  log_info (SavingImage (S i) (length (results job)) path) ;;;
  tryM (md <~ lift (all_metadata job i image_type) ;;
        let metadata_json := metadata_json md in
        image_save env img path [(u "metadata", metadata_json)] ;;;
        log_info (SavedImage path (length metadata_json)))
       (fun e => log_warning (SaveFailed path e)).

Fixpoint auto_save_loop (job : Job) (type_folder image_type : str)
         (imgs : list Image) (i : nat) : M unit :=
  match imgs with
  | [] => ret tt
  | img :: rest =>
    auto_save_image job type_folder image_type i img ;;;
    auto_save_loop job type_folder image_type rest (S i)
  end.

(** [ModelSync._auto_save_images]; its caller checks the setting. *)
Definition _auto_save_images (job : Job) : M unit :=
  log_info (JobHasImages (length (results job))) ;;;
  let base_folder := auto_save_folder env in
  mkdir env base_folder ;;;
  let doc_folder := path_join base_folder doc_name in
  mkdir env doc_folder ;;;
  let image_type := image_type job in
  let type_folder := path_join doc_folder image_type in
  mkdir env type_folder ;;;
  log_info (SavingTo type_folder image_type (kind job) (strength (params job))) ;;;
  auto_save_loop job type_folder image_type (results job) 0.

(** One turn of the inner loop of [_auto_save_images_from_history]. *)
Definition history_save_image (job : Job) (type_folder image_type : str)
           (i : nat) (img : Image) (total_saved : nat) : M nat :=
  t <~ datetime_now env ;;
  let path := path_join type_folder
                (filename (params job) (strftime_millis t) image_type i) in
  tryM (md <~ lift (all_metadata job i image_type) ;;
        let metadata_json := metadata_json md in
        image_save env img path [(u "metadata", metadata_json)] ;;;
        log_info (HistorySavedImage path (length metadata_json)) ;;;
        ret (S total_saved))
       (fun e => log_warning (HistorySaveFailed path e) ;;; ret total_saved).

Fixpoint history_save_loop (job : Job) (type_folder image_type : str)
         (imgs : list Image) (i : nat) (total_saved : nat) : M nat :=
  match imgs with
  | [] => ret total_saved
  | img :: rest =>
    c <~ history_save_image job type_folder image_type i img total_saved ;;
    history_save_loop job type_folder image_type rest (S i) c
  end.

Fixpoint history_jobs (doc_folder : str) (entries : list Job) (total_saved : nat)
  : M nat :=
  match entries with
  | [] => ret total_saved
  | job :: rest =>
    match state job, results job with
    | finished, _ :: _ =>
      let image_type := image_type job in
      let type_folder := path_join doc_folder image_type in
      mkdir env type_folder ;;;
      c <~ history_save_loop job type_folder image_type (results job) 0 total_saved ;;
      history_jobs doc_folder rest c
    | _, _ => history_jobs doc_folder rest total_saved
    end
  end.

(** [_auto_save_images_from_history(model)], over [model.jobs._entries]. *)
Definition _auto_save_images_from_history (entries : list Job) : M nat :=
  if negb (auto_save_generated env) then ret 0%nat
  else
    let base_folder := auto_save_folder env in
    mkdir env base_folder ;;;
    let doc_folder := path_join base_folder doc_name in
    mkdir env doc_folder ;;;
    history_jobs doc_folder entries 0.
End AutoSave.

End Persistence.

(* ===================================================================== *)
(** ** [krita_ai_metadata_downloads/auto_save.py]                         *)
(* ===================================================================== *)

Module AutoSave.
Import Py Host.

Section AutoSaveManager.
(** Modelled from the spec: [MetadataFormatter.prepare_for_save] and
    [ImageTypeDetector.get_image_type] live in the plugin's [utils] module,
    which is missing.  The first builds the record of image [i] of a job
    (it may raise), the second gives the label of a job. *)
Variable prepare_for_save : Job -> nat -> str -> result dict.
Variable get_image_type : Job -> str.
Variable env : Env.

Definition doc_name : str :=
  if bool_decide (document_filename env = []) then u "unsaved_document"
  else path_stem (document_filename env).

(** The path of image [i], from the clock reading [t] taken for it. *)
Definition image_path (job : Job) (type_folder image_type : str) (i : nat)
           (t : datetime) : str :=
  path_join type_folder
    (Persistence.filename (params job) (strftime_millis t) image_type i).

(** One turn of the loop of [save_job_images].  The statements of the [try]
    block that come before the assignment of [path] do not raise, so the
    handler always finds [path] bound.  Lines 87 to 100, which limit the
    size of the JSON text, repeat those of [persistence.py]. *)
Definition save_image (job : Job) (type_folder image_type : str)
           (i : nat) (img : Image) (saved_count : nat) : M nat :=
  t <~ datetime_now env ;;
  let path := image_path job type_folder image_type i t in
  tryM (log_info (SavingImage (S i) (length (results job)) path) ;;;
        all_metadata <~ lift (prepare_for_save job i image_type) ;;
        let metadata_json := Persistence.metadata_json all_metadata in
        image_save env img path [(u "metadata", metadata_json)] ;;;
        log_info (SavedImage path (length metadata_json)) ;;;
        ret (S saved_count))
       (fun e => log_warning (SaveFailed path e) ;;; ret saved_count).

Fixpoint save_images (job : Job) (type_folder image_type : str)
         (imgs : list Image) (i : nat) (saved_count : nat) : M nat :=
  match imgs with
  | [] => ret saved_count
  | img :: rest =>
    c <~ save_image job type_folder image_type i img saved_count ;;
    save_images job type_folder image_type rest (S i) c
  end.

Definition type_folder (job : Job) : str :=
  path_join (path_join (auto_save_folder env) doc_name) (get_image_type job).

(** [AutoSaveManager.save_job_images]. *)
Definition save_job_images (job : Job) : M nat :=
  if negb (auto_save_generated env) then ret 0%nat
  else
    match results job with
    | [] => ret 0%nat
    | _ :: _ =>
      log_info (JobHasImages (length (results job))) ;;;
      let base_folder := auto_save_folder env in
      mkdir env base_folder ;;;
      let doc_folder := path_join base_folder doc_name in
      mkdir env doc_folder ;;;
      let image_type := get_image_type job in
      let type_folder := path_join doc_folder image_type in
      mkdir env type_folder ;;;
      log_info (SavingTo type_folder image_type (kind job) (strength (params job))) ;;;
      save_images job type_folder image_type (results job) 0 0
    end.

(** [job.results and job.kind in [diffusion, animation, upscaling]]. *)
Definition selected (job : Job) : bool :=
  match results job with
  | [] => false
  | _ :: _ =>
    match kind job with
    | diffusion | animation | upscaling => true
    | other_kind _ => false
    end
  end.

Fixpoint save_entries (entries : list Job) (total_saved : nat) : M nat :=
  match entries with
  | [] => ret total_saved
  | job :: rest =>
    if selected job then
      c <~ tryM (saved_count <~ save_job_images job ;;
                 log_info (SavedJob saved_count (id job)) ;;;
                 ret (total_saved + saved_count)%nat)
                (fun e => log_warning (JobFailed (id job) e) ;;; ret total_saved) ;;
      save_entries rest c
    else save_entries rest total_saved
  end.

(** [AutoSaveManager.save_all_history_images], over
    [self._model.jobs._entries]. *)
Definition save_all_history_images (entries : list Job) : M nat :=
  if negb (auto_save_generated env) then ret 0%nat
  else
    let base_folder := auto_save_folder env in
    mkdir env base_folder ;;;
    let doc_folder := path_join base_folder doc_name in
    mkdir env doc_folder ;;;
    total_saved <~ save_entries entries 0 ;;
    log_info (TotalSaved total_saved) ;;;
    ret total_saved.
End AutoSaveManager.

End AutoSave.

(* ===================================================================== *)
(** ** [ui/generation.py]: reading the metadata of an image file          *)
(* ===================================================================== *)

Module Generation.
Import Py.

(** The lazy group [(.*?)] followed by the look-ahead [(?=s1|s2|...)]: the
    shortest prefix of [data] after which one of [stops] begins, and the
    text from there on. *)
Fixpoint lazy_until (stops : list bytes) (data : bytes) : option (bytes * bytes) :=
  if existsb (fun m => startswith m data) stops then Some ([], data)
  else match data with
       | [] => None
       | x :: t =>
         match lazy_until stops t with
         | Some (cap, rest) => Some (x :: cap, rest)
         | None => None
         end
       end.

(** [re.findall(start + b'(.*?)(?=' + b'|'.join(stops) + b')', data,
    re.DOTALL)]: the groups of the successive matches, each search starting
    where the previous match ended. *)
Fixpoint findall_from (fuel : nat) (start : bytes) (stops : list bytes) (data : bytes)
  : list bytes :=
  match fuel with
  | O => []
  | S f =>
    match data with
    | [] => []
    | _ :: t =>
      if startswith start data then
        match lazy_until stops (drop (length start) data) with
        | Some (cap, rest) => cap :: findall_from f start stops rest
        | None => findall_from f start stops t
        end
      else findall_from f start stops t
    end
  end.

Definition findall (start : bytes) (stops : list bytes) (data : bytes) : list bytes :=
  findall_from (S (length data)) start stops data.

(** [data.find(sub)]. *)
Fixpoint find_sub (sub data : bytes) : option nat :=
  if startswith sub data then Some 0%nat
  else match data with
       | [] => None
       | _ :: t => S <$> find_sub sub t
       end.

(** [bytes.lower] and, for [str], the case mappings on the characters up to
    U+00FF (beyond, the text is left as it is). *)
Definition bytes_lower (data : bytes) : bytes :=
  map (fun x => if byte_in 65 90 x then byte_of (Byte.to_N x + 32) else x) data.

Definition str_lower (s : str) : str :=
  map (fun c => if ((65 <=? c) && (c <=? 90) || (192 <=? c) && (c <=? 222) && negb (c =? 215))%N
                then (c + 32)%N else c) s.

Definition str_upper (s : str) : str :=
  flat_map (fun c =>
    if ((97 <=? c) && (c <=? 122) || (224 <=? c) && (c <=? 254) && negb (c =? 247))%N
    then [(c - 32)%N]
    else if (c =? 223)%N then u "SS"
    else if (c =? 181)%N then [924%N]
    else if (c =? 255)%N then [376%N]
    else [c]) s.

(** [str(Path(p).parent)]. *)
Definition path_parent (p : str) : str :=
  match rfind_index 47%N p with
  | Some O => u "/"
  | Some i => take i p
  | None => u "."
  end.

(** [f"{size / 1024:.1f}"]: one decimal, ties to even. *)
Definition format_kb (size : N) : str :=
  let q := (size * 10 / 1024)%N in
  let r := (size * 10 mod 1024)%N in
  let tenths := if ((512 <? r) || (r =? 512) && N.odd q)%N then (q + 1)%N else q in
  str_of_N (tenths / 10) ++ u "." ++ str_of_N (tenths mod 10).

(** What Qt and the file system report about the chosen file.  [st_size] is
    the answer of [stat()], which is asked for a file that Qt has just
    loaded and is taken to succeed. *)
Record QImage := {
  depth : Z;
  format_name : result str
}.

Record ImageFile := {
  file_path : str;
  st_size : N;
  pixmap : option (Z * Z);
  qimage : option QImage;
  contents : result bytes
}.

Definition ai_keywords : list str := [u "AI_METADATA_JSON"; u "AI"; u "AI_META"].

(** The key under which the parsed record is stored. *)
Definition AI_METADATA_JSON : str := u "AI_METADATA_JSON".

Section Decode.
(** [zlib.decompress]. *)
Variable zlib_decompress : bytes -> result bytes.

(** The body of the loop over the [tEXt] chunks. *)
Definition text_chunk (chunk : bytes) (metadata : dict) : result dict :=
  match find_index x00 chunk with
  | Some null_pos =>
    let keyword := utf8_decode_ignore (take null_pos chunk) in
    let text_data := utf8_decode_ignore (drop (S null_pos) chunk) in
    if bool_decide (keyword ∈ ai_keywords) then
      try_except
        (parsed_metadata <- Json.loads (strip text_data) ;;
         Ok (dict_set AI_METADATA_JSON parsed_metadata metadata))
        (fun e => Ok (dict_set (u "PNG_tEXt_" ++ keyword)
                               (PStr (u "Error parsing JSON: " ++ exn_str e)) metadata))
    else if bool_decide (keyword = u "metadata") then
      try_except
        (parsed_metadata <- Json.loads (strip text_data) ;;
         Ok (dict_set AI_METADATA_JSON parsed_metadata metadata))
        (fun _ => Ok (dict_set (u "PNG_tEXt_" ++ keyword) (PStr text_data) metadata))
    else Ok (dict_set (u "PNG_tEXt_" ++ keyword) (PStr text_data) metadata)
  | None => Ok metadata
  end.

(** [except: continue] around it. *)
Definition text_chunks (chunks : list bytes) (metadata : dict) : dict :=
  fold_left (fun md chunk =>
               match text_chunk chunk md with Ok md' => md' | Raise _ => md end)
            chunks metadata.

(** The inner [try] block of a [zTXt] chunk under one of the keywords. *)
Definition inflate_chunk (chunk : bytes) (null_pos : nat) (keyword : str)
           (metadata : dict) : result dict :=
  compression_method <-
    match chunk !! S null_pos with
    | Some x => Ok (Byte.to_N x)
    | None => Raise (IndexError (u "index out of range"))
    end ;;
  if (compression_method =? 0)%N then
    let compressed_data := drop (S (S null_pos)) chunk in
    decompressed_data <- zlib_decompress compressed_data ;;
    let text_data := utf8_decode_ignore decompressed_data in
    parsed_metadata <- Json.loads (strip text_data) ;;
    Ok (dict_set AI_METADATA_JSON parsed_metadata metadata)
  else
    Ok (dict_set (u "PNG_zTXt_" ++ keyword)
                 (PStr (u "Compression non supportée: " ++ str_of_N compression_method))
                 metadata).

(** The body of the loop over the [zTXt] chunks. *)
Definition ztxt_chunk (chunk : bytes) (metadata : dict) : result dict :=
  match find_index x00 chunk with
  | Some null_pos =>
    let keyword := utf8_decode_ignore (take null_pos chunk) in
    if bool_decide (keyword ∈ ai_keywords) then
      try_except (inflate_chunk chunk null_pos keyword metadata)
        (fun e => Ok (dict_set (u "PNG_zTXt_" ++ keyword)
                               (PStr (u "Error parsing JSON: " ++ exn_str e)) metadata))
    else if bool_decide (keyword = u "metadata") then
      try_except (inflate_chunk chunk null_pos keyword metadata)
        (fun e => Ok (dict_set (u "PNG_zTXt_" ++ keyword)
                               (PStr (u "Erreur décompression/parsing: " ++ exn_str e))
                               metadata))
    else Ok (dict_set (u "PNG_zTXt_" ++ keyword) (PStr (u "Données compressées")) metadata)
  | None => Ok metadata
  end.

(** Its handler stores the error under a key of its own. *)
Definition ztxt_chunks (chunks : list bytes) (metadata : dict) : dict :=
  fold_left (fun md chunk =>
               match ztxt_chunk chunk md with
               | Ok md' => md'
               | Raise e =>
                 let keyword :=
                   match find_index x00 chunk with
                   | Some null_pos => utf8_decode_ignore (take null_pos chunk)
                   | None => []
                   end in
                 dict_set (u "PNG_zTXt_" ++ keyword ++ u "_error")
                          (PStr (u "Erreur lecture: " ++ exn_str e)) md
               end)
            chunks metadata.

(** The body of the loop over the [iTXt] chunks. *)
Definition itxt_chunk (chunk : bytes) (metadata : dict) : result dict :=
  match find_index x00 chunk with
  | Some null_pos =>
    let keyword := utf8_decode_ignore (take null_pos chunk) in
    match find_index x00 (drop (S null_pos) chunk) with
    | Some k =>
      let text_start := (S null_pos + k)%nat in
      let text_data := utf8_decode_ignore (drop (S text_start) chunk) in
      Ok (dict_set (u "PNG_iTXt_" ++ keyword) (PStr text_data) metadata)
    | None => Ok metadata
    end
  | None => Ok metadata
  end.

Definition itxt_chunks (chunks : list bytes) (metadata : dict) : dict :=
  fold_left (fun md chunk =>
               match itxt_chunk chunk md with Ok md' => md' | Raise _ => md end)
            chunks metadata.

Definition tEXt_chunks_of (data : bytes) : list bytes :=
  findall (b "tEXt") [b "tEXt"; b "IDAT"; b "IEND"] data.

Definition zTXt_chunks_of (data : bytes) : list bytes :=
  findall (b "zTXt") [b "zTXt"; b "IDAT"; b "IEND"] data.

Definition iTXt_chunks_of (data : bytes) : list bytes :=
  findall (b "iTXt") [b "iTXt"; b "IDAT"; b "IEND"] data.

(** The three scans of the bytes of a PNG file. *)
Definition png_chunks (data : bytes) (metadata : dict) : dict :=
  let metadata := text_chunks (tEXt_chunks_of data) metadata in
  let metadata := ztxt_chunks (zTXt_chunks_of data) metadata in
  itxt_chunks (iTXt_chunks_of data) metadata.

Definition jpeg_patterns : list (bytes * str) :=
  [ (b "prompt", u "Prompt"); (b "negative_prompt", u "Negative Prompt");
    (b "seed", u "Seed"); (b "steps", u "Steps"); (b "cfg", u "CFG");
    (b "sampler", u "Sampler"); (b "model", u "Model");
    (b "stable diffusion", u "Stable Diffusion"); (b "comfyui", u "ComfyUI");
    (b "parameters", u "Parameters"); (b "comment", u "Comment");
    (b "description", u "Description"); (b "software", u "Software");
    (b "artist", u "Artist"); (b "copyright", u "Copyright") ].

(** The scan of the bytes of a JPEG file. *)
Definition jpeg_scan (data : bytes) (metadata : dict) : dict :=
  let metadata :=
    fold_left (fun md pl =>
                 match find_sub (fst pl) (bytes_lower data) with
                 | Some pos =>
                   let start := (pos - 50)%nat in
                   let stop := Nat.min (length data) (pos + 100) in
                   let context := utf8_decode_ignore (take (stop - start) (drop start data)) in
                   dict_set (u "JPEG_Trouvé_" ++ snd pl) (PStr context) md
                 | None => md
                 end)
              jpeg_patterns metadata in
  let exif_sections := findall (b "Exif") [b "Exif"; b "JFIF"; b "EOI"] data in
  fold_left (fun md isec =>
               let text_data := utf8_decode_ignore (snd isec) in
               if (10 <? length (strip text_data))%nat then
                 dict_set (u "JPEG_EXIF_Section_" ++ str_of_nat (fst isec))
                          (PStr (if (200 <? length text_data)%nat
                                 then take 200 text_data ++ u "..." else text_data)) md
               else md)
            (imap (fun i sec => (i, sec)) exif_sections) metadata.

(** The part of [_load_external_image] that collects [metadata], from the
    file the user chose to the creation of the dialog (lines 1559 to 1783).
    [None]: the image could not be loaded and the function returned after a
    warning.  The rest of the function is [_load_external_image_dialog]
    below. *)
Definition _load_external_image (f : ImageFile) : result (option dict) :=
  match pixmap f with
  | None => Ok None
  | Some (width, height) =>
    let suffix := Host.path_suffix (file_path f) in
    let metadata : dict :=
      [ (u "Nom du fichier", PStr (Host.path_name (file_path f)));
        (u "Chemin", PStr (path_parent (file_path f)));
        (u "Taille du fichier", PStr (format_kb (st_size f) ++ u " KB"));
        (u "Dimensions", PStr (str_of_Z width ++ u " x " ++ str_of_Z height ++ u " pixels"));
        (u "Format", PStr (if bool_decide (suffix = []) then u "Inconnu"
                           else drop 1 (str_upper suffix))) ] in
    let general : result dict :=
      match qimage f with
      | None => Ok metadata
      | Some q =>
        let metadata :=
          dict_set (u "Profondeur de couleur") (PStr (str_of_Z (depth q) ++ u " bits"))
                   metadata in
        let metadata :=
          match format_name q with
          | Ok n => dict_set (u "Format Qt") (PStr n) metadata
          | Raise _ => dict_set (u "Format Qt") (PStr (u "Inconnu")) metadata
          end in
        if bool_decide (str_lower suffix = u ".png") then
          try_except (data <- contents f ;; Ok (png_chunks data metadata))
            (fun e => Ok (dict_set (u "Erreur extraction PNG") (PStr (exn_str e)) metadata))
        else if bool_decide (str_lower suffix ∈ [u ".jpg"; u ".jpeg"]) then
          try_except (data <- contents f ;; Ok (jpeg_scan data metadata))
            (fun e => Ok (dict_set (u "Erreur extraction JPEG") (PStr (exn_str e)) metadata))
        else Ok metadata
      end in
    md <- try_except general
            (fun e => Ok (dict_set (u "Erreur générale") (PStr (exn_str e)) metadata)) ;;
    Ok (Some md)
  end.
End Decode.

(* --------------------------------------------------------------------- *)
(** *** The text of the dialog                                            *)
(* --------------------------------------------------------------------- *)

(** [type(v).__name__]. *)
Definition type_name (v : pyval) : str :=
  match v with
  | PNone => u "NoneType"
  | PBool _ => u "bool"
  | PInt _ => u "int"
  | PFloat _ => u "float"
  | PStr _ => u "str"
  | PList _ => u "list"
  | PDict _ => u "dict"
  end.

(** [key in v] for a [str] key: a key of a dictionary, a part of a text, an
    item of a list; any other value raises.  (The wording of the messages
    is that of CPython 3.11.) *)
Definition py_in (key : str) (v : pyval) : result bool :=
  match v with
  | PDict d => Ok (dict_has key d)
  | PStr s => Ok (contains key s)
  | PList l =>
    Ok (existsb (fun x => match x with PStr s => bool_decide (s = key) | _ => false end) l)
  | _ => Raise (TypeError (u "argument of type '" ++ type_name v ++ u "' is not iterable"))
  end.

(** [v[key]] for a [str] key. *)
Definition py_getitem (key : str) (v : pyval) : result pyval :=
  match v with
  | PDict d =>
    match dict_get key d with
    | Some x => Ok x
    | None => Raise (KeyError (str_repr key))
    end
  | PStr _ => Raise (TypeError (u "string indices must be integers, not 'str'"))
  | PList _ => Raise (TypeError (u "list indices must be integers or slices, not str"))
  | _ => Raise (TypeError (u "'" ++ type_name v ++ u "' object is not subscriptable"))
  end.

(** [float(z)] for an [int]. *)
Definition float_of_int (z : Z) : result float :=
  let x := match z with
           | Z0 => S754_zero false
           | Zpos p => binary_round 53 1024 false p 0
           | Zneg p => binary_round 53 1024 true p 0
           end in
  match x with
  | S754_infinity _ => Raise (OverflowError (u "int too large to convert to float"))
  | _ => Ok x
  end.

(** [format(x, '.1f')]: one decimal, the exact value rounded to even. *)
Definition format_1f (x : float) : str :=
  match x with
  | S754_nan => u "nan"
  | S754_infinity s => if s then u "-inf" else u "inf"
  | S754_zero s => (if s then u "-" else []) ++ u "0.0"
  | S754_finite s m e =>
    let '(num, den) := if 0 <=? e then (Zpos m * 2 ^ e * 10, 1)
                       else (Zpos m * 10, 2 ^ (- e)) in
    let q := num / den in
    let r := num mod den in
    let tenths := if (den <? 2 * r) || ((den =? 2 * r) && Z.odd q) then q + 1 else q in
    (if s then u "-" else []) ++ str_of_Z (tenths / 10) ++ u "." ++ str_of_Z (tenths mod 10)
  end.

Definition hundred : float := Eval vm_compute in binary_round 53 1024 false 100 0.

(** [f"{v * 100:.1f}"]. *)
Definition percent (v : pyval) : result str :=
  match v with
  | PFloat x => Ok (format_1f (SFmul 53 1024 x hundred))
  | PInt z => x <- float_of_int (z * 100) ;; Ok (format_1f x)
  | PBool c => x <- float_of_int (if c then 100 else 0) ;; Ok (format_1f x)
  | PStr _ => Raise (ValueError (u "Unknown format code 'f' for object of type 'str'"))
  | PList _ => Raise (TypeError (u "unsupported format string passed to list.__format__"))
  | _ => Raise (TypeError (u "unsupported operand type(s) for *: '" ++ type_name v
                             ++ u "' and 'int'"))
  end.

(** [s.replace(old, new)] for a non-empty [old]; [skip] counts the
    characters of a match that are still to be passed over. *)
Fixpoint replace_from (skip : nat) (old new s : str) : str :=
  match s with
  | [] => []
  | c :: t =>
    match skip with
    | S k => replace_from k old new t
    | O => if startswith old s then new ++ replace_from (length old - 1) old new t
           else c :: replace_from 0 old new t
    end
  end.

Definition str_replace (old new s : str) : str := replace_from 0 old new s.

(** The list [formatted_lines]; what is appended to it need not be text. *)
Abbreviation lines := (list pyval).

(** [if key in ai: append(title); append(ai[key]); append("")]. *)
Definition prompt_block (title key : str) (ai : pyval) (out : lines) : result lines :=
  c <- py_in key ai ;;
  if c : bool then
    v <- py_getitem key ai ;;
    Ok (out ++ [PStr title; v; PStr []])
  else Ok out.

(** [if key in ai and ai[key]: append(title); append(ai[key]); append("")]. *)
Definition text_block (title key : str) (ai : pyval) (out : lines) : result lines :=
  c <- py_in key ai ;;
  if c : bool then
    v <- py_getitem key ai ;;
    if truthy v then Ok (out ++ [PStr title; v; PStr []]) else Ok out
  else Ok out.

(** [if key in ai: append(f"{label}{ai[key]}{tail}")]. *)
Definition info_line (label key tail : str) (ai : pyval) (out : lines) : result lines :=
  c <- py_in key ai ;;
  if c : bool then
    v <- py_getitem key ai ;;
    Ok (out ++ [PStr (label ++ py_str v ++ tail)])
  else Ok out.

Definition seed_block (ai : pyval) (out : lines) : result lines :=
  c <- py_in (u "seed") ai ;;
  if c : bool then
    seed <- py_getitem (u "seed") ai ;;
    let out := out ++ [PStr (u "PARAMETERS:"); PStr (u "Seed: " ++ py_str seed)] in
    c <- py_in (u "strength") ai ;;
    out <- (if c : bool then
              strength <- py_getitem (u "strength") ai ;;
              t <- percent strength ;;
              Ok (out ++ [PStr (u "Strength: " ++ t ++ u "%")])
            else Ok out) ;;
    Ok (out ++ [PStr []])
  else Ok out.

Definition lora_line (lora : pyval) : lines :=
  match lora with
  | PDict d =>
    let name := dict_get_default (u "name") (PStr (u "Unknown")) d in
    let strength := dict_get_default (u "strength") (PFloat float_one) d in
    [PStr (u "  • " ++ py_str name ++ u " (force: " ++ py_str strength ++ u ")")]
  | _ => []
  end.

Definition loras_block (ai : pyval) (out : lines) : result lines :=
  c <- py_in (u "loras") ai ;;
  if c : bool then
    loras <- py_getitem (u "loras") ai ;;
    if truthy loras then
      let out := out ++ [PStr (u "LORAS:")] in
      let out := match loras with
                 | PList l => out ++ flat_map lora_line l
                 | _ => out ++ [PStr (py_str loras)]
                 end in
      Ok (out ++ [PStr []])
    else Ok out
  else Ok out.

Definition information_block (ai : pyval) (out : lines) : result lines :=
  c <- py_in (u "generation_type") ai ;;
  if c : bool then
    v <- py_getitem (u "generation_type") ai ;;
    let out := out ++ [PStr (u "INFORMATION:"); PStr (u "Type: " ++ py_str v)] in
    out <- info_line (u "Job: ") (u "job_kind") [] ai out ;;
    out <- info_line (u "Generated: ") (u "timestamp") [] ai out ;;
    out <- info_line (u "Index: ") (u "batch_index") [] ai out ;;
    out <- info_line (u "Total: ") (u "total_images") (u " image(s)") ai out ;;
    Ok (out ++ [PStr []])
  else Ok out.

(** The entries that [ai_metadata.items()] gives to the comprehension. *)
Definition py_items (ai : pyval) : result dict :=
  match ai with
  | PDict d => Ok d
  | _ => Raise (AttributeError (u "'" ++ type_name ai ++ u "' object has no attribute 'items'"))
  end.

Definition is_other_param (kv : str * pyval) : bool :=
  startswith (u "param_") (fst kv)
  && negb (bool_decide (fst kv ∈ [u "prompt"; u "negative_prompt"; u "style";
                                  u "checkpoint"; u "sampler"; u "loras"])).

Definition other_params_block (ai : pyval) (out : lines) : result lines :=
  items <- py_items ai ;;
  match List.filter is_other_param items with
  | [] => Ok out
  | other_params =>
    Ok (out ++ [PStr (u "OTHER PARAMETERS:")]
            ++ map (fun kv => PStr (u "  • " ++ str_replace (u "param_") [] (fst kv)
                                       ++ u ": " ++ py_str (snd kv))) other_params
            ++ [PStr []])
  end.

(** [if ai_metadata.get("truncated", False)], reached for a dictionary
    only. *)
Definition truncated_block (ai : pyval) (out : lines) : result lines :=
  items <- py_items ai ;;
  if truthy (dict_get_default (u "truncated") (PBool false) items)
  then Ok (out ++ [PStr (u "⚠️  TRUNCATED METADATA (too large)"); PStr []])
  else Ok out.

(** The lines for the record under [AI_METADATA_JSON], lines 1822 to
    1899. *)
Definition record_lines (ai : pyval) : result lines :=
  let out := [PStr (u "=== AI METADATA (Krita Extension) ==="); PStr []] in
  out <- prompt_block (u "PROMPT:") (u "prompt") ai out ;;
  out <- text_block (u "NEGATIVE PROMPT:") (u "negative_prompt") ai out ;;
  out <- seed_block ai out ;;
  out <- text_block (u "STYLE:") (u "style") ai out ;;
  out <- text_block (u "CHECKPOINT:") (u "checkpoint") ai out ;;
  out <- text_block (u "SAMPLER:") (u "sampler") ai out ;;
  out <- loras_block ai out ;;
  out <- information_block ai out ;;
  out <- other_params_block ai out ;;
  truncated_block ai out.

Section Display.
(** The lines that the branch for a text under a key that begins with
    [AI_prompt] appends (lines 1903 to 1979: a workflow in the old format).
    The branch is wholly inside [try] blocks, so it appends lines and does
    not raise; it is kept as a parameter.  No key that the function stores
    begins with [AI_prompt]. *)
Variable old_format : str -> lines.

(** The loop over [metadata.items()], with [has_ai_metadata]. *)
Definition entry_lines (acc : lines * bool) (kv : str * pyval) : lines * bool :=
  match snd kv with
  | PStr s =>
    if startswith (u "AI_prompt") (fst kv) then (fst acc ++ old_format s, true)
    else (fst acc ++ [PStr (fst kv ++ u ": " ++ s)], snd acc)
  | v => (fst acc ++ [PStr (fst kv ++ u ": " ++ py_str v)], snd acc)
  end.

Definition footer (has_ai_metadata : bool) : lines :=
  if has_ai_metadata
  then [PStr []; PStr (u "=== DETECTED AI METADATA ==="); PStr []]
  else [PStr []; PStr (u "=== AVAILABLE METADATA ==="); PStr [];
        PStr (u "No AI generation metadata found, but here are all available metadata:");
        PStr []].

(** [formatted_lines] at the end of the block [if metadata:]. *)
Definition formatted_lines (metadata : dict) : result lines :=
  out <- match dict_get AI_METADATA_JSON metadata with
         | Some ai_metadata => record_lines ai_metadata
         | None => Ok []
         end ;;
  let '(out, has_ai_metadata) :=
    fold_left entry_lines metadata (out, dict_has AI_METADATA_JSON metadata) in
  Ok (out ++ footer has_ai_metadata).

(** The items of [sep.join(items)] must all be text. *)
Fixpoint str_items (i : nat) (items : lines) : result (list str) :=
  match items with
  | [] => Ok []
  | PStr s :: rest => r <- str_items (S i) rest ;; Ok (s :: r)
  | v :: _ =>
    Raise (TypeError (u "sequence item " ++ str_of_nat i ++ u ": expected str instance, "
                        ++ type_name v ++ u " found"))
  end.

(** The text given to [meta_text.setPlainText], lines 1817 to 1997. *)
Definition dialog_text (metadata : dict) : result str :=
  match metadata with
  | [] => Ok (u "No metadata found.")
  | _ :: _ =>
    out <- formatted_lines metadata ;;
    items <- str_items 0 out ;;
    Ok (join [10%N] items)
  end.

(** [_load_external_image] to its end: the metadata are collected, then the
    dialog is made and shown with their text.  What is outside the [try]
    blocks of the second part raises past the function. *)
Definition _load_external_image_dialog (zlib_decompress : bytes -> result bytes)
           (f : ImageFile) : result (option str) :=
  r <- _load_external_image zlib_decompress f ;;
  match r with
  | None => Ok None
  | Some metadata => text <- dialog_text metadata ;; Ok (Some text)
  end.
End Display.

End Generation.

(* ===================================================================== *)
(** ** [krita_ai_metadata_downloads/metadata_panel.py]                    *)
(* ===================================================================== *)

Module MetadataPanel.
Import Py.

(** What [QImageReader(image_path)] answers: [text(key)] (empty for a
    missing key), [textKeys()], [size()] when it is valid, [format()]. *)
Record QImageReader := {
  text : str -> str;
  textKeys : list str;
  size : option (Z * Z);
  format : bytes
}.

(** [str(data, 'utf-8')]: strict decoding. *)
Definition utf8_decode (data : bytes) : result str :=
  let s := utf8_decode_ignore data in
  if bool_decide (utf8_encode s = data) then Ok s
  else Raise (OtherError (u "'utf-8' codec can't decode bytes")).

(** [s.endswith(suffix)]. *)
Definition endswith (suffix s : str) : bool := startswith (rev suffix) (rev s).

(** The statements of the [try] block of [_extract_image_metadata]; the
    dictionary is updated in place, so what was stored before an exception
    stays.  The result is the dictionary and the exception, if any. *)
Definition extract_steps (image_path : str) (reader : QImageReader) : dict * option exn :=
  let metadata : dict := [] in
  let custom : dict * option exn :=
    if endswith (u ".png") (Generation.str_lower image_path) then
      let json_metadata := text reader (u "metadata") in
      if bool_decide (json_metadata = []) then (metadata, None)
      else match Json.loads json_metadata with
           | Ok ai_metadata => (dict_set Generation.AI_METADATA_JSON ai_metadata metadata, None)
           | Raise e => if is_json_decode_error e then (metadata, None)
                        else (metadata, Some e)
           end
    else (metadata, None) in
  match custom with
  | (metadata, Some e) => (metadata, Some e)
  | (metadata, None) =>
    let metadata :=
      fold_left (fun md key =>
                   if bool_decide (key ∈ [u "metadata"]) then md
                   else dict_set key (PStr (text reader key)) md)
                (textKeys reader) metadata in
    let metadata :=
      match size reader with
      | Some (w, h) => dict_set (u "Dimensions") (PStr (str_of_Z w ++ u "x" ++ str_of_Z h)) metadata
      | None => metadata
      end in
    match format reader with
    | [] => (metadata, None)
    | _ :: _ =>
      match utf8_decode (format reader) with
      | Ok s => (dict_set (u "Format") (PStr s) metadata, None)
      | Raise e => (metadata, Some e)
      end
    end
  end.

(** [MetadataPanel._extract_image_metadata]: an exception is logged, and the
    dictionary is returned in either case. *)
Definition _extract_image_metadata (image_path : str) (reader : QImageReader)
  : result (dict * list Host.log_entry) :=
  match extract_steps image_path reader with
  | (metadata, None) => Ok (metadata, [])
  | (metadata, Some e) => Ok (metadata, [Host.Warning (Host.ExtractFailed e)])
  end.

End MetadataPanel.

(* ===================================================================== *)
(** ** PNG files                                                          *)
(* ===================================================================== *)

(** The container format, to build the files the reader is given. *)
Module Png.
Import Py.

Definition crc_step (c : N) : N :=
  if N.odd c then N.lxor (N.shiftr c 1) 3988292384 else N.shiftr c 1.

Definition crc_byte (crc : N) (x : byte) : N :=
  Nat.iter 8 crc_step (N.lxor crc (Byte.to_N x)).

Definition crc32 (data : bytes) : N :=
  N.lxor (fold_left crc_byte data 4294967295%N) 4294967295.

Definition be32 (n : N) : bytes :=
  [byte_of (n / 16777216); byte_of (n / 65536); byte_of (n / 256); byte_of n].

(** A chunk: length, type, data, CRC of type and data. *)
Definition chunk (type data : bytes) : bytes :=
  be32 (N.of_nat (length data)) ++ type ++ data ++ be32 (crc32 (type ++ data)).

Definition signature : bytes := [x89; x50; x4e; x47; x0d; x0a; x1a; x0a].

(** A [tEXt] chunk: keyword, null byte, text. *)
Definition tEXt (keyword text : bytes) : bytes :=
  chunk (b "tEXt") (keyword ++ [x00] ++ text).


(** A grey image of one pixel, with the given chunks before its data. *)
Definition one_pixel (ancillary : list bytes) : bytes :=
  signature
    ++ chunk (b "IHDR") (be32 1 ++ be32 1 ++ [x08; x00; x00; x00; x00])
    ++ concat ancillary
    ++ chunk (b "IDAT") [x78; x01; x01; x02; x00; xfd; xff; x00; x00; x00; x02; x00; x01]
    ++ chunk (b "IEND") [].

End Png.

(* ===================================================================== *)
(** ** The notions the statements are about                               *)
(* ===================================================================== *)

Module Spec.
Import Py Host.

(** The keywords under which a record is looked for in a text chunk. *)
Definition recognized (keyword : str) : bool :=
  bool_decide (keyword ∈ [u "AI_METADATA_JSON"; u "AI"; u "AI_META"; u "metadata"]).

(** The record that a [tEXt] chunk carries under a recognized keyword, when
    its text parses. *)
Definition text_candidate (chunk : bytes) : option pyval :=
  match find_index x00 chunk with
  | Some null_pos =>
    if recognized (utf8_decode_ignore (take null_pos chunk)) then
      match Json.loads (strip (utf8_decode_ignore (drop (S null_pos) chunk))) with
      | Ok v => Some v
      | Raise _ => None
      end
    else None
  | None => None
  end.

(** The record that a [zTXt] chunk carries under a recognized keyword, when
    its compression method is 0, its data inflates and the text parses. *)
Definition ztxt_candidate (zlib_decompress : bytes -> result bytes) (chunk : bytes)
  : option pyval :=
  match find_index x00 chunk with
  | Some null_pos =>
    if recognized (utf8_decode_ignore (take null_pos chunk)) then
      match chunk !! S null_pos with
      | Some method =>
        if (Byte.to_N method =? 0)%N then
          match zlib_decompress (drop (S (S null_pos)) chunk) with
          | Ok text =>
            match Json.loads (strip (utf8_decode_ignore text)) with
            | Ok v => Some v
            | Raise _ => None
            end
          | Raise _ => None
          end
        else None
      | None => None
      end
    else None
  | None => None
  end.

(** The candidates of a PNG file in the order in which the reader meets
    them: the [tEXt] chunks, then the [zTXt] chunks. *)
Definition candidates (zlib_decompress : bytes -> result bytes) (data : bytes)
  : list (option pyval) :=
  map text_candidate (Generation.tEXt_chunks_of data)
    ++ map (ztxt_candidate zlib_decompress) (Generation.zTXt_chunks_of data).

(** One dictionary grows into another: no key is lost. *)
Definition grows (md md' : dict) : Prop :=
  forall k, is_Some (dict_get k md) -> is_Some (dict_get k md').

(** A later record, if there is one, replaces an earlier one. *)
Definition override (later earlier : option pyval) : option pyval :=
  match later with
  | Some v => Some v
  | None => earlier
  end.

(** The first and the last candidate that parsed. *)
Fixpoint first_parsed (cs : list (option pyval)) : option pyval :=
  match cs with
  | [] => None
  | Some v :: _ => Some v
  | None :: rest => first_parsed rest
  end.

Definition last_parsed (cs : list (option pyval)) : option pyval :=
  first_parsed (rev cs).

(** Whether the PNG scan of [_load_external_image] reaches the bytes of the
    file: the image loads, its suffix is [.png] in any case, the file can be
    read. *)
Definition png_data (f : Generation.ImageFile) : option bytes :=
  match Generation.pixmap f, Generation.qimage f, Generation.contents f with
  | Some _, Some _, Ok data =>
    if bool_decide (Generation.str_lower (path_suffix (Generation.file_path f)) = u ".png")
    then Some data else None
  | _, _, _ => None
  end.

(** The record in the outcome of a call that returned a dictionary. *)
Definition decoded_record (r : result (option dict)) : option (option pyval) :=
  match r with
  | Ok (Some md) => Some (dict_get Generation.AI_METADATA_JSON md)
  | _ => None
  end.



(** [mkdir] succeeds for a path: the system does not refuse it and no file
    has that name. *)
Definition can_make (env : Env) (w : World) (p : str) : bool :=
  negb (mkdir_refused env p)
  && match files w !! p with Some _ => false | None => true end.

(** No key of a dictionary begins with [AI_prompt]. *)
Definition plain_keys (md : dict) : Prop :=
  Forall (fun k => startswith (u "AI_prompt") k = false) (dict_keys md).

(** The paths that [log] records as the destinations of images. *)
Definition saving_paths (l : list log_entry) : list str :=
  flat_map (fun e => match e with Info (SavingImage _ _ p) => [p] | _ => [] end) l.

(** The loop over the images of a job, in a folder [tf] and with a label
    [it]: the path, the outcome and the file of image [i] when the clock has
    been read [t] times, and the number of images saved among [imgs], the
    first of which has index [i] and is reached at clock reading [t]. *)
Section Loop.
Variable prepare_for_save : Job -> nat -> str -> result dict.
Variable env : Env.
Variable job : Job.
Variables tf it : str.

Definition loop_path (i t : nat) : str := AutoSave.image_path job tf it i (now env t).

Definition loop_ok (i t : nat) (img : Image) : bool :=
  match prepare_for_save job i it with
  | Ok _ => negb (save_refused env (loop_path i t) img)
  | Raise _ => false
  end.

Definition loop_file (i : nat) (img : Image) : option (Image * text_chunks) :=
  match prepare_for_save job i it with
  | Ok md => Some (img, [(u "metadata", Persistence.metadata_json md)])
  | Raise _ => None
  end.

Fixpoint count_ok (imgs : list Image) (i t : nat) : nat :=
  match imgs with
  | [] => 0
  | img :: rest => (if loop_ok i t img then 1 else 0) + count_ok rest (S i) (S t)
  end.
End Loop.

(** Image [k] of a job is saved when its record can be built and the write
    is not refused. *)
Section Batch.
Variable prepare_for_save : Job -> nat -> str -> result dict.
Variable get_image_type : Job -> str.
Variable env : Env.
Variable job : Job.
(** The clock readings taken before the call. *)
Variable t0 : nat.

Definition path_of (k : nat) : str :=
  AutoSave.image_path job (AutoSave.type_folder get_image_type env job)
                      (get_image_type job) k (now env (t0 + k)).

Definition saved (k : nat) (img : Image) : bool :=
  match prepare_for_save job k (get_image_type job) with
  | Ok _ => negb (save_refused env (path_of k) img)
  | Raise _ => false
  end.

Definition written (k : nat) (img : Image) : option (Image * text_chunks) :=
  match prepare_for_save job k (get_image_type job) with
  | Ok md => Some (img, [(u "metadata", Persistence.metadata_json md)])
  | Raise _ => None
  end.

Definition saved_count : nat :=
  length (filter (fun ki => saved (fst ki) (snd ki) = true)
                 (imap (fun k img => (k, img)) (results job))).

(** The three folders of the job can be made in a world [w]. *)
Definition folders_made (w : World) : bool :=
  can_make env w (auto_save_folder env)
  && can_make env w (path_join (auto_save_folder env) (AutoSave.doc_name env))
  && can_make env w (AutoSave.type_folder get_image_type env job).
End Batch.

End Spec.

(* ===================================================================== *)
(** ** Inputs used in the statements                                      *)
(* ===================================================================== *)

Module Inputs.
Import Py Host.

Definition noon : datetime :=
  {| year := 2025; month := 3; day := 14; hour := 12; minute := 0; second := 0;
     microsecond := 250000 |}.

Definition half : float := Eval vm_compute in float_of_decimal false 5 (-1).

Definition params_of (text : str) (s : float) : JobParams :=
  {| name := Some text; prompt := text; seed := 42; strength := Some s; metadata := [] |}.

Definition pixel (x : byte) : Image := {| pixel_data := [x] |}.

Definition job_of (k : JobKind) (st : JobState) (text : str) (s : float)
           (imgs : list Image) : Job :=
  {| id := u "job-1"; kind := k; state := st; params := params_of text s;
     timestamp := noon; results := imgs |}.

(** A diffusion job at full strength, one at half strength, an upscaling. *)
Definition generate_job : Job := job_of diffusion finished (u "a cat") float_one [pixel x01].
Definition refine_job : Job := job_of diffusion finished (u "a cat") half [pixel x01].
Definition upscale_job : Job := job_of upscaling finished (u "a cat") half [pixel x01].

(** A job whose results are in, while the host has not yet marked it as
    finished. *)
Definition running_job : Job := job_of diffusion executing (u "a cat") float_one [pixel x01].

(** A batch of three images. *)
Definition batch_job : Job :=
  job_of diffusion finished (u "a cat") float_one [pixel x01; pixel x02; pixel x03].

(** A job whose prompt is the word FRIEND, and one with a long prompt. *)
Definition friend_job : Job := job_of diffusion finished (u "BEST FRIEND") float_one [pixel x01].
Definition long_job : Job :=
  job_of diffusion finished (replicate (Z.to_nat 4001) 97%N) float_one [pixel x01].

(** A job whose prompt is 2000 times the letter e with an acute accent. *)
Definition accent_job : Job :=
  job_of diffusion finished (replicate (Z.to_nat 2000) 233%N) float_one [pixel x01].

Definition record_of (job : Job) : dict :=
  match Persistence.all_metadata job 0 (Persistence.image_type job) with
  | Ok md => md
  | Raise _ => []
  end.

(** Auto-save is on, the clock does not move, nothing is refused. *)
Definition calm : Env :=
  {| auto_save_generated := true; auto_save_folder := u "out";
     document_filename := u "/home/me/sketch.kra";
     now := fun _ => noon;
     mkdir_refused := fun _ => false;
     save_refused := fun _ _ => false |}.

(** The same, but the write of the second image of a batch is refused. *)
Definition second_refused : Env :=
  {| auto_save_generated := true; auto_save_folder := u "out";
     document_filename := u "/home/me/sketch.kra";
     now := fun _ => noon;
     mkdir_refused := fun _ => false;
     save_refused := fun _ img => bool_decide (pixel_data img = [x02]) |}.

(** The same as [calm], with auto-save off. *)
Definition disabled : Env :=
  {| auto_save_generated := false; auto_save_folder := u "out";
     document_filename := u "/home/me/sketch.kra";
     now := fun _ => noon;
     mkdir_refused := fun _ => false;
     save_refused := fun _ _ => false |}.

Definition empty_world : World := {| dirs := ∅; files := ∅; ticks := 0; log := [] |}.

Definition no_zlib : bytes -> result bytes :=
  fun _ => Raise (ZlibError (u "Error -3 while decompressing data: incorrect header check")).

(** A PNG file as the reader finds it on disk. *)
Definition png_file (data : bytes) : Generation.ImageFile :=
  {| Generation.file_path := u "/home/me/out/image.png";
     Generation.st_size := N.of_nat (length data);
     Generation.pixmap := Some (1, 1);
     Generation.qimage := Some {| Generation.depth := 8;
                                  Generation.format_name := Ok (u "Format_Grayscale8") |};
     Generation.contents := Ok data |}.

(** The text stored for a job, in a [tEXt] chunk of a one-pixel image. *)
Definition payload_of (job : Job) : bytes :=
  utf8_encode (Persistence.metadata_json (record_of job)).

Definition saved_png (job : Job) : bytes :=
  Png.one_pixel [Png.tEXt (b "metadata") (payload_of job)].

(** The same text directly followed by the end marker, without the check sum
    and the length field that a PNG file has in between. *)
Definition bare_carrier (job : Job) : bytes :=
  b "tEXt" ++ b "metadata" ++ [x00] ++ payload_of job ++ b "IEND".





(** A one-pixel image with a private chunk whose data read like a text
    chunk with the keyword [AI] and the text [5], which is JSON. *)
Definition five_carrier : bytes :=
  Png.one_pixel [Png.chunk (b "prVt") (b "tEXt" ++ b "AI" ++ [x00] ++ b "5" ++ b "IEND")].

(** A formatter that fails on the second image of a batch, and surroundings
    in which the write of the third image is refused. *)
Definition second_unbuilt (job : Job) (i : nat) (image_type : str) : result dict :=
  if (i =? 1)%nat then Raise (ValueError (u "no metadata for this image"))
  else Persistence.all_metadata job i image_type.

Definition third_refused : Env :=
  {| auto_save_generated := true; auto_save_folder := u "out";
     document_filename := u "/home/me/sketch.kra";
     now := fun _ => noon;
     mkdir_refused := fun _ => false;
     save_refused := fun _ img => bool_decide (pixel_data img = [x03]) |}.

End Inputs.

(* ===================================================================== *)
(** ** [persistence.py]: the stored history *)
(* ===================================================================== *)

Module Sync.
Import Py Host.

(** [_HistoryResult]. *)
Record _HistoryResult := {
  id : str;
  slot : Z;
  offsets : list Z;
  params : JobParams;
  kind : JobKind;
  in_use : list (Z * bool)
}.

(** The fields of [ModelSync] that hold the history; [_memory_used] maps a
    slot to the size of its images in bytes. *)
Record ModelSync := {
  _history : list _HistoryResult;
  _memory_used : gmap Z Z;
  _slot_index : Z
}.

(** The annotations of the document, by name. *)
Abbreviation annotations := (gmap str bytes).

(** [f"result{slot}.webp"]. *)
Definition annotation_name (slot : Z) : str :=
  u "result" ++ str_of_Z slot ++ u ".webp".

(** The property [memory_used]: [sum(self._memory_used.values())]. *)
Definition memory_used (self : ModelSync) : Z :=
  map_fold (fun _ v acc => v + acc) 0 (_memory_used self).

(** The loop of [_prune]: while [used > limit] and the history is not
    empty, the oldest entry goes, with its annotation and its size. *)
Fixpoint prune_loop (limit used : Z) (history : list _HistoryResult)
         (memory : gmap Z Z) (document : annotations)
  : list _HistoryResult * gmap Z Z * annotations :=
  match history with
  | [] => (history, memory, document)
  | h :: rest =>
    if limit <? used then
      prune_loop limit (used - default 0 (memory !! slot h)) rest
                 (delete (slot h) memory)
                 (delete (annotation_name (slot h)) document)
    else (history, memory, document)
  end.

(** [ModelSync._prune], with [settings.history_storage] in megabytes. *)
Definition _prune (history_storage : Z) (self : ModelSync) (document : annotations)
  : ModelSync * annotations :=
  let limit := history_storage * 1024 * 1024 in
  let used := memory_used self in
  let '(history, memory, document) :=
    prune_loop limit used (_history self) (_memory_used self) document in
  ({| _history := history; _memory_used := memory; _slot_index := _slot_index self |},
   document).

End Sync.

(* ===================================================================== *)
(** ** [metadata_panel.py]: the size of the panel *)
(* ===================================================================== *)

Module PanelSize.

(** The two settings the panel reads and writes. *)
Record Settings := {
  metadata_font_size : Z;
  metadata_widget_height : Z
}.

(** The fields of the panel that hold its sizes, and what it has told Qt:
    the maximum height of the widget and of the text area, and the font
    size for which the style of the text was last asked. *)
Record Panel := {
  _font_size : Z;
  _widget_height : Z;
  _text_height : Z;
  maximumHeight : Z;
  text_maximumHeight : Z;
  text_style_size : Z
}.

(** [MetadataPanel.__init__], with [_setup_ui]. *)
Definition __init__ (settings : Settings) : Panel * Settings :=
  let font_size := metadata_font_size settings in
  let widget_height := metadata_widget_height settings in
  let text_height := widget_height - 10 in
  let '(font_size, settings) :=
    if font_size =? 10
    then (12, {| metadata_font_size := 12;
                 metadata_widget_height := metadata_widget_height settings |})
    else (font_size, settings) in
  let '(widget_height, text_height, settings) :=
    if widget_height =? 220
    then (280, 270, {| metadata_font_size := metadata_font_size settings;
                       metadata_widget_height := 280 |})
    else (widget_height, text_height, settings) in
  ({| _font_size := font_size; _widget_height := widget_height;
      _text_height := text_height; maximumHeight := widget_height;
      text_maximumHeight := text_height; text_style_size := font_size |},
   settings).

Definition _decrease_font_size (self : Panel) (settings : Settings) : Panel * Settings :=
  if 8 <? _font_size self then
    let font_size := _font_size self - 1 in
    ({| _font_size := font_size; _widget_height := _widget_height self;
        _text_height := _text_height self; maximumHeight := maximumHeight self;
        text_maximumHeight := text_maximumHeight self; text_style_size := font_size |},
     {| metadata_font_size := font_size;
        metadata_widget_height := metadata_widget_height settings |})
  else (self, settings).

Definition _increase_font_size (self : Panel) (settings : Settings) : Panel * Settings :=
  if _font_size self <? 20 then
    let font_size := _font_size self + 1 in
    ({| _font_size := font_size; _widget_height := _widget_height self;
        _text_height := _text_height self; maximumHeight := maximumHeight self;
        text_maximumHeight := text_maximumHeight self; text_style_size := font_size |},
     {| metadata_font_size := font_size;
        metadata_widget_height := metadata_widget_height settings |})
  else (self, settings).

Definition _decrease_height (self : Panel) (settings : Settings) : Panel * Settings :=
  if 120 <? _widget_height self then
    let widget_height := _widget_height self - 20 in
    let text_height := _text_height self - 20 in
    ({| _font_size := _font_size self; _widget_height := widget_height;
        _text_height := text_height; maximumHeight := widget_height;
        text_maximumHeight := text_height; text_style_size := text_style_size self |},
     {| metadata_font_size := metadata_font_size settings;
        metadata_widget_height := widget_height |})
  else (self, settings).

Definition _increase_height (self : Panel) (settings : Settings) : Panel * Settings :=
  if _widget_height self <? 400 then
    let widget_height := _widget_height self + 20 in
    let text_height := _text_height self + 20 in
    ({| _font_size := _font_size self; _widget_height := widget_height;
        _text_height := text_height; maximumHeight := widget_height;
        text_maximumHeight := text_height; text_style_size := text_style_size self |},
     {| metadata_font_size := metadata_font_size settings;
        metadata_widget_height := widget_height |})
  else (self, settings).

(** The four buttons of the tool bar. *)
Inductive button :=
  | font_smaller
  | font_larger
  | height_smaller
  | height_larger.

Definition clicked (st : Panel * Settings) (b : button) : Panel * Settings :=
  match b with
  | font_smaller => _decrease_font_size (fst st) (snd st)
  | font_larger => _increase_font_size (fst st) (snd st)
  | height_smaller => _decrease_height (fst st) (snd st)
  | height_larger => _increase_height (fst st) (snd st)
  end.

(** The panel after it was made and the buttons were clicked in turn. *)
Definition after_clicks (settings : Settings) (clicks : list button) : Panel * Settings :=
  fold_left clicked clicks (__init__ settings).

End PanelSize.

(* ===================================================================== *)
(** ** [config.py] *)
(* ===================================================================== *)

Module Config.
Import Py.

(** [CustomFeatureConfig]; [__post_init__] has put an empty list and an
    empty dictionary where none was given. *)
Record CustomFeatureConfig := {
  name : str;
  version : str;
  description : str;
  enabled : bool;
  dependencies : list str;
  settings : dict
}.

(** [CustomFeaturesConfig.features]. *)
Abbreviation features := (list (str * CustomFeatureConfig)).

Definition with_settings (f : CustomFeatureConfig) (s : dict) : CustomFeatureConfig :=
  {| name := name f; version := version f; description := description f;
     enabled := enabled f; dependencies := dependencies f; settings := s |}.

Definition with_enabled (f : CustomFeatureConfig) (e : bool) : CustomFeatureConfig :=
  {| name := name f; version := version f; description := description f;
     enabled := e; dependencies := dependencies f; settings := settings f |}.

(** The features a new [CustomFeaturesConfig] has. *)
Definition __init__ : features :=
  [ (u "metadata_panel",
     {| name := u "Panneau de Métadonnées"; version := u "1.0.0";
        description := u "Affiche et permet de copier les métadonnées des images générées";
        enabled := true; dependencies := [];
        settings := [ (u "show_interface", PBool true); (u "font_size", PInt 12);
                      (u "widget_height", PInt 280);
                      (u "enable_external_images", PBool true) ] |});
    (u "auto_save",
     {| name := u "Sauvegarde Automatique"; version := u "1.0.0";
        description := u "Sauvegarde automatiquement les images générées selon leur type";
        enabled := true; dependencies := [];
        settings := [ (u "enabled", PBool false); (u "folder", PStr (u "generated_images"));
                      (u "organize_by_type", PBool true); (u "include_metadata", PBool true);
                      (u "max_metadata_size", PInt 4000) ] |}) ].

Definition get_feature (feature_name : str) (self : features) : option CustomFeatureConfig :=
  dict_get feature_name self.

Definition is_feature_enabled (feature_name : str) (self : features) : bool :=
  match get_feature feature_name self with
  | Some feature => enabled feature
  | None => false
  end.

(** [if feature and feature.settings]: an empty dictionary counts as
    false. *)
Definition get_feature_setting (feature_name setting_name : str) (default : pyval)
           (self : features) : pyval :=
  match get_feature feature_name self with
  | Some feature =>
    match settings feature with
    | [] => default
    | _ :: _ => dict_get_default setting_name default (settings feature)
    end
  | None => default
  end.

(** The feature is changed in place, so it keeps its position. *)
Definition set_feature_setting (feature_name setting_name : str) (value : pyval)
           (self : features) : features :=
  match get_feature feature_name self with
  | Some feature =>
    dict_set feature_name
             (with_settings feature (dict_set setting_name value (settings feature))) self
  | None => self
  end.

Definition enable_feature (feature_name : str) (self : features) : features :=
  match get_feature feature_name self with
  | Some feature => dict_set feature_name (with_enabled feature true) self
  | None => self
  end.

Definition disable_feature (feature_name : str) (self : features) : features :=
  match get_feature feature_name self with
  | Some feature => dict_set feature_name (with_enabled feature false) self
  | None => self
  end.

Definition get_enabled_features (self : features) : list str :=
  map fst (filter (fun kv => enabled (snd kv) = true) self).

Definition add_feature (feature_name : str) (config : CustomFeatureConfig)
           (self : features) : features :=
  dict_set feature_name config self.

Definition remove_feature (feature_name : str) (self : features) : features :=
  filter (fun kv => fst kv <> feature_name) self.

End Config.

(* ===================================================================== *)
(** ** [ui/generation.py]: saving the document with its metadata *)
(* ===================================================================== *)

Module SaveDocument.
Import Py Host.

(** What [_save_document_with_metadata] reads from the model, the clock and
    the dialog: the prompts, the seed, the strength, the file name of the
    style if there is one, the extent of the document, its image (which the
    host may fail to give), the path the user chose (empty when the dialog
    was cancelled). *)
Record Model := {
  has_document : bool;
  positive : str;
  negative : str;
  seed : Z;
  strength : float;
  style : option str;
  extent : Z * Z;
  current_image : result Image;
  chosen_path : str;
  clock : datetime
}.

(** The dictionary [metadata] of the function. *)
Definition export_metadata (m : Model) : dict :=
  let metadata : dict :=
    [ (u "prompt", PStr (positive m)); (u "negative_prompt", PStr (negative m));
      (u "seed", PInt (seed m)); (u "strength", PFloat (strength m)) ] in
  let metadata :=
    match style m with
    | Some filename => dict_set (u "style") (PStr filename) metadata
    | None => metadata
    end in
  let metadata := dict_set (u "generation_type") (PStr (u "Document Export")) metadata in
  let metadata := dict_set (u "job_kind") (PStr (u "document_export")) metadata in
  let metadata := dict_set (u "timestamp") (PStr (strftime_record (clock m))) metadata in
  let metadata := dict_set (u "batch_index") (PInt 0) metadata in
  let metadata := dict_set (u "total_images") (PInt 1) metadata in
  let metadata := dict_set (u "document_width") (PInt (fst (extent m))) metadata in
  dict_set (u "document_height") (PInt (snd (extent m))) metadata.

(** How the function ends: with one of its message boxes, or silently when
    the dialog was cancelled. *)
Inductive outcome :=
  | NoDocument
  | Cancelled
  | Success (file_path : str)
  | Error (e : exn).

(** [_save_document_with_metadata]: the record is written whole, whatever
    its length. *)
Definition _save_document_with_metadata (env : Env) (m : Model) : World -> World * outcome :=
  fun w =>
    if negb (has_document m) then (w, NoDocument)
    else
      match chosen_path m with
      | [] => (w, Cancelled)
      | file_path =>
        match current_image m with
        | Raise e => (w, Error e)
        | Ok document_image =>
          let metadata_json := Json.dumps (PDict (export_metadata m)) in
          match image_save env document_image file_path [(u "metadata", metadata_json)] w with
          | (w', Ok _) => (w', Success file_path)
          | (w', Raise e) => (w', Error e)
          end
        end
      end.

End SaveDocument.

(* ===================================================================== *)
(** ** Notions of the further statements                                  *)
(* ===================================================================== *)

Module Terms.
Import Py Host Json.

(** The loop over [job.params.metadata.items()]. *)
Definition copy_params (md acc : dict) : dict :=
  fold_left
    (fun acc kv =>
       if bool_decide (fst kv ∈ Persistence.reserved_keys) then acc
       else dict_set (u "param_" ++ fst kv) (PStr (Persistence.clean_value (snd kv))) acc)
    md acc.

Definition basic_keys : list str :=
  [u "prompt"; u "negative_prompt"; u "seed"; u "strength"; u "style";
   u "checkpoint"; u "sampler"; u "generation_type"; u "job_kind";
   u "timestamp"; u "batch_index"; u "total_images"].

(** The three stages of [all_metadata]. *)
Definition basic_record (job : Job) (i : nat) (image_type : str) (s : float) : dict :=
  let p := params job in
  let md := metadata p in
  [ (u "prompt", PStr (Persistence._clean_metadata_value (PStr (prompt p))));
    (u "negative_prompt",
       PStr (Persistence._clean_metadata_value
               (dict_get_default (u "negative_prompt") (PStr []) md)));
    (u "seed", PInt (seed p));
    (u "strength", PFloat s);
    (u "style",
       PStr (Persistence._clean_metadata_value (dict_get_default (u "style") (PStr []) md)));
    (u "checkpoint",
       PStr (Persistence._clean_metadata_value
               (dict_get_default (u "checkpoint") (PStr []) md)));
    (u "sampler",
       PStr (Persistence._clean_metadata_value (dict_get_default (u "sampler") (PStr []) md)));
    (u "generation_type", PStr image_type);
    (u "job_kind", PStr (kind_name (kind job)));
    (u "timestamp", PStr (strftime_record (timestamp job)));
    (u "batch_index", PInt (Z.of_nat i));
    (u "total_images", PInt (Z.of_nat (length (results job)))) ].

Definition technical_record (md basic : dict) : dict :=
  match dict_get (u "loras") md with
  | Some (PList loras) => dict_set (u "loras") (PList (Persistence.lora_list loras)) basic
  | Some loras => dict_set (u "loras") (PStr (py_str loras)) basic
  | None => basic
  end.

Definition image_record (job : Job) (i : nat) (image_type : str) (s : float) : dict :=
  copy_params (metadata (params job))
    (technical_record (metadata (params job)) (basic_record job i image_type s)).

Definition begins (stops : list bytes) (data : bytes) : bool :=
  existsb (fun m => startswith m data) stops.

(** The four parts of [NUMBER_RE]. *)
Definition sign_part (s : str) : bool * str :=
  match s with 45%N :: t => (true, t) | _ => (false, s) end.

Definition int_part (s1 : str) : str * str :=
  match s1 with
  | 48%N :: t => ([48%N], t)
  | _ => span_digits s1
  end.

Definition frac_part (s2 : str) : str * str :=
  match s2 with
  | 46%N :: t =>
    let '(ds, r) := span_digits t in
    match ds with [] => ([], s2) | _ => (ds, r) end
  | _ => ([], s2)
  end.

Definition exp_sign (t : str) : Z * str :=
  match t with
  | 45%N :: t' => (-1, t')
  | 43%N :: t' => (1, t')
  | _ => (1, t)
  end.

Definition exp_part (s3 : str) : option Z * str :=
  match s3 with
  | e :: t =>
    if ((e =? 101) || (e =? 69))%N then
      let '(sgn, t1) := exp_sign t in
      let '(ds, r) := span_digits t1 in
      match ds with [] => (None, s3) | _ => (Some (sgn * Z_of_digits ds), r) end
    else (None, s3)
  | [] => (None, s3)
  end.

Definition number_value (neg : bool) (ipart frac : str) (ex : option Z) : pyval :=
  match frac, ex with
  | [], None => PInt ((if neg then -1 else 1) * Z_of_digits ipart)
  | _, _ =>
    let e10 := match ex with Some e => e | None => 0 end in
    PFloat (float_of_decimal neg (Z_of_digits (ipart ++ frac))
                             (e10 - Z.of_nat (length frac)))
  end.

(** What may follow a number: nothing that could continue it. *)
Definition plain (rest : str) : Prop :=
  match rest with
  | [] => True
  | c :: _ => is_digit c = false /\ c <> 46%N /\ c <> 101%N /\ c <> 69%N
              /\ c <> 43%N /\ c <> 45%N
  end.

Definition digit_step (acc : Z) (c : N) : Z := 10 * acc + (Z.of_N c - 48).

(** A float is stable when its text reads back as the same float. *)
Definition float_stable (x : float) : bool :=
  match x with
  | S754_nan | S754_infinity _ => true
  | _ =>
    match match_number [] 0 (float_repr x) with
    | Ok (PFloat y, _, []) => float_same y x
    | _ => false
    end
  end.

(** A value is stable when its floats are and its dictionaries have no
    repeated key. *)
Fixpoint stable (v : pyval) : bool :=
  match v with
  | PFloat x => float_stable x
  | PList l => forallb stable l
  | PDict d =>
    bool_decide (NoDup (dict_keys d)) && forallb (fun kv => stable (snd kv)) d
  | _ => true
  end.

(** How a number begins. *)
Definition number_head (s : str) : Prop :=
  match s with
  | c :: t =>
    is_digit c = true
    \/ c = 45%N /\ match t with d :: _ => is_digit d = true | [] => False end
  | [] => False
  end.

Definition ws (c : N) : bool := ((c =? 32) || (c =? 9) || (c =? 10) || (c =? 13))%N.

(** How the text of a value begins: not with a blank, a closing bracket or
    a byte-order mark. *)
Definition lead (s : str) : Prop :=
  match s with
  | c :: _ => ws c = false /\ c <> 93%N /\ (c < 128)%N
  | [] => False
  end.

(** What follows a value inside a document. *)
Definition delim (rest : str) : Prop :=
  match rest with
  | [] => True
  | c :: _ => c = 44%N \/ c = 93%N \/ c = 125%N
  end.

(** What it means for a value to be read back from its text, in any
    document. *)
Definition reads_back (v : pyval) : Prop :=
  stable v = true ->
  forall (fuel : nat) (doc : str) (idx : nat) (rest : str),
    (length (dumps v) <= fuel)%nat -> delim rest ->
    scan_once fuel doc idx (dumps v ++ rest)
    = Ok (v, (idx + length (dumps v))%nat, rest).

Definition pair_text (kv : str * pyval) : str :=
  encode_basestring (fst kv) ++ u ":" ++ dumps (snd kv).

(** What holds between the fields. *)
Definition in_step (st : PanelSize.Panel * PanelSize.Settings) : Prop :=
  PanelSize._text_height (fst st) = PanelSize._widget_height (fst st) - 10
  /\ PanelSize.maximumHeight (fst st) = PanelSize._widget_height (fst st)
  /\ PanelSize.text_maximumHeight (fst st) = PanelSize._text_height (fst st)
  /\ PanelSize.text_style_size (fst st) = PanelSize._font_size (fst st)
  /\ PanelSize.metadata_font_size (snd st) = PanelSize._font_size (fst st)
  /\ PanelSize.metadata_widget_height (snd st) = PanelSize._widget_height (fst st).

End Terms.

(* ===================================================================== *)
(** ** Further inputs *)
(* ===================================================================== *)

Module Cases.
Import Py Host.

(** A refined image with further metadata: a number of steps, a style, and
    two LoRAs, the second of which is disabled. *)
Definition tagged_job : Job :=
  {| id := u "job-2"; kind := diffusion; state := finished;
     params :=
       {| name := Some (u "a dog"); prompt := u "a dog"; seed := 7;
          strength := Some Inputs.half;
          metadata :=
            [ (u "steps", PInt 20); (u "style", PStr (u "anime"));
              (u "loras",
               PList [ PDict [(u "name", PStr (u "detail"));
                              (u "strength", PFloat Inputs.half)];
                       PDict [(u "name", PStr (u "blur")); (u "enabled", PBool false)] ]) ] |};
     timestamp := Inputs.noon; results := [Inputs.pixel x01] |}.

(** What Qt reads from a file that was saved for a job. *)
Definition saved_reader (job : Job) : MetadataPanel.QImageReader :=
  {| MetadataPanel.text :=
       fun key => if bool_decide (key = u "metadata")
                  then Persistence.metadata_json (Inputs.record_of job) else [];
     MetadataPanel.textKeys := [u "metadata"];
     MetadataPanel.size := Some (1, 1);
     MetadataPanel.format := b "png" |}.

(** A document that is being saved with its metadata. *)
Definition drawing : SaveDocument.Model :=
  {| SaveDocument.has_document := true;
     SaveDocument.positive := u "a cat"; SaveDocument.negative := u "blurry";
     SaveDocument.seed := 42; SaveDocument.strength := Inputs.half;
     SaveDocument.style := Some (u "style.json");
     SaveDocument.extent := (512, 512);
     SaveDocument.current_image := Ok (Inputs.pixel x01);
     SaveDocument.chosen_path := u "/home/me/out/drawing.png";
     SaveDocument.clock := Inputs.noon |}.

End Cases.

(* ===================================================================== *)
(** ** Lemmas on strings and dictionaries                                 *)
(* ===================================================================== *)

Import Py Host.

Lemma dict_get_set_eq {V} (k : str) (v : V) (d : list (str * V)) :
  dict_get k (dict_set k v d) = Some v.
Proof.
  induction d as [|[k' v'] d IH]; simpl.
  - rewrite bool_decide_eq_true_2; reflexivity.
  - destruct (bool_decide (k = k')) eqn:E; simpl.
    + rewrite bool_decide_eq_true_2; reflexivity.
    + rewrite E. exact IH.
Qed.

Lemma dict_get_set_ne {V} (k k' : str) (v : V) (d : list (str * V)) :
  k ≠ k' -> dict_get k' (dict_set k v d) = dict_get k' d.
Proof.
  intros Hne. induction d as [|[k0 v0] d IH]; simpl.
  - rewrite bool_decide_eq_false_2; [reflexivity | congruence].
  - destruct (bool_decide (k = k0)) eqn:E; simpl.
    + apply bool_decide_eq_true_1 in E. subst k0.
      rewrite !bool_decide_eq_false_2 by congruence. reflexivity.
    + destruct (bool_decide (k' = k0)); [reflexivity | exact IH].
Qed.

(** A key that is present stays present when any key is assigned. *)
Lemma dict_set_keeps {V} (k k' : str) (v : V) (d : list (str * V)) :
  is_Some (dict_get k' d) -> is_Some (dict_get k' (dict_set k v d)).
Proof.
  intros H. destruct (decide (k = k')) as [->|Hne].
  - rewrite dict_get_set_eq. eauto.
  - rewrite dict_get_set_ne by exact Hne. exact H.
Qed.

Lemma digits_of_uint_inj (d d' : Decimal.uint) :
  digits_of_uint d = digits_of_uint d' -> d = d'.
Proof.
  revert d'. induction d; destruct d'; simpl; intros H;
    try discriminate; try reflexivity;
    injection H as H; f_equal; apply IHd; exact H.
Qed.

Lemma digits_of_uint_digit (d : Decimal.uint) (c : N) :
  c ∈ digits_of_uint d -> (48 <= c <= 57)%N.
Proof.
  induction d; simpl; intros H;
    try (apply elem_of_nil in H; contradiction);
    apply elem_of_cons in H as [->|H]; try lia; apply IHd; exact H.
Qed.

Lemma str_of_nat_inj (i j : nat) : str_of_nat i = str_of_nat j -> i = j.
Proof.
  intros H. apply DecimalNat.Unsigned.to_uint_inj, digits_of_uint_inj, H.
Qed.

(** Two texts that agree up to and including the last occurrence of [c]
    have the same remainder. *)
Lemma app_sep_inv (c : N) (x x' y y' : str) :
  x ++ c :: y = x' ++ c :: y' -> c ∉ y -> c ∉ y' -> y = y'.
Proof.
  intros H Hy Hy'.
  assert (Hr : rev y ++ c :: rev x = rev y' ++ c :: rev x').
  { apply (f_equal (@rev N)) in H. rewrite !rev_app_distr in H. simpl in H.
    rewrite <- !app_assoc in H. exact H. }
  assert (Hgen : forall a a' z z' : str,
             a ++ c :: z = a' ++ c :: z' -> c ∉ a -> c ∉ a' -> a = a').
  { clear. induction a as [|e a IH]; intros [|e' a'] z z' H Ha Ha'; simpl in H.
    - reflexivity.
    - injection H as -> _. exfalso. apply Ha'. left.
    - injection H as -> _. exfalso. apply Ha. left.
    - injection H as -> H. f_equal. apply (IH a' z z' H).
      + intros Hin. apply Ha. right. exact Hin.
      + intros Hin. apply Ha'. right. exact Hin. }
  apply (Hgen _ _ _ _) in Hr.
  - apply (f_equal (@rev N)) in Hr. rewrite !rev_involutive in Hr. exact Hr.
  - rewrite list_elem_of_In, <- in_rev, <- list_elem_of_In. exact Hy.
  - rewrite list_elem_of_In, <- in_rev, <- list_elem_of_In. exact Hy'.
Qed.

(* ===================================================================== *)
(** ** C3: the label of a job                                             *)
(* ===================================================================== *)

(** C3, as stated, fails: a diffusion job at strength 1.0 is not labelled
    [Generate]; its label is [ImgGenerate]. *)
Lemma image_type_not_Generate :
  Persistence.image_type Inputs.generate_job = u "ImgGenerate"
  /\ Persistence.image_type Inputs.generate_job <> u "Generate".
Proof. split; [reflexivity | vm_compute; discriminate]. Qed.

(** C3, amended: an upscaling job is labelled [Upscale] whatever its
    strength; any other job is labelled [Refine] when it has a strength below
    1.0 and [ImgGenerate] otherwise; no other label occurs. *)
Theorem image_type_classification (job : Job) :
  (kind job = upscaling -> Persistence.image_type job = u "Upscale")
  /\ (forall s, kind job <> upscaling -> strength (params job) = Some s ->
                float_lt s float_one = true ->
                Persistence.image_type job = u "Refine")
  /\ (kind job <> upscaling ->
      (forall s, strength (params job) = Some s -> float_lt s float_one = false) ->
      Persistence.image_type job = u "ImgGenerate")
  /\ Persistence.image_type job ∈ [u "ImgGenerate"; u "Refine"; u "Upscale"].
Proof.
  unfold Persistence.image_type, Persistence.is_refined.
  repeat split.
  - intros ->. reflexivity.
  - intros s Hk Hs Hlt. rewrite Hs, Hlt. destruct (kind job); congruence.
  - intros Hk Hs. destruct (strength (params job)) as [s|].
    + rewrite (Hs s eq_refl). destruct (kind job); congruence.
    + destruct (kind job); congruence.
  - destruct (kind job);
      try (destruct (strength (params job)) as [s|]; [destruct (float_lt s float_one)|]);
      set_solver.
Qed.

Lemma image_type_classification_witness :
  Persistence.image_type Inputs.upscale_job = u "Upscale"
  /\ Persistence.image_type Inputs.refine_job = u "Refine"
  /\ Persistence.image_type Inputs.generate_job = u "ImgGenerate".
Proof.
  split; [|split].
  - apply (proj1 (image_type_classification Inputs.upscale_job)). reflexivity.
  - apply (proj1 (proj2 (image_type_classification Inputs.refine_job)) Inputs.half).
    + discriminate.
    + reflexivity.
    + reflexivity.
  - apply (proj1 (proj2 (proj2 (image_type_classification Inputs.generate_job)))).
    + discriminate.
    + intros s Hs. injection Hs as <-. reflexivity.
Defined.

(* ===================================================================== *)
(** ** C10: nothing happens when auto-save is off or there is no result   *)
(* ===================================================================== *)

Section AutoSaveFacts.
Variable prepare_for_save : Job -> nat -> str -> result dict.
Variable get_image_type : Job -> str.
Variable env : Env.

Let save_job_images := AutoSave.save_job_images prepare_for_save get_image_type env.

(** C10: with the setting off, or an empty result list, [save_job_images]
    returns 0 and leaves the world as it found it: no directory, no file,
    no clock reading, no log entry. *)
Theorem save_job_images_noop (job : Job) (w : World) :
  auto_save_generated env = false \/ results job = [] ->
  save_job_images job w = (w, Ok 0%nat).
Proof.
  intros H. unfold save_job_images, AutoSave.save_job_images.
  destruct (auto_save_generated env); simpl.
  - destruct H as [H|H]; [discriminate | rewrite H; reflexivity].
  - reflexivity.
Qed.
End AutoSaveFacts.

Lemma save_job_images_noop_witness :
  AutoSave.save_job_images Persistence.all_metadata Persistence.image_type
    Inputs.disabled Inputs.batch_job Inputs.empty_world
  = (Inputs.empty_world, Ok 0%nat).
Proof.
  apply (save_job_images_noop Persistence.all_metadata Persistence.image_type
           Inputs.disabled Inputs.batch_job Inputs.empty_world).
  left. reflexivity.
Defined.

(* ===================================================================== *)
(** ** The destination paths of a batch                                   *)
(* ===================================================================== *)

Lemma u_underscore : u "_" = [95%N].
Proof. reflexivity. Qed.

Lemma u_png : u ".png" = [46; 112; 110; 103]%N.
Proof. reflexivity. Qed.

Lemma underscore_not_in_index (i : nat) : 95%N ∉ str_of_nat i ++ u ".png".
Proof.
  rewrite u_png. intros H. apply elem_of_app in H as [H|H].
  - apply digits_of_uint_digit in H. lia.
  - repeat (apply elem_of_cons in H as [H|H]; [discriminate|]).
    apply elem_of_nil in H. exact H.
Qed.

(** The file name of an image determines its index. *)
Lemma filename_inj (p : JobParams) (ts ts' it : str) (i j : nat) :
  Persistence.filename p ts it i = Persistence.filename p ts' it j -> i = j.
Proof.
  unfold Persistence.filename. rewrite !u_underscore. intros H.
  assert (E : str_of_nat i ++ u ".png" = str_of_nat j ++ u ".png").
  { apply (app_sep_inv 95
             (Persistence.prompt_prefix p ++ [95%N] ++ ts ++ [95%N] ++ it)
             (Persistence.prompt_prefix p ++ [95%N] ++ ts' ++ [95%N] ++ it)).
    - simpl. rewrite <- !app_assoc in *. simpl in *.
      rewrite <- !app_assoc in *. simpl in *. exact H.
    - apply underscore_not_in_index.
    - apply underscore_not_in_index. }
  apply app_inv_tail in E. apply str_of_nat_inj, E.
Qed.

Lemma startswith_filename (p : JobParams) (ts it : str) (i : nat) :
  startswith [47%N] (Persistence.filename p ts it i)
  = startswith [47%N] (Persistence.prompt_prefix p ++ [95%N]).
Proof.
  unfold Persistence.filename. rewrite u_underscore.
  destruct (Persistence.prompt_prefix p); reflexivity.
Qed.

(** Within a folder, the path of an image determines its index, whatever
    the clock shows. *)
Lemma image_path_inj (job : Job) (tf it : str) (i j : nat) (t t' : datetime) :
  AutoSave.image_path job tf it i t = AutoSave.image_path job tf it j t' -> i = j.
Proof.
  unfold AutoSave.image_path, path_join.
  rewrite !startswith_filename.
  destruct (startswith [47%N] (Persistence.prompt_prefix (params job) ++ [95%N])).
  - apply filename_inj.
  - intros H. apply app_inv_head in H. simpl in H. injection H as H.
    exact (filename_inj _ _ _ _ _ _ H).
Qed.

(* ===================================================================== *)
(** ** The loop of [save_job_images]                                      *)
(* ===================================================================== *)

Lemma saving_paths_app (l l' : list log_entry) :
  Spec.saving_paths (l ++ l') = Spec.saving_paths l ++ Spec.saving_paths l'.
Proof. unfold Spec.saving_paths. apply flat_map_app. Qed.

Section SaveLoop.
Variable prepare_for_save : Job -> nat -> str -> result dict.
Variable get_image_type : Job -> str.
Variable env : Env.
Variable job : Job.
Variables tf it : str.

Let path := Spec.loop_path env job tf it.
Let ok := Spec.loop_ok prepare_for_save env job tf it.
Let file := Spec.loop_file prepare_for_save job it.
Let count_ok := Spec.count_ok prepare_for_save env job tf it.

(** One turn: one clock reading, two log entries, and the file if the image
    is saved; the handler turns every exception into a warning. *)
Lemma save_image_run (i : nat) (img : Image) (c : nat) (w : World) :
  exists e,
    AutoSave.save_image prepare_for_save env job tf it i img c w
    = ({| dirs := dirs w;
          files := if ok i (ticks w) img
                   then match file i img with
                        | Some f => <[path i (ticks w) := f]> (files w)
                        | None => files w
                        end
                   else files w;
          ticks := S (ticks w);
          log := log w ++ [Info (SavingImage (S i) (length (results job))
                                             (path i (ticks w))); e] |},
       Ok (if ok i (ticks w) img then S c else c))
    /\ Spec.saving_paths [e] = [].
Proof.
  unfold AutoSave.save_image, ok, file, path, Spec.loop_ok, Spec.loop_file,
    Spec.loop_path, bindM, tryM, datetime_now, log_info, log_warning, lift,
    image_save, ret; simpl.
  destruct (prepare_for_save job i it) as [md|e0]; simpl.
  - destruct (save_refused env _ img); simpl;
      eexists; (split; [rewrite <- app_assoc; reflexivity | reflexivity]).
  - eexists. split; [rewrite <- app_assoc; reflexivity | reflexivity].
Qed.

(** The loop returns normally, reads the clock once per image, logs one
    destination per image, and changes the files at those destinations
    only: each holds its image if that one was saved and is as before if
    not. *)
Lemma save_images_run (imgs : list Image) :
  forall (i c : nat) (w : World),
  exists w',
    AutoSave.save_images prepare_for_save env job tf it imgs i c w
    = (w', Ok (c + count_ok imgs i (ticks w))%nat)
    /\ ticks w' = (ticks w + length imgs)%nat
    /\ dirs w' = dirs w
    /\ (exists new, log w' = log w ++ new
          /\ Spec.saving_paths new
             = map (fun k => path (i + k) (ticks w + k)) (seq 0 (length imgs)))
    /\ (forall k img, imgs !! k = Some img ->
          files w' !! path (i + k) (ticks w + k)
          = if ok (i + k) (ticks w + k) img then file (i + k) img
            else files w !! path (i + k) (ticks w + k))
    /\ (forall p, (forall k, (k < length imgs)%nat -> p <> path (i + k) (ticks w + k)) ->
          files w' !! p = files w !! p).
Proof.
  induction imgs as [|img rest IH]; intros i c w.
  - exists w. simpl. unfold ret. repeat split.
    + f_equal. f_equal. lia.
    + lia.
    + exists []. split; [rewrite app_nil_r; reflexivity | reflexivity].
    + intros k img' H. rewrite lookup_nil in H. discriminate.
  - destruct (save_image_run i img c w) as (e & Hrun & He).
    simpl. unfold bindM at 1. rewrite Hrun.
    set (w1 := {| dirs := dirs w; files := _; ticks := S (ticks w); log := _ |}).
    destruct (IH (S i) (if ok i (ticks w) img then S c else c) w1)
      as (w' & Hrest & Ht & Hd & (new & Hlog & Hpaths) & Hin & Hout).
    exists w'. rewrite Hrest.
    change (ticks w1) with (S (ticks w)) in *.
    change (dirs w1) with (dirs w) in *.
    change (log w1) with (log w ++ [Info (SavingImage (S i) (length (results job))
                                                      (path i (ticks w))); e]) in *.
    assert (Hshift : forall k, path (S i + k) (S (ticks w) + k)
                               = path (i + S k) (ticks w + S k)).
    { intros k. f_equal; lia. }
    repeat split.
    + f_equal. f_equal. unfold count_ok. cbn [Spec.count_ok]. fold ok.
      destruct (ok i (ticks w) img); lia.
    + rewrite Ht. simpl. lia.
    + exact Hd.
    + exists ([Info (SavingImage (S i) (length (results job)) (path i (ticks w))); e]
              ++ new).
      split.
      * rewrite Hlog. rewrite <- app_assoc. reflexivity.
      * change ([?a; e] ++ new) with ([a] ++ [e] ++ new).
        rewrite !saving_paths_app, He, Hpaths. simpl. f_equal.
        -- f_equal; lia.
        -- rewrite <- seq_shift, map_map. apply map_ext. intros k. apply Hshift.
    + intros [|k] img' Hk.
      * simpl in Hk. injection Hk as <-.
        rewrite !Nat.add_0_r.
        rewrite Hout.
        -- subst w1. simpl. unfold ok, file, Spec.loop_ok, Spec.loop_file.
           destruct (prepare_for_save job i it); simpl; [|reflexivity].
           destruct (save_refused env _ img); simpl; [reflexivity|].
           apply lookup_insert_eq.
        -- intros k _ E. apply image_path_inj in E. lia.
      * simpl in Hk.
        replace (i + S k)%nat with (S i + k)%nat by lia.
        replace (ticks w + S k)%nat with (S (ticks w) + k)%nat by lia.
        rewrite (Hin k img' Hk).
        destruct (ok (S i + k) (S (ticks w) + k) img'); [reflexivity|].
        subst w1. simpl. destruct (ok i (ticks w) img); [|reflexivity].
        destruct (file i img); [|reflexivity].
        apply lookup_insert_ne. intros E. apply image_path_inj in E. lia.
    + intros p Hp. rewrite Hout.
      * subst w1. simpl. destruct (ok i (ticks w) img); [|reflexivity].
        destruct (file i img); [|reflexivity].
        apply lookup_insert_ne. intros E.
        apply (Hp 0%nat); [simpl; lia|]. rewrite !Nat.add_0_r. congruence.
      * intros k Hk. rewrite Hshift. apply Hp. simpl. lia.
Qed.

End SaveLoop.

(* ===================================================================== *)
(** ** C7 and C9: a call of [save_job_images]                             *)
(* ===================================================================== *)

Section SaveJob.
Variable prepare_for_save : Job -> nat -> str -> result dict.
Variable get_image_type : Job -> str.
Variable env : Env.

Let save_job_images := AutoSave.save_job_images prepare_for_save get_image_type env.
Let path_of := Spec.path_of get_image_type env.
Let saved := Spec.saved prepare_for_save get_image_type env.
Let written := Spec.written prepare_for_save get_image_type.

Lemma count_ok_saved (job : Job) (t0 : nat) (imgs : list Image) :
  forall d,
    Spec.count_ok prepare_for_save env job (AutoSave.type_folder get_image_type env job)
                  (get_image_type job) imgs d (t0 + d)
    = length (filter (fun ki => saved job t0 (fst ki) (snd ki) = true)
                     (imap (fun k img => ((d + k)%nat, img)) imgs)).
Proof.
  induction imgs as [|img rest IH]; intros d; [reflexivity|].
  rewrite imap_cons, filter_cons. cbn [Spec.count_ok fst snd].
  replace (S (t0 + d)) with (t0 + S d)%nat by lia.
  rewrite (IH (S d)).
  rewrite (imap_ext ((fun k img0 => ((d + k)%nat, img0)) ∘ S)
                    (fun k img0 => ((S d + k)%nat, img0)) rest)
    by (intros k x _; simpl; f_equal; lia).
  rewrite Nat.add_0_r.
  change (Spec.loop_ok prepare_for_save env job
                       (AutoSave.type_folder get_image_type env job)
                       (get_image_type job) d (t0 + d) img)
    with (saved job t0 d img).
  destruct (saved job t0 d img).
  - rewrite decide_True by reflexivity. reflexivity.
  - rewrite decide_False by discriminate. reflexivity.
Qed.

(** What comes before the loop: either a directory cannot be made and the
    call raises, or the loop starts in a world with the same files and the
    same clock, and no destination logged yet. *)
Lemma save_job_images_prelude (job : Job) (w : World) :
  auto_save_generated env = true -> results job <> [] ->
  (exists w1 e pre, save_job_images job w = (w1, Raise e)
      /\ log w1 = log w ++ pre /\ Spec.saving_paths pre = [])
  \/ (exists w0 pre,
        files w0 = files w /\ ticks w0 = ticks w
        /\ log w0 = log w ++ pre /\ Spec.saving_paths pre = []
        /\ save_job_images job w
           = AutoSave.save_images prepare_for_save env job
               (AutoSave.type_folder get_image_type env job) (get_image_type job)
               (results job) 0 0 w0).
Proof.
  intros Hon Hres. unfold save_job_images, AutoSave.save_job_images.
  rewrite Hon. simpl. destruct (results job) as [|img rest] eqn:Er; [congruence|].
  rewrite <- Er. clear Hres.
  unfold AutoSave.type_folder.
  set (base := auto_save_folder env).
  set (doc := path_join base (AutoSave.doc_name env)).
  set (tfold := path_join doc (get_image_type job)).
  unfold bindM, log_info, mkdir. simpl.
  destruct (mkdir_refused env base).
  { left. do 3 eexists. split; [reflexivity|]. simpl. split; reflexivity. }
  destruct (files w !! base).
  { left. do 3 eexists. split; [reflexivity|]. simpl. split; reflexivity. }
  simpl. destruct (mkdir_refused env doc).
  { left. do 3 eexists. split; [reflexivity|]. simpl. split; reflexivity. }
  destruct (files w !! doc).
  { left. do 3 eexists. split; [reflexivity|]. simpl. split; reflexivity. }
  simpl. destruct (mkdir_refused env tfold).
  { left. do 3 eexists. split; [reflexivity|]. simpl. split; reflexivity. }
  destruct (files w !! tfold).
  { left. do 3 eexists. split; [reflexivity|]. simpl. split; reflexivity. }
  simpl. right. eexists. exists [Info (JobHasImages (length (results job)));
                                 Info (SavingTo tfold (get_image_type job) (kind job)
                                                (strength (params job)))].
  split; [|split; [|split; [|split]]]; cycle 4.
  - reflexivity.
  - reflexivity.
  - reflexivity.
  - simpl. rewrite <- app_assoc. reflexivity.
  - reflexivity.
Qed.

Lemma can_make_run (w w0 : World) (p : str) :
  Spec.can_make env w p = true -> files w0 = files w ->
  mkdir env p w0
  = ({| dirs := {[p]} ∪ dirs w0; files := files w0; ticks := ticks w0; log := log w0 |},
     Ok tt).
Proof.
  unfold Spec.can_make, mkdir. intros H Hf. apply andb_true_iff in H as [Hr Hn].
  apply negb_true_iff in Hr. rewrite Hr, Hf.
  destruct (files w !! p); [discriminate | reflexivity].
Qed.

(** When the three folders can be made, the call reaches the loop, in a
    world with the same files and the same clock, and no destination logged
    yet. *)
Lemma save_job_images_start (job : Job) (w : World) :
  auto_save_generated env = true -> results job <> [] ->
  Spec.folders_made get_image_type env job w = true ->
  exists w0 pre,
    files w0 = files w /\ ticks w0 = ticks w
    /\ log w0 = log w ++ pre /\ Spec.saving_paths pre = []
    /\ save_job_images job w
       = AutoSave.save_images prepare_for_save env job
           (AutoSave.type_folder get_image_type env job) (get_image_type job)
           (results job) 0 0 w0.
Proof.
  intros Hon Hres Hmade. unfold Spec.folders_made in Hmade.
  apply andb_true_iff in Hmade as [Hmade H3].
  apply andb_true_iff in Hmade as [H1 H2].
  unfold save_job_images, AutoSave.save_job_images.
  rewrite Hon. simpl. destruct (results job) as [|img rest] eqn:Er; [congruence|].
  rewrite <- Er. clear Hres.
  unfold AutoSave.type_folder in *.
  set (base := auto_save_folder env) in *.
  set (doc := path_join base (AutoSave.doc_name env)) in *.
  set (tfold := path_join doc (get_image_type job)) in *.
  unfold bindM at 1. unfold log_info at 1.
  unfold bindM at 1. erewrite (can_make_run w _ base H1) by reflexivity.
  unfold bindM at 1. erewrite (can_make_run w _ doc H2) by reflexivity.
  unfold bindM at 1. erewrite (can_make_run w _ tfold H3) by reflexivity.
  unfold bindM at 1. unfold log_info at 1. cbn [dirs files ticks log].
  eexists. exists [Info (JobHasImages (length (results job)));
                   Info (SavingTo tfold (get_image_type job) (kind job)
                                  (strength (params job)))].
  split; [|split; [|split; [|split]]]; cycle 4.
  - reflexivity.
  - reflexivity.
  - reflexivity.
  - simpl. rewrite <- app_assoc. reflexivity.
  - reflexivity.
Qed.

(** A call in which the folders can be made: it returns the number of images
    saved, has read the clock once and logged one destination for each
    image, in order, and has changed the files at those destinations only. *)
Lemma save_job_images_run (job : Job) (w : World) :
  auto_save_generated env = true ->
  Spec.folders_made get_image_type env job w = true ->
  exists w' new,
    save_job_images job w
    = (w', Ok (Spec.saved_count prepare_for_save get_image_type env job (ticks w)))
    /\ ticks w' = (ticks w + length (results job))%nat
    /\ log w' = log w ++ new
    /\ Spec.saving_paths new
       = map (path_of job (ticks w)) (seq 0 (length (results job)))
    /\ (forall k img, results job !! k = Some img ->
          files w' !! path_of job (ticks w) k
          = if saved job (ticks w) k img then written job k img
            else files w !! path_of job (ticks w) k)
    /\ (forall p, (forall k, (k < length (results job))%nat -> p <> path_of job (ticks w) k) ->
          files w' !! p = files w !! p).
Proof.
  intros Hon Hmade.
  destruct (results job) as [|img0 rest0] eqn:Er.
  { exists w, []. unfold save_job_images, AutoSave.save_job_images.
    rewrite Hon, Er. unfold Spec.saved_count. rewrite Er. simpl.
    rewrite app_nil_r, Nat.add_0_r. repeat split.
    intros k img H. rewrite lookup_nil in H. discriminate. }
  rewrite <- Er in *.
  destruct (save_job_images_start job w Hon) as (w0 & pre & Hf & Ht & Hlog & Hpre & Hloop);
    [rewrite Er; discriminate | exact Hmade |].
  destruct (save_images_run prepare_for_save env job
              (AutoSave.type_folder get_image_type env job) (get_image_type job)
              (results job) 0 0 w0)
    as (w2 & Hrun2 & Ht2 & _ & (new & Hlog2 & Hpaths) & Hin & Hout).
  exists w2, (pre ++ new). rewrite Hloop, Hrun2. rewrite Ht, Hf in *.
  split; [|split; [|split; [|split; [|split]]]].
  - pose proof (count_ok_saved job (ticks w) (results job) 0) as Hc.
    rewrite Nat.add_0_r in Hc. simpl. rewrite Hc. reflexivity.
  - exact Ht2.
  - rewrite Hlog2, Hlog, <- app_assoc. reflexivity.
  - rewrite saving_paths_app, Hpre, Hpaths. reflexivity.
  - intros k img Hk. exact (Hin k img Hk).
  - intros p Hp. apply Hout. exact Hp.
Qed.

(** C7: when auto-save is on and the folders of the job can be made,
    [save_job_images] returns, whatever happens to the single images: a
    record that cannot be built or a write that is refused is caught in the
    turn of its image.  Every image has its turn (the clock is read once and
    one destination is logged for each, in order), the number returned is
    the number of images that were saved, each saved image is in its file
    with its metadata, the path of an image that was not saved holds what it
    held before, and no other file is touched. *)
Theorem save_job_images_partial_failure (job : Job) (w : World) :
  auto_save_generated env = true ->
  Spec.folders_made get_image_type env job w = true ->
  exists w' new,
    save_job_images job w
    = (w', Ok (Spec.saved_count prepare_for_save get_image_type env job (ticks w)))
    /\ ticks w' = (ticks w + length (results job))%nat
    /\ log w' = log w ++ new
    /\ Spec.saving_paths new
       = map (path_of job (ticks w)) (seq 0 (length (results job)))
    /\ (forall k img, results job !! k = Some img ->
          files w' !! path_of job (ticks w) k
          = if saved job (ticks w) k img then written job k img
            else files w !! path_of job (ticks w) k)
    /\ (forall p, (forall k, (k < length (results job))%nat -> p <> path_of job (ticks w) k) ->
          files w' !! p = files w !! p).
Proof.
  intros Hon Hmade. exact (save_job_images_run job w Hon Hmade).
Qed.

(** C9: when auto-save is on and the folders of the job can be made, a call
    of [save_job_images] on a job with n results computes n destinations,
    one for each image in order, which are pairwise distinct whatever the
    clock shows at each reading; they are the paths it logs and the paths
    at which the saved images are found, each in a file of its own. *)
Theorem save_job_images_distinct_paths (job : Job) (w : World) :
  auto_save_generated env = true ->
  Spec.folders_made get_image_type env job w = true ->
  let paths := map (path_of job (ticks w)) (seq 0 (length (results job))) in
  exists w' c new,
    save_job_images job w = (w', Ok c)
    /\ log w' = log w ++ new
    /\ Spec.saving_paths new = paths
    /\ length paths = length (results job)
    /\ NoDup paths
    /\ (forall i j, i <> j -> path_of job (ticks w) i <> path_of job (ticks w) j)
    /\ (forall k img, results job !! k = Some img ->
          saved job (ticks w) k img = true ->
          files w' !! path_of job (ticks w) k = written job k img).
Proof.
  intros Hon Hmade paths.
  destruct (save_job_images_run job w Hon Hmade)
    as (w' & new & Hrun & _ & Hlog & Hpaths & Hin & _).
  assert (Hinj : forall i j, i <> j -> path_of job (ticks w) i <> path_of job (ticks w) j).
  { intros i j Hij E. apply Hij. unfold path_of, Spec.path_of in E.
    exact (image_path_inj _ _ _ _ _ _ _ E). }
  exists w', (Spec.saved_count prepare_for_save get_image_type env job (ticks w)), new.
  split; [exact Hrun|]. split; [exact Hlog|]. split; [exact Hpaths|].
  split; [unfold paths; rewrite length_map, length_seq; reflexivity|].
  split; [|split; [exact Hinj|]].
  - unfold paths. apply NoDup_fmap_2_strong; [|apply NoDup_seq].
    intros i j _ _ E. destruct (decide (i = j)) as [|Hne]; [assumption|].
    exfalso. exact (Hinj i j Hne E).
  - intros k img Hk Hs. rewrite (Hin k img Hk), Hs. reflexivity.
Qed.

End SaveJob.

Lemma save_job_images_partial_failure_witness :
  let P := Inputs.second_unbuilt in
  let G := Persistence.image_type in
  let env := Inputs.third_refused in
  let job := Inputs.batch_job in
  let w := Inputs.empty_world in
  exists w' new,
    AutoSave.save_job_images P G env job w = (w', Ok (Spec.saved_count P G env job (ticks w)))
    /\ ticks w' = (ticks w + length (results job))%nat
    /\ log w' = log w ++ new
    /\ Spec.saving_paths new
       = map (Spec.path_of G env job (ticks w)) (seq 0 (length (results job)))
    /\ (forall k img, results job !! k = Some img ->
          files w' !! Spec.path_of G env job (ticks w) k
          = if Spec.saved P G env job (ticks w) k img then Spec.written P G job k img
            else files w !! Spec.path_of G env job (ticks w) k)
    /\ (forall p, (forall k, (k < length (results job))%nat ->
                             p <> Spec.path_of G env job (ticks w) k) ->
          files w' !! p = files w !! p).
Proof.
  intros P G env job w.
  apply (save_job_images_partial_failure P G env job w).
  - reflexivity.
  - vm_compute. reflexivity.
Defined.

Lemma save_job_images_distinct_paths_witness :
  let P := Persistence.all_metadata in
  let G := Persistence.image_type in
  let env := Inputs.calm in
  let job := Inputs.batch_job in
  let w := Inputs.empty_world in
  let paths := map (Spec.path_of G env job (ticks w)) (seq 0 (length (results job))) in
  exists w' c new,
    AutoSave.save_job_images P G env job w = (w', Ok c)
    /\ log w' = log w ++ new
    /\ Spec.saving_paths new = paths
    /\ length paths = length (results job)
    /\ NoDup paths
    /\ (forall i j, i <> j -> Spec.path_of G env job (ticks w) i
                              <> Spec.path_of G env job (ticks w) j)
    /\ (forall k img, results job !! k = Some img ->
          Spec.saved P G env job (ticks w) k img = true ->
          files w' !! Spec.path_of G env job (ticks w) k = Spec.written P G job k img).
Proof.
  intros P G env job w.
  apply (save_job_images_distinct_paths P G env job w).
  - reflexivity.
  - vm_compute. reflexivity.
Defined.

(** On that batch one image of three is saved: the record of the second is
    not built and the write of the third is refused. *)
Lemma one_of_three_saved :
  Spec.saved_count Inputs.second_unbuilt Persistence.image_type Inputs.third_refused
    Inputs.batch_job 0 = 1%nat
  /\ snd (AutoSave.save_job_images Inputs.second_unbuilt Persistence.image_type
            Inputs.third_refused Inputs.batch_job Inputs.empty_world) = Ok 1%nat
  /\ size (files (fst (AutoSave.save_job_images Inputs.second_unbuilt Persistence.image_type
            Inputs.third_refused Inputs.batch_job Inputs.empty_world))) = 1%nat.
Proof. repeat split; vm_compute; reflexivity. Qed.

(* ===================================================================== *)
(** ** The four keywords                                                  *)
(* ===================================================================== *)



(* ===================================================================== *)
(** ** The scans of [_load_external_image]                                *)
(* ===================================================================== *)

Lemma grows_refl (md : dict) : Spec.grows md md.
Proof. intros k H. exact H. Qed.

Lemma grows_trans (a b c : dict) : Spec.grows a b -> Spec.grows b c -> Spec.grows a c.
Proof. intros H1 H2 k H. apply H2, H1, H. Qed.

Lemma grows_set (k : str) (v : pyval) (md : dict) : Spec.grows md (dict_set k v md).
Proof. intros k' H. apply dict_set_keeps, H. Qed.

Lemma tEXt_key_ne (keyword : str) : u "PNG_tEXt_" ++ keyword <> Generation.AI_METADATA_JSON.
Proof. intros H. vm_compute in H. discriminate H. Qed.

Lemma zTXt_key_ne (keyword : str) : u "PNG_zTXt_" ++ keyword <> Generation.AI_METADATA_JSON.
Proof. intros H. vm_compute in H. discriminate H. Qed.

Lemma iTXt_key_ne (keyword : str) : u "PNG_iTXt_" ++ keyword <> Generation.AI_METADATA_JSON.
Proof. intros H. vm_compute in H. discriminate H. Qed.

Lemma JPEG_key_ne (rest : str) : u "JPEG_" ++ rest <> Generation.AI_METADATA_JSON.
Proof. intros H. vm_compute in H. discriminate H. Qed.

Lemma recognized_spec (keyword : str) :
  Spec.recognized keyword
  = bool_decide (keyword ∈ Generation.ai_keywords) || bool_decide (keyword = u "metadata").
Proof.
  unfold Spec.recognized, Generation.ai_keywords.
  destruct (decide (keyword ∈ [u "AI_METADATA_JSON"; u "AI"; u "AI_META"])) as [Hin|Hout].
  - rewrite (bool_decide_eq_true_2 _ Hin). simpl. apply bool_decide_eq_true_2.
    apply list_elem_of_In in Hin. apply list_elem_of_In.
    simpl in *. tauto.
  - rewrite (bool_decide_eq_false_2 _ Hout). simpl.
    destruct (decide (keyword = u "metadata")) as [->|Hne].
    + rewrite (bool_decide_eq_true_2 (u "metadata" = u "metadata") eq_refl).
      apply bool_decide_eq_true_2. apply list_elem_of_In. simpl. tauto.
    + rewrite (bool_decide_eq_false_2 _ Hne). apply bool_decide_eq_false_2.
      intros Hin. apply Hout.
      apply list_elem_of_In in Hin. apply list_elem_of_In.
      simpl in *. intuition congruence.
Qed.

Lemma last_parsed_app (a c : list (option pyval)) :
  Spec.last_parsed (a ++ c) = Spec.override (Spec.last_parsed c) (Spec.last_parsed a).
Proof.
  unfold Spec.last_parsed. rewrite rev_app_distr.
  induction (rev c) as [|[v|] l IH]; simpl; [reflexivity | reflexivity | exact IH].
Qed.

Lemma last_parsed_cons (x : option pyval) (c : list (option pyval)) :
  Spec.last_parsed (x :: c) = Spec.override (Spec.last_parsed c) x.
Proof.
  change (x :: c) with ([x] ++ c). rewrite last_parsed_app.
  destruct x; reflexivity.
Qed.

Lemma override_assoc (a c d : option pyval) :
  Spec.override a (Spec.override c d) = Spec.override (Spec.override a c) d.
Proof. destruct a, c; reflexivity. Qed.

Section Scans.
Variable zlib_decompress : bytes -> result bytes.

(** A [tEXt] chunk never raises; it stores its record if it is a candidate,
    and leaves the record alone otherwise; a recognized chunk that does not
    parse leaves an entry under its own key. *)
Lemma text_chunk_run (chunk : bytes) (md : dict) :
  exists md',
    Generation.text_chunk chunk md = Ok md'
    /\ Spec.grows md md'
    /\ dict_get Generation.AI_METADATA_JSON md'
       = Spec.override (Spec.text_candidate chunk)
                       (dict_get Generation.AI_METADATA_JSON md)
    /\ (forall n, find_index x00 chunk = Some n ->
                  Spec.recognized (utf8_decode_ignore (take n chunk)) = true ->
                  Spec.text_candidate chunk = None ->
                  is_Some (dict_get (u "PNG_tEXt_" ++ utf8_decode_ignore (take n chunk)) md')).
Proof.
  unfold Generation.text_chunk, Spec.text_candidate.
  destruct (find_index x00 chunk) as [n|].
  2:{ exists md. repeat split; [apply grows_refl | discriminate]. }
  rewrite recognized_spec.
  set (kw := utf8_decode_ignore (take n chunk)).
  set (txt := utf8_decode_ignore (drop (S n) chunk)).
  destruct (bool_decide (kw ∈ Generation.ai_keywords)) eqn:E1; cbn [orb].
  - destruct (Json.loads (strip txt)) as [v|e]; cbn [try_except bind]; eexists;
      (split; [reflexivity|]); (split; [apply grows_set|]); split.
    + apply dict_get_set_eq.
    + discriminate.
    + apply dict_get_set_ne, tEXt_key_ne.
    + intros n' Hn _ _. injection Hn as <-. rewrite dict_get_set_eq. eauto.
  - destruct (bool_decide (kw = u "metadata")) eqn:E2.
    + destruct (Json.loads (strip txt)) as [v|e]; cbn [try_except bind]; eexists;
        (split; [reflexivity|]); (split; [apply grows_set|]); split.
      * apply dict_get_set_eq.
      * discriminate.
      * apply dict_get_set_ne, tEXt_key_ne.
      * intros n' Hn _ _. injection Hn as <-. rewrite dict_get_set_eq. eauto.
    + eexists. split; [reflexivity|]. split; [apply grows_set|]. split.
      * apply dict_get_set_ne, tEXt_key_ne.
      * intros n' Hn Hr _. injection Hn as <-. rewrite recognized_spec in Hr.
        fold kw in Hr. rewrite E1, E2 in Hr. discriminate Hr.
Qed.

Lemma inflate_chunk_run (chunk : bytes) (n : nat) (kw : str) (md : dict) :
  match Generation.inflate_chunk zlib_decompress chunk n kw md with
  | Ok md' =>
    Spec.grows md md'
    /\ match chunk !! S n with
       | Some method =>
         if (Byte.to_N method =? 0)%N then
           exists text v, zlib_decompress (drop (S (S n)) chunk) = Ok text
                          /\ Json.loads (strip (utf8_decode_ignore text)) = Ok v
                          /\ dict_get Generation.AI_METADATA_JSON md' = Some v
         else dict_get Generation.AI_METADATA_JSON md'
              = dict_get Generation.AI_METADATA_JSON md
              /\ is_Some (dict_get (u "PNG_zTXt_" ++ kw) md')
       | None => False
       end
  | Raise _ =>
    match chunk !! S n with
    | Some method =>
      (Byte.to_N method =? 0)%N = true
      /\ match zlib_decompress (drop (S (S n)) chunk) with
         | Ok text => is_ok (Json.loads (strip (utf8_decode_ignore text))) = false
         | Raise _ => True
         end
    | None => True
    end
  end.
Proof.
  unfold Generation.inflate_chunk.
  destruct (chunk !! S n) as [method|]; simpl; [|exact I].
  destruct (Byte.to_N method =? 0)%N; simpl.
  - destruct (zlib_decompress (drop (S (S n)) chunk)) as [text|e] eqn:Ez; simpl;
      [|split; [reflexivity | exact I]].
    destruct (Json.loads (strip (utf8_decode_ignore text))) as [v|e] eqn:Ej; simpl.
    + split; [apply grows_set|]. exists text, v.
      split; [reflexivity|]. split; [exact Ej | apply dict_get_set_eq].
    + split; reflexivity.
  - split; [apply grows_set|]. split.
    + apply dict_get_set_ne, zTXt_key_ne.
    + rewrite dict_get_set_eq. eauto.
Qed.

(** The same for a [zTXt] chunk. *)
Lemma ztxt_chunk_run (chunk : bytes) (md : dict) :
  exists md',
    Generation.ztxt_chunk zlib_decompress chunk md = Ok md'
    /\ Spec.grows md md'
    /\ dict_get Generation.AI_METADATA_JSON md'
       = Spec.override (Spec.ztxt_candidate zlib_decompress chunk)
                       (dict_get Generation.AI_METADATA_JSON md)
    /\ (forall n, find_index x00 chunk = Some n ->
                  Spec.recognized (utf8_decode_ignore (take n chunk)) = true ->
                  Spec.ztxt_candidate zlib_decompress chunk = None ->
                  is_Some (dict_get (u "PNG_zTXt_" ++ utf8_decode_ignore (take n chunk)) md')).
Proof.
  unfold Generation.ztxt_chunk, Spec.ztxt_candidate.
  destruct (find_index x00 chunk) as [n|].
  2:{ exists md. repeat split; [apply grows_refl | discriminate]. }
  rewrite recognized_spec.
  set (kw := utf8_decode_ignore (take n chunk)).
  pose proof (inflate_chunk_run chunk n kw md) as Hinf.
  assert (Hboth : forall msg : str,
    exists md',
      try_except (Generation.inflate_chunk zlib_decompress chunk n kw md)
        (fun e => Ok (dict_set (u "PNG_zTXt_" ++ kw) (PStr (msg ++ exn_str e)) md)) = Ok md'
      /\ Spec.grows md md'
      /\ dict_get Generation.AI_METADATA_JSON md'
         = Spec.override
             match chunk !! S n with
             | Some method =>
               if (Byte.to_N method =? 0)%N then
                 match zlib_decompress (drop (S (S n)) chunk) with
                 | Ok text =>
                   match Json.loads (strip (utf8_decode_ignore text)) with
                   | Ok v => Some v
                   | Raise _ => None
                   end
                 | Raise _ => None
                 end
               else None
             | None => None
             end (dict_get Generation.AI_METADATA_JSON md)
      /\ (match chunk !! S n with
          | Some method =>
            if (Byte.to_N method =? 0)%N then
              match zlib_decompress (drop (S (S n)) chunk) with
              | Ok text =>
                match Json.loads (strip (utf8_decode_ignore text)) with
                | Ok v => Some v
                | Raise _ => None
                end
              | Raise _ => None
              end
            else None
          | None => None
          end = None -> is_Some (dict_get (u "PNG_zTXt_" ++ kw) md'))).
  { intros msg.
    destruct (Generation.inflate_chunk zlib_decompress chunk n kw md) as [md1|e]; simpl.
    - exists md1. split; [reflexivity|]. destruct Hinf as [Hg Hm]. split; [exact Hg|].
      destruct (chunk !! S n) as [method|]; [|contradiction].
      destruct (Byte.to_N method =? 0)%N.
      + destruct Hm as (text & v & -> & -> & Hv). simpl. split; [exact Hv | discriminate].
      + destruct Hm as [Hsame Hkey]. simpl. split; [exact Hsame | intros _; exact Hkey].
    - eexists. split; [reflexivity|]. split; [apply grows_set|].
      rewrite dict_get_set_ne by apply zTXt_key_ne. rewrite dict_get_set_eq.
      split; [|intros _; eauto].
      destruct (chunk !! S n) as [method|]; [|reflexivity].
      destruct Hinf as [-> Hz].
      destruct (zlib_decompress (drop (S (S n)) chunk)) as [text|e']; [|reflexivity].
      destruct (Json.loads (strip (utf8_decode_ignore text))); [discriminate | reflexivity]. }
  destruct (bool_decide (kw ∈ Generation.ai_keywords)) eqn:E1; cbn [orb].
  - destruct (Hboth (u "Error parsing JSON: ")) as (md' & E & Hg & Hr & Hk).
    exists md'. repeat split; try assumption.
    intros n' Hn _ Hc. injection Hn as <-. apply Hk, Hc.
  - destruct (bool_decide (kw = u "metadata")) eqn:E2.
    + destruct (Hboth (u "Erreur décompression/parsing: ")) as (md' & E & Hg & Hr & Hk).
      exists md'. repeat split; try assumption.
      intros n' Hn _ Hc. injection Hn as <-. apply Hk, Hc.
    + eexists. split; [reflexivity|]. split; [apply grows_set|]. split.
      * apply dict_get_set_ne, zTXt_key_ne.
      * intros n' Hn Hr _. injection Hn as <-. rewrite recognized_spec in Hr.
        fold kw in Hr. rewrite E1, E2 in Hr. discriminate Hr.
Qed.

Lemma itxt_chunk_run (chunk : bytes) (md : dict) :
  exists md',
    Generation.itxt_chunk chunk md = Ok md'
    /\ Spec.grows md md'
    /\ dict_get Generation.AI_METADATA_JSON md' = dict_get Generation.AI_METADATA_JSON md.
Proof.
  unfold Generation.itxt_chunk.
  destruct (find_index x00 chunk) as [n|]; [|exists md; repeat split; apply grows_refl].
  destruct (find_index x00 (drop (S n) chunk)) as [k|];
    [|exists md; repeat split; apply grows_refl].
  eexists. split; [reflexivity|]. split; [apply grows_set|].
  apply dict_get_set_ne, iTXt_key_ne.
Qed.

End Scans.

Lemma fold_left_inv {A} (P : dict -> Prop) (f : dict -> A -> dict) (l : list A) :
  forall md, P md -> (forall x md', P md' -> P (f md' x)) -> P (fold_left f l md).
Proof.
  induction l as [|x l IH]; intros md H Hstep; simpl; [exact H|].
  apply IH; [apply Hstep, H | exact Hstep].
Qed.

Lemma JPEG_found_key_ne (label : str) :
  u "JPEG_Trouvé_" ++ label <> Generation.AI_METADATA_JSON.
Proof. intros H. vm_compute in H. discriminate H. Qed.

Lemma JPEG_section_key_ne (index : str) :
  u "JPEG_EXIF_Section_" ++ index <> Generation.AI_METADATA_JSON.
Proof. intros H. vm_compute in H. discriminate H. Qed.

Section Reader.
Variable zlib_decompress : bytes -> result bytes.

(** The loop over the [tEXt] chunks: the record is the one of the last
    candidate, if there is one; every recognized chunk that did not parse
    has left an entry. *)
Lemma text_chunks_run (chunks : list bytes) :
  forall md,
    Spec.grows md (Generation.text_chunks chunks md)
    /\ dict_get Generation.AI_METADATA_JSON (Generation.text_chunks chunks md)
       = Spec.override (Spec.last_parsed (map Spec.text_candidate chunks))
                       (dict_get Generation.AI_METADATA_JSON md)
    /\ (forall chunk n, chunk ∈ chunks -> find_index x00 chunk = Some n ->
          Spec.recognized (utf8_decode_ignore (take n chunk)) = true ->
          Spec.text_candidate chunk = None ->
          is_Some (dict_get (u "PNG_tEXt_" ++ utf8_decode_ignore (take n chunk))
                            (Generation.text_chunks chunks md))).
Proof.
  unfold Generation.text_chunks.
  induction chunks as [|c cs IH]; intros md.
  - simpl. repeat split; [apply grows_refl|].
    intros chunk n H. apply elem_of_nil in H. contradiction.
  - cbn [fold_left map].
    destruct (text_chunk_run c md) as (md1 & E & Hg & Hr & Hk). rewrite E.
    destruct (IH md1) as (Hg' & Hr' & Hk'). split; [|split].
    + eapply grows_trans; eassumption.
    + rewrite Hr', Hr, override_assoc, last_parsed_cons. reflexivity.
    + intros chunk n Hin Hn Hrec Hc. apply elem_of_cons in Hin as [->|Hin].
      * apply Hg'. apply (Hk n Hn Hrec Hc).
      * apply (Hk' chunk n Hin Hn Hrec Hc).
Qed.

(** The loop over the [zTXt] chunks. *)
Lemma ztxt_chunks_run (chunks : list bytes) :
  forall md,
    Spec.grows md (Generation.ztxt_chunks zlib_decompress chunks md)
    /\ dict_get Generation.AI_METADATA_JSON (Generation.ztxt_chunks zlib_decompress chunks md)
       = Spec.override
           (Spec.last_parsed (map (Spec.ztxt_candidate zlib_decompress) chunks))
           (dict_get Generation.AI_METADATA_JSON md)
    /\ (forall chunk n, chunk ∈ chunks -> find_index x00 chunk = Some n ->
          Spec.recognized (utf8_decode_ignore (take n chunk)) = true ->
          Spec.ztxt_candidate zlib_decompress chunk = None ->
          is_Some (dict_get (u "PNG_zTXt_" ++ utf8_decode_ignore (take n chunk))
                            (Generation.ztxt_chunks zlib_decompress chunks md))).
Proof.
  unfold Generation.ztxt_chunks.
  induction chunks as [|c cs IH]; intros md.
  - simpl. repeat split; [apply grows_refl|].
    intros chunk n H. apply elem_of_nil in H. contradiction.
  - cbn [fold_left map].
    destruct (ztxt_chunk_run zlib_decompress c md) as (md1 & E & Hg & Hr & Hk). rewrite E.
    destruct (IH md1) as (Hg' & Hr' & Hk'). split; [|split].
    + eapply grows_trans; eassumption.
    + rewrite Hr', Hr, override_assoc, last_parsed_cons. reflexivity.
    + intros chunk n Hin Hn Hrec Hc. apply elem_of_cons in Hin as [->|Hin].
      * apply Hg'. apply (Hk n Hn Hrec Hc).
      * apply (Hk' chunk n Hin Hn Hrec Hc).
Qed.

(** The loop over the [iTXt] chunks does not touch the record. *)
Lemma itxt_chunks_run (chunks : list bytes) (md : dict) :
  Spec.grows md (Generation.itxt_chunks chunks md)
  /\ dict_get Generation.AI_METADATA_JSON (Generation.itxt_chunks chunks md)
     = dict_get Generation.AI_METADATA_JSON md.
Proof.
  unfold Generation.itxt_chunks.
  apply (fold_left_inv
           (fun md' => Spec.grows md md'
                       /\ dict_get Generation.AI_METADATA_JSON md'
                          = dict_get Generation.AI_METADATA_JSON md)).
  - split; [apply grows_refl | reflexivity].
  - intros c md' [Hg Hr].
    destruct (itxt_chunk_run c md') as (md1 & E & Hg1 & Hr1). rewrite E.
    split; [eapply grows_trans; eassumption | congruence].
Qed.

(** The three scans of a PNG file together. *)
Lemma png_chunks_run (data : bytes) (md : dict) :
  Spec.grows md (Generation.png_chunks zlib_decompress data md)
  /\ dict_get Generation.AI_METADATA_JSON (Generation.png_chunks zlib_decompress data md)
     = Spec.override (Spec.last_parsed (Spec.candidates zlib_decompress data))
                     (dict_get Generation.AI_METADATA_JSON md)
  /\ (forall chunk n, chunk ∈ Generation.tEXt_chunks_of data ->
        find_index x00 chunk = Some n ->
        Spec.recognized (utf8_decode_ignore (take n chunk)) = true ->
        Spec.text_candidate chunk = None ->
        is_Some (dict_get (u "PNG_tEXt_" ++ utf8_decode_ignore (take n chunk))
                          (Generation.png_chunks zlib_decompress data md)))
  /\ (forall chunk n, chunk ∈ Generation.zTXt_chunks_of data ->
        find_index x00 chunk = Some n ->
        Spec.recognized (utf8_decode_ignore (take n chunk)) = true ->
        Spec.ztxt_candidate zlib_decompress chunk = None ->
        is_Some (dict_get (u "PNG_zTXt_" ++ utf8_decode_ignore (take n chunk))
                          (Generation.png_chunks zlib_decompress data md))).
Proof.
  unfold Generation.png_chunks, Spec.candidates.
  destruct (text_chunks_run (Generation.tEXt_chunks_of data) md) as (Hg1 & Hr1 & Hk1).
  set (md1 := Generation.text_chunks (Generation.tEXt_chunks_of data) md) in *.
  destruct (ztxt_chunks_run (Generation.zTXt_chunks_of data) md1) as (Hg2 & Hr2 & Hk2).
  set (md2 := Generation.ztxt_chunks zlib_decompress (Generation.zTXt_chunks_of data) md1) in *.
  destruct (itxt_chunks_run (Generation.iTXt_chunks_of data) md2) as (Hg3 & Hr3).
  split; [|split; [|split]].
  - eapply grows_trans; [exact Hg1|]. eapply grows_trans; eassumption.
  - rewrite Hr3, Hr2, Hr1, override_assoc, last_parsed_app. reflexivity.
  - intros chunk n Hin Hn Hrec Hc. apply Hg3, Hg2. apply (Hk1 chunk n Hin Hn Hrec Hc).
  - intros chunk n Hin Hn Hrec Hc. apply Hg3. apply (Hk2 chunk n Hin Hn Hrec Hc).
Qed.

(** The scan of a JPEG file does not touch the record. *)
Lemma jpeg_scan_run (data : bytes) (md : dict) :
  Spec.grows md (Generation.jpeg_scan data md)
  /\ dict_get Generation.AI_METADATA_JSON (Generation.jpeg_scan data md)
     = dict_get Generation.AI_METADATA_JSON md.
Proof.
  unfold Generation.jpeg_scan.
  apply (fold_left_inv
           (fun md' => Spec.grows md md'
                       /\ dict_get Generation.AI_METADATA_JSON md'
                          = dict_get Generation.AI_METADATA_JSON md)).
  - apply (fold_left_inv
             (fun md' => Spec.grows md md'
                         /\ dict_get Generation.AI_METADATA_JSON md'
                            = dict_get Generation.AI_METADATA_JSON md)).
    + split; [apply grows_refl | reflexivity].
    + intros pl md' [Hg Hr]. destruct (Generation.find_sub _ _); [|split; assumption].
      split; [eapply grows_trans; [exact Hg | apply grows_set]|].
      rewrite dict_get_set_ne by apply JPEG_found_key_ne. exact Hr.
  - intros isec md' [Hg Hr]. destruct (_ <? _)%nat; [|split; assumption].
    split; [eapply grows_trans; [exact Hg | apply grows_set]|].
    rewrite dict_get_set_ne by apply JPEG_section_key_ne. exact Hr.
Qed.

End Reader.

Lemma basic_entries (a c d e f : pyval) :
  let md : dict := [ (u "Nom du fichier", a); (u "Chemin", c); (u "Taille du fichier", d);
                     (u "Dimensions", e); (u "Format", f) ] in
  dict_get (u "Dimensions") md = Some e /\ dict_get (u "Format") md = Some f
  /\ dict_get Generation.AI_METADATA_JSON md = None.
Proof. vm_compute. repeat split. Qed.

Lemma depth_key_ne : u "Profondeur de couleur" <> Generation.AI_METADATA_JSON.
Proof. intros H. vm_compute in H. discriminate H. Qed.

Lemma format_key_ne : u "Format Qt" <> Generation.AI_METADATA_JSON.
Proof. intros H. vm_compute in H. discriminate H. Qed.

Lemma png_error_key_ne : u "Erreur extraction PNG" <> Generation.AI_METADATA_JSON.
Proof. intros H. vm_compute in H. discriminate H. Qed.

Lemma jpeg_error_key_ne : u "Erreur extraction JPEG" <> Generation.AI_METADATA_JSON.
Proof. intros H. vm_compute in H. discriminate H. Qed.

Section Load.
Variable zlib_decompress : bytes -> result bytes.

(** The whole reader on a file whose image loads: it returns a dictionary
    with the dimensions and the format; the record in it is the one of the
    last candidate when the PNG scan reaches the bytes of the file, and there
    is none otherwise. *)
Lemma load_run (f : Generation.ImageFile) (width height : Z) :
  Generation.pixmap f = Some (width, height) ->
  exists md,
    Generation._load_external_image zlib_decompress f = Ok (Some md)
    /\ is_Some (dict_get (u "Dimensions") md)
    /\ is_Some (dict_get (u "Format") md)
    /\ match Spec.png_data f with
       | Some data =>
         dict_get Generation.AI_METADATA_JSON md
         = Spec.last_parsed (Spec.candidates zlib_decompress data)
         /\ (forall chunk n, chunk ∈ Generation.tEXt_chunks_of data ->
               find_index x00 chunk = Some n ->
               Spec.recognized (utf8_decode_ignore (take n chunk)) = true ->
               Spec.text_candidate chunk = None ->
               is_Some (dict_get (u "PNG_tEXt_" ++ utf8_decode_ignore (take n chunk)) md))
         /\ (forall chunk n, chunk ∈ Generation.zTXt_chunks_of data ->
               find_index x00 chunk = Some n ->
               Spec.recognized (utf8_decode_ignore (take n chunk)) = true ->
               Spec.ztxt_candidate zlib_decompress chunk = None ->
               is_Some (dict_get (u "PNG_zTXt_" ++ utf8_decode_ignore (take n chunk)) md))
       | None => dict_get Generation.AI_METADATA_JSON md = None
       end.
Proof.
  intros Hp. unfold Generation._load_external_image, Spec.png_data. rewrite Hp.
  match goal with
  | |- context [match Generation.qimage f with Some _ => _ | None => Ok ?m end] =>
    set (md0 := m)
  end.
  destruct (basic_entries (PStr (path_name (Generation.file_path f)))
              (PStr (Generation.path_parent (Generation.file_path f)))
              (PStr (Generation.format_kb (Generation.st_size f) ++ u " KB"))
              (PStr (str_of_Z width ++ u " x " ++ str_of_Z height ++ u " pixels"))
              (PStr (if bool_decide (path_suffix (Generation.file_path f) = [])
                     then u "Inconnu"
                     else drop 1 (Generation.str_upper (path_suffix (Generation.file_path f))))))
    as (Hd & Hf & Ha).
  fold md0 in Hd, Hf, Ha.
  destruct (Generation.qimage f) as [q|].
  2:{ exists md0. cbn [try_except bind]. rewrite Hd, Hf. repeat split; eauto. }
  match goal with
  | |- context [Ok (Generation.png_chunks zlib_decompress _ ?m)] => set (md2 := m)
  end.
  assert (Hg : Spec.grows md0 md2).
  { subst md2. destruct (Generation.format_name q);
      (eapply grows_trans; [apply grows_set | apply grows_set]). }
  assert (Hn : dict_get Generation.AI_METADATA_JSON md2 = None).
  { subst md2. destruct (Generation.format_name q);
      rewrite !dict_get_set_ne by (apply format_key_ne || apply depth_key_ne);
      exact Ha. }
  assert (Hd2 : is_Some (dict_get (u "Dimensions") md2)) by (apply Hg; rewrite Hd; eauto).
  assert (Hf2 : is_Some (dict_get (u "Format") md2)) by (apply Hg; rewrite Hf; eauto).
  clearbody md2. clear Hg Hd Hf Ha. clearbody md0.
  destruct (bool_decide (Generation.str_lower (path_suffix (Generation.file_path f))
                         = u ".png")).
  - destruct (Generation.contents f) as [data|e]; cbn [try_except bind].
    + destruct (png_chunks_run zlib_decompress data md2) as (Hg & Hr & Ht & Hz).
      eexists. split; [reflexivity|].
      split; [apply Hg, Hd2|]. split; [apply Hg, Hf2|].
      rewrite Hr, Hn. split; [destruct (Spec.last_parsed _); reflexivity|].
      split; assumption.
    + eexists. split; [reflexivity|].
      split; [apply grows_set, Hd2|]. split; [apply grows_set, Hf2|].
      rewrite dict_get_set_ne by apply png_error_key_ne. exact Hn.
  - assert (Hdone : forall r : result dict,
              (forall md, r = Ok md ->
                          Spec.grows md2 md
                          /\ dict_get Generation.AI_METADATA_JSON md = None) ->
              is_ok r = true ->
              exists md,
                (md' <- try_except r
                          (fun e => Ok (dict_set (u "Erreur générale") (PStr (exn_str e)) md0)) ;;
                 Ok (Some md')) = Ok (Some md)
                /\ is_Some (dict_get (u "Dimensions") md)
                /\ is_Some (dict_get (u "Format") md)
                /\ dict_get Generation.AI_METADATA_JSON md = None).
    { intros [md|e] Hr Hok; [|discriminate]. destruct (Hr md eq_refl) as [Hg Hr'].
      exists md. cbn [try_except bind]. repeat split; [apply Hg, Hd2 | apply Hg, Hf2 | exact Hr']. }
    assert (Hnone : match Generation.contents f with
                    | Ok _ => None
                    | Raise _ => @None bytes
                    end = None) by (destruct (Generation.contents f); reflexivity).
    match goal with
    | |- context [match match Generation.contents f with Ok _ => ?a | Raise _ => ?c end
                  with Some _ => _ | None => _ end] =>
      replace (match Generation.contents f with Ok _ => a | Raise _ => c end)
        with (@None bytes) by (destruct (Generation.contents f); reflexivity)
    end.
    apply Hdone.
    + intros md E.
      destruct (bool_decide (Generation.str_lower (path_suffix (Generation.file_path f))
                             ∈ [u ".jpg"; u ".jpeg"])).
      * destruct (Generation.contents f) as [data|e]; cbn [try_except bind] in E;
          injection E as <-.
        -- destruct (jpeg_scan_run data md2) as [Hg Hr]. split; [exact Hg | congruence].
        -- split; [apply grows_set|].
           rewrite dict_get_set_ne by apply jpeg_error_key_ne. exact Hn.
      * injection E as <-. split; [apply grows_refl | exact Hn].
    + destruct (bool_decide (Generation.str_lower (path_suffix (Generation.file_path f))
                             ∈ [u ".jpg"; u ".jpeg"])); [|reflexivity].
      destruct (Generation.contents f); reflexivity.
Qed.

End Load.

(* ===================================================================== *)
(** ** C4: which record the reader keeps                                  *)
(* ===================================================================== *)




(* ===================================================================== *)
(** ** Files without a record                                             *)
(* ===================================================================== *)

Lemma last_parsed_none (cs : list (option pyval)) :
  Forall (fun c => c = None) cs -> Spec.last_parsed cs = None.
Proof.
  intros H. unfold Spec.last_parsed.
  apply Forall_rev in H. induction H as [|c l -> _ IH]; [reflexivity | exact IH].
Qed.

(* ===================================================================== *)
(** ** C6: a compressed chunk with an unknown compression method          *)
(* ===================================================================== *)


Section Marker.
Variable zlib_decompress : bytes -> result bytes.

(** The inner [try] block with its handler assigns one key: the record, or
    the key of the chunk. *)
Lemma inflate_outcome (chunk : bytes) (n : nat) (kw msg : str) (md : dict) :
  exists K v,
    try_except (Generation.inflate_chunk zlib_decompress chunk n kw md)
      (fun e => Ok (dict_set (u "PNG_zTXt_" ++ kw) (PStr (msg ++ exn_str e)) md))
    = Ok (dict_set K v md)
    /\ (K = Generation.AI_METADATA_JSON \/ K = u "PNG_zTXt_" ++ kw).
Proof.
  unfold Generation.inflate_chunk.
  destruct (chunk !! S n) as [method|]; cbn [bind try_except].
  2:{ exists (u "PNG_zTXt_" ++ kw). eexists. split; [reflexivity | right; reflexivity]. }
  destruct (Byte.to_N method =? 0)%N.
  - destruct (zlib_decompress (drop (S (S n)) chunk)) as [text|e]; cbn [bind try_except].
    2:{ exists (u "PNG_zTXt_" ++ kw). eexists. split; [reflexivity | right; reflexivity]. }
    destruct (Json.loads (strip (utf8_decode_ignore text))) as [v|e]; cbn [bind try_except].
    + exists Generation.AI_METADATA_JSON, v. split; [reflexivity | left; reflexivity].
    + exists (u "PNG_zTXt_" ++ kw). eexists. split; [reflexivity | right; reflexivity].
  - exists (u "PNG_zTXt_" ++ kw). eexists. split; [reflexivity | right; reflexivity].
Qed.









End Marker.



(* ===================================================================== *)
(** ** C5: the reader and its dialog                                      *)
(* ===================================================================== *)

Lemma plain_keys_set (k : str) (v : pyval) (md : dict) :
  startswith (u "AI_prompt") k = false -> Spec.plain_keys md -> Spec.plain_keys (dict_set k v md).
Proof.
  unfold Spec.plain_keys. intros Hk. induction md as [|[k' v'] md IH]; intros H; simpl.
  - constructor; [exact Hk | constructor].
  - inversion H as [|? ? Hk' Hrest]; subst.
    destruct (bool_decide (k = k')); simpl; constructor; auto.
Qed.

Section Keys.
Variable zlib_decompress : bytes -> result bytes.

Lemma text_chunk_keys (chunk : bytes) (md md' : dict) :
  Spec.plain_keys md -> Generation.text_chunk chunk md = Ok md' -> Spec.plain_keys md'.
Proof.
  unfold Generation.text_chunk. intros H.
  destruct (find_index x00 chunk) as [n|]; [|intros E; injection E as <-; exact H].
  destruct (bool_decide _).
  { destruct (Json.loads _); cbn [bind try_except]; intros E; injection E as <-;
      apply plain_keys_set; (reflexivity || exact H). }
  destruct (bool_decide _).
  { destruct (Json.loads _); cbn [bind try_except]; intros E; injection E as <-;
      apply plain_keys_set; (reflexivity || exact H). }
  intros E; injection E as <-. apply plain_keys_set; [reflexivity | exact H].
Qed.

Lemma ztxt_chunk_keys (chunk : bytes) (md md' : dict) :
  Spec.plain_keys md -> Generation.ztxt_chunk zlib_decompress chunk md = Ok md' -> Spec.plain_keys md'.
Proof.
  unfold Generation.ztxt_chunk. intros H.
  destruct (find_index x00 chunk) as [n|]; [|intros E; injection E as <-; exact H].
  set (kw := utf8_decode_ignore (take n chunk)).
  assert (Hboth : forall msg : str,
    try_except (Generation.inflate_chunk zlib_decompress chunk n kw md)
      (fun e => Ok (dict_set (u "PNG_zTXt_" ++ kw) (PStr (msg ++ exn_str e)) md)) = Ok md' ->
    Spec.plain_keys md').
  { intros msg E.
    destruct (inflate_outcome zlib_decompress chunk n kw msg md) as (K & v & E' & HK).
    rewrite E' in E. injection E as <-.
    apply plain_keys_set; [|exact H]. destruct HK as [->| ->]; reflexivity. }
  destruct (bool_decide _); [apply Hboth|].
  destruct (bool_decide _); [apply Hboth|].
  intros E; injection E as <-. apply plain_keys_set; [reflexivity | exact H].
Qed.

Lemma png_chunks_keys (data : bytes) (md : dict) :
  Spec.plain_keys md -> Spec.plain_keys (Generation.png_chunks zlib_decompress data md).
Proof.
  intros H. unfold Generation.png_chunks, Generation.text_chunks, Generation.ztxt_chunks,
    Generation.itxt_chunks.
  apply fold_left_inv; [apply fold_left_inv; [apply fold_left_inv; [exact H|]|]|].
  - intros c md' H'. destruct (Generation.text_chunk c md') as [md1|e] eqn:E; [|exact H'].
    exact (text_chunk_keys c md' md1 H' E).
  - intros c md' H'.
    destruct (Generation.ztxt_chunk zlib_decompress c md') as [md1|e] eqn:E.
    + exact (ztxt_chunk_keys c md' md1 H' E).
    + apply plain_keys_set; [reflexivity | exact H'].
  - intros c md' H'. unfold Generation.itxt_chunk.
    destruct (find_index x00 c) as [n|]; [|exact H'].
    destruct (find_index x00 (drop (S n) c)) as [k|]; [|exact H'].
    apply plain_keys_set; [reflexivity | exact H'].
Qed.

Lemma jpeg_scan_keys (data : bytes) (md : dict) :
  Spec.plain_keys md -> Spec.plain_keys (Generation.jpeg_scan data md).
Proof.
  intros H. unfold Generation.jpeg_scan.
  apply fold_left_inv; [apply fold_left_inv; [exact H|]|].
  - intros pl md' H'. destruct (Generation.find_sub _ _); [|exact H'].
    apply plain_keys_set; [reflexivity | exact H'].
  - intros isec md' H'. destruct (_ <? _)%nat; [|exact H'].
    apply plain_keys_set; [reflexivity | exact H'].
Qed.

(** No key of the dictionary that [_load_external_image] collects begins
    with [AI_prompt]. *)
Lemma collected_keys (f : Generation.ImageFile) (md : dict) :
  Generation._load_external_image zlib_decompress f = Ok (Some md) -> Spec.plain_keys md.
Proof.
  unfold Generation._load_external_image.
  destruct (Generation.pixmap f) as [[width height]|]; [|discriminate].
  match goal with
  | |- context [match Generation.qimage f with Some _ => _ | None => Ok ?m end] =>
    set (md0 := m)
  end.
  assert (H0 : Spec.plain_keys md0) by (repeat constructor).
  clearbody md0.
  destruct (Generation.qimage f) as [q|];
    [|cbn [bind try_except]; intros E; injection E as <-; exact H0].
  match goal with
  | |- context [Ok (Generation.png_chunks zlib_decompress _ ?m)] => set (md2 := m)
  end.
  assert (H2 : Spec.plain_keys md2).
  { subst md2. destruct (Generation.format_name q);
      apply plain_keys_set; try reflexivity; apply plain_keys_set; try reflexivity; exact H0. }
  clearbody md2.
  destruct (bool_decide _).
  { destruct (Generation.contents f) as [data|e]; cbn [bind try_except];
      intros E; injection E as <-.
    - apply png_chunks_keys, H2.
    - apply plain_keys_set; [reflexivity | exact H2]. }
  destruct (bool_decide _).
  { destruct (Generation.contents f) as [data|e]; cbn [bind try_except];
      intros E; injection E as <-.
    - apply jpeg_scan_keys, H2.
    - apply plain_keys_set; [reflexivity | exact H2]. }
  cbn [bind try_except]. intros E; injection E as <-. exact H2.
Qed.

End Keys.

Section Dialog.
Variable old_format : str -> list pyval.

(** The lines of a record that is not an object are never finished: what
    does not raise before raises at [ai_metadata.items()]. *)
Lemma record_lines_needs_object (ai : pyval) :
  (forall d, ai <> PDict d) -> is_ok (Generation.record_lines ai) = false.
Proof.
  intros Hd. unfold Generation.record_lines.
  repeat match goal with
         | |- is_ok (bind ?r _) = false => destruct r; cbn [bind]; [|reflexivity]
         end.
  unfold Generation.other_params_block, Generation.py_items.
  destruct ai; try reflexivity. exfalso. exact (Hd _ eq_refl).
Qed.

(** So the text of the dialog is not made when the record is not an
    object. *)
Lemma dialog_text_needs_object (md : dict) (ai : pyval) :
  dict_get Generation.AI_METADATA_JSON md = Some ai ->
  (forall d, ai <> PDict d) ->
  is_ok (Generation.dialog_text old_format md) = false.
Proof.
  intros Hai Hd. unfold Generation.dialog_text, Generation.formatted_lines.
  destruct md as [|kv md]; [discriminate|].
  rewrite Hai. pose proof (record_lines_needs_object ai Hd) as H.
  destruct (Generation.record_lines ai); [discriminate | reflexivity].
Qed.

(** The loop over the entries appends text only, and leaves
    [has_ai_metadata] as it is, when no key begins with [AI_prompt]. *)
Lemma entry_lines_plain (md : dict) :
  Spec.plain_keys md ->
  forall (out : list pyval) (has : bool),
    exists new,
      fold_left (Generation.entry_lines old_format) md (out, has) = (out ++ new, has)
      /\ Forall (fun v => exists s, v = PStr s) new.
Proof.
  unfold Spec.plain_keys. induction md as [|[k v] md IH]; intros H out has.
  - exists []. rewrite app_nil_r. split; [reflexivity | constructor].
  - inversion H as [|? ? Hk Hrest]; subst. cbn [fold_left].
    assert (E : exists s, Generation.entry_lines old_format (out, has) (k, v)
                          = (out ++ [PStr s], has)).
    { unfold Generation.entry_lines. cbn [fst snd] in *. rewrite Hk.
      destruct v; eexists; reflexivity. }
    destruct E as (s & ->).
    destruct (IH Hrest (out ++ [PStr s]) has) as (new & -> & Hnew).
    exists (PStr s :: new). rewrite <- app_assoc. split; [reflexivity|].
    constructor; [eexists; reflexivity | exact Hnew].
Qed.

Lemma entry_lines_same (old_format' : str -> list pyval) (md : dict) :
  Spec.plain_keys md ->
  forall acc, fold_left (Generation.entry_lines old_format) md acc
              = fold_left (Generation.entry_lines old_format') md acc.
Proof.
  unfold Spec.plain_keys. induction md as [|[k v] md IH]; intros H acc; [reflexivity|].
  inversion H as [|? ? Hk Hrest]; subst. cbn [fold_left].
  assert (E : Generation.entry_lines old_format acc (k, v)
              = Generation.entry_lines old_format' acc (k, v)).
  { unfold Generation.entry_lines. cbn [fst snd] in *. rewrite Hk. reflexivity. }
  rewrite E. apply IH, Hrest.
Qed.

Lemma str_items_text (items : list pyval) :
  Forall (fun v => exists s, v = PStr s) items ->
  forall i, is_ok (Generation.str_items i items) = true.
Proof.
  induction 1 as [|v items [s ->] _ IH]; intros i; [reflexivity|].
  cbn [Generation.str_items]. specialize (IH (S i)).
  destruct (Generation.str_items (S i) items); [reflexivity | discriminate].
Qed.

(** Without a record, and with no key that begins with [AI_prompt], the
    text of the dialog is made. *)
Lemma dialog_text_without_record (md : dict) :
  dict_get Generation.AI_METADATA_JSON md = None -> Spec.plain_keys md ->
  is_ok (Generation.dialog_text old_format md) = true.
Proof.
  intros Hai Hk. unfold Generation.dialog_text, Generation.formatted_lines.
  destruct md as [|kv md]; [reflexivity|].
  rewrite Hai. cbn [bind].
  destruct (entry_lines_plain (kv :: md) Hk []
              (dict_has Generation.AI_METADATA_JSON (kv :: md))) as (new & -> & Hnew).
  cbn [bind].
  assert (Hall : Forall (fun v => exists s, v = PStr s)
                   (([] ++ new)
                      ++ Generation.footer (dict_has Generation.AI_METADATA_JSON (kv :: md)))).
  { apply Forall_app. split; [exact Hnew|]. unfold Generation.footer.
    destruct (dict_has _ _); repeat constructor; eexists; reflexivity. }
  pose proof (str_items_text _ Hall 0%nat) as H.
  destruct (Generation.str_items 0 _); [reflexivity | discriminate].
Qed.

End Dialog.

Section Whole.
Variable old_format : str -> list pyval.
Variable zlib_decompress : bytes -> result bytes.

(** On a file whose image loads and in which no candidate parses, the
    function runs to its end: the dictionary has the entries [Dimensions]
    and [Format] and no record, and the dialog gets its text. *)
Lemma load_without_record (f : Generation.ImageFile) :
  is_Some (Generation.pixmap f) ->
  (forall data, Spec.png_data f = Some data ->
                Forall (fun c => c = None) (Spec.candidates zlib_decompress data)) ->
  exists md text,
    Generation._load_external_image zlib_decompress f = Ok (Some md)
    /\ is_Some (dict_get (u "Dimensions") md)
    /\ is_Some (dict_get (u "Format") md)
    /\ dict_get Generation.AI_METADATA_JSON md = None
    /\ Generation._load_external_image_dialog old_format zlib_decompress f = Ok (Some text).
Proof.
  intros [[width height] Hp] Hnone.
  destruct (load_run zlib_decompress f width height Hp) as (md & E & Hd & Hf & H).
  assert (Hrec : dict_get Generation.AI_METADATA_JSON md = None).
  { destruct (Spec.png_data f) as [data|]; [|exact H].
    destruct H as [-> _]. apply last_parsed_none, Hnone. reflexivity. }
  pose proof (dialog_text_without_record old_format md Hrec
                (collected_keys zlib_decompress f md E)) as Ht.
  unfold Generation._load_external_image_dialog. rewrite E. cbn [bind].
  destruct (Generation.dialog_text old_format md) as [text|e]; [|discriminate].
  exists md, text. repeat split; assumption.
Qed.

(** X22: on a file whose record is not an object (a number, a text, a
    list, [true], [false] or [null]), the function raises: the tests on the
    record and the call of [items] are outside every [try] block. *)
Theorem load_needs_object (f : Generation.ImageFile) (ai : pyval) :
  Spec.decoded_record (Generation._load_external_image zlib_decompress f) = Some (Some ai) ->
  (forall d, ai <> PDict d) ->
  is_ok (Generation._load_external_image_dialog old_format zlib_decompress f) = false.
Proof.
  intros Hai Hd. unfold Generation._load_external_image_dialog.
  destruct (Generation._load_external_image zlib_decompress f) as [[md|]|e];
    [|discriminate|reflexivity].
  cbn [Spec.decoded_record] in Hai. injection Hai as Hai. cbn [bind].
  pose proof (dialog_text_needs_object old_format md ai Hai Hd) as H.
  destruct (Generation.dialog_text old_format md); [discriminate | reflexivity].
Qed.

(** The branch for the old format is never taken: the outcome does not
    depend on what it would append. *)
Lemma old_format_unused (old_format' : str -> list pyval) (f : Generation.ImageFile) :
  Generation._load_external_image_dialog old_format zlib_decompress f
  = Generation._load_external_image_dialog old_format' zlib_decompress f.
Proof.
  unfold Generation._load_external_image_dialog.
  destruct (Generation._load_external_image zlib_decompress f) as [[md|]|e] eqn:E;
    cbn [bind]; try reflexivity.
  pose proof (collected_keys zlib_decompress f md E) as Hk.
  assert (Ht : Generation.dialog_text old_format md = Generation.dialog_text old_format' md).
  { unfold Generation.dialog_text, Generation.formatted_lines.
    destruct md as [|kv md]; [reflexivity|].
    destruct (match dict_get Generation.AI_METADATA_JSON (kv :: md) with
              | Some ai => Generation.record_lines ai
              | None => Ok []
              end) as [out|e]; cbn [bind]; [|reflexivity].
    rewrite (entry_lines_same old_format old_format' (kv :: md) Hk). reflexivity. }
  rewrite Ht. reflexivity.
Qed.

(** X23: no key of the dictionary that the function collects begins with
    [AI_prompt], so the branch of the loop over the entries that reads a
    workflow in the old format is never taken: the outcome does not depend
    on what that branch would append. *)
Theorem old_format_branch_is_dead (old_format' : str -> list pyval)
        (f : Generation.ImageFile) :
  match Generation._load_external_image zlib_decompress f with
  | Ok (Some md) => Spec.plain_keys md
  | _ => True
  end
  /\ Generation._load_external_image_dialog old_format zlib_decompress f
     = Generation._load_external_image_dialog old_format' zlib_decompress f.
Proof.
  split; [|apply old_format_unused].
  destruct (Generation._load_external_image zlib_decompress f) as [[md|]|e] eqn:E;
    try exact I.
  exact (collected_keys zlib_decompress f md E).
Qed.

(** C5.  A one-pixel image with a private chunk in which the reader sees a
    text chunk of keyword [AI] and text [5]: the text is JSON, so the record
    that is collected is the number 5; the test whether [prompt] is in the
    record, which comes first when the text of the dialog is made, is
    outside every [try] block and raises [TypeError] past the function. *)
Theorem record_that_is_no_object_raises :
  let f := Inputs.png_file Inputs.five_carrier in
  map Spec.text_candidate (Generation.tEXt_chunks_of Inputs.five_carrier) = [Some (PInt 5)]
  /\ Spec.decoded_record (Generation._load_external_image zlib_decompress f)
     = Some (Some (PInt 5))
  /\ Generation._load_external_image_dialog old_format zlib_decompress f
     = Raise (TypeError (u "argument of type 'int' is not iterable")).
Proof. intros; repeat (apply conj; [vm_compute; reflexivity|]); vm_compute; reflexivity. Qed.

End Whole.

Lemma load_needs_object_witness :
  is_ok (Generation._load_external_image_dialog (fun _ => []) Inputs.no_zlib
           (Inputs.png_file Inputs.five_carrier)) = false.
Proof.
  apply (load_needs_object (fun _ => []) Inputs.no_zlib
           (Inputs.png_file Inputs.five_carrier) (PInt 5)).
  - vm_compute. reflexivity.
  - discriminate.
Defined.

(* ===================================================================== *)
(** ** C1, C2, C8: what the code does on three inputs                     *)
(* ===================================================================== *)

(** C1.  The record of a diffusion job is within the limit and its text
    parses back to it.  Stored in the [tEXt] chunk of a PNG file, it is not
    read back: the chunk that the reader cuts out runs up to the next chunk
    name, so the text ends with the check sum of the chunk and the length of
    the next one, and does not parse.  Without those bytes the record does
    come back, unless the text itself holds a chunk name, as the prompt
    BEST FRIEND does. *)
Theorem saved_record_is_not_read_back (zlib_decompress : bytes -> result bytes) :
  let record := Inputs.record_of Inputs.generate_job in
  (length (Json.dumps (PDict record)) <=? 4000)%nat = true
  /\ Json.loads (Persistence.metadata_json record) = Ok (PDict record)
  /\ Spec.decoded_record
       (Generation._load_external_image zlib_decompress
          (Inputs.png_file (Inputs.saved_png Inputs.generate_job))) = Some None
  /\ Spec.decoded_record
       (Generation._load_external_image zlib_decompress
          (Inputs.png_file (Inputs.bare_carrier Inputs.friend_job))) = Some None
  /\ Spec.decoded_record
       (Generation._load_external_image zlib_decompress
          (Inputs.png_file (Inputs.bare_carrier Inputs.generate_job)))
     = Some (Some (PDict record)).
Proof. intros; repeat (apply conj; [vm_compute; reflexivity|]); vm_compute; reflexivity. Qed.

(** The reduced record has six keys, in this order, and is marked. *)
Lemma essential_metadata_keys (md : dict) :
  dict_keys (Persistence.essential_metadata md)
  = [u "prompt"; u "seed"; u "strength"; u "generation_type"; u "timestamp"; u "truncated"]
  /\ dict_get (u "truncated") (Persistence.essential_metadata md) = Some (PBool true).
Proof. split; reflexivity. Qed.

(** A record that is too long is replaced by the reduced record; any other
    is stored as it is and is within the limit. *)
Lemma metadata_json_cases (md : dict) :
  ((4000 < length (Json.dumps (PDict md)))%nat ->
   Persistence.metadata_json md = Json.dumps (PDict (Persistence.essential_metadata md)))
  /\ ((length (Json.dumps (PDict md)) <= 4000)%nat ->
      Persistence.metadata_json md = Json.dumps (PDict md)
      /\ (length (Persistence.metadata_json md) <= 4000)%nat).
Proof.
  unfold Persistence.metadata_json. split; intros H.
  - destruct (Nat.ltb_spec 4000 (length (Json.dumps (PDict md)))); [reflexivity | lia].
  - destruct (Nat.ltb_spec 4000 (length (Json.dumps (PDict md)))); [lia|].
    split; [reflexivity | exact H].
Qed.

(** C2.  The record of a job with a prompt of 4001 letters is too long, so
    the reduced record is stored; it keeps the prompt whole, and its text
    has 4122 characters, and as many bytes.  The record of a job with a
    prompt of 2000 accented letters has 2221 characters, so it is stored as
    it is; in UTF-8 it has 4221 bytes. *)
Theorem long_prompt_exceeds_limit :
  let md := Inputs.record_of Inputs.long_job in
  let md' := Inputs.record_of Inputs.accent_job in
  (4000 <? length (Json.dumps (PDict md)))%nat = true
  /\ Persistence.metadata_json md = Json.dumps (PDict (Persistence.essential_metadata md))
  /\ length (Persistence.metadata_json md) = Z.to_nat 4122
  /\ length (utf8_encode (Persistence.metadata_json md)) = Z.to_nat 4122
  /\ Persistence.metadata_json md' = Json.dumps (PDict md')
  /\ length (Persistence.metadata_json md') = Z.to_nat 2221
  /\ length (utf8_encode (Persistence.metadata_json md')) = Z.to_nat 4221.
Proof. intros; repeat (apply conj; [vm_compute; reflexivity|]); vm_compute; reflexivity. Qed.

(** C8.  A job whose results are in but whose state is not [finished] is
    saved by [save_all_history_images], which looks at the results and the
    kind only; [_auto_save_images_from_history] passes over it. *)
Theorem history_saves_unfinished_job :
  let run := AutoSave.save_all_history_images Persistence.all_metadata
               Persistence.image_type Inputs.calm [Inputs.running_job] Inputs.empty_world in
  state Inputs.running_job = executing
  /\ snd run = Ok 1%nat
  /\ size (files (fst run)) = 1%nat
  /\ snd (Persistence._auto_save_images_from_history Inputs.calm [Inputs.running_job]
            Inputs.empty_world) = Ok 0%nat.
Proof. intros; repeat (apply conj; [vm_compute; reflexivity|]); vm_compute; reflexivity. Qed.

(* ===================================================================== *)
(** ** [_extract_image_metadata] of the metadata panel                    *)
(* ===================================================================== *)

(** [_extract_image_metadata] always returns its dictionary.  When the
    reader knows the size and the format of the image, and [json.loads]
    raises nothing but [JSONDecodeError], the dictionary has the entries
    [Dimensions] and [Format]. *)
Lemma extract_image_metadata_total (image_path : str) (reader : MetadataPanel.QImageReader) :
  exists md entries,
    MetadataPanel._extract_image_metadata image_path reader = Ok (md, entries)
    /\ (forall w h c rest name,
          MetadataPanel.size reader = Some (w, h) ->
          MetadataPanel.format reader = c :: rest ->
          MetadataPanel.utf8_decode (c :: rest) = Ok name ->
          (forall e, Json.loads (MetadataPanel.text reader (u "metadata")) = Raise e ->
                     is_json_decode_error e = true) ->
          is_Some (dict_get (u "Dimensions") md)
          /\ dict_get (u "Format") md = Some (PStr name)).
Proof.
  unfold MetadataPanel._extract_image_metadata.
  destruct (MetadataPanel.extract_steps image_path reader) as [md [e|]] eqn:E;
    eexists; eexists; (split; [reflexivity|]);
    intros w h c rest name Hs Hf Hu Hj;
    unfold MetadataPanel.extract_steps in E; rewrite Hs, Hf, Hu in E.
  - exfalso.
    destruct (MetadataPanel.endswith _ _); [|discriminate].
    destruct (bool_decide _); [discriminate|].
    destruct (Json.loads _) as [v|e'] eqn:El; [discriminate|].
    rewrite (Hj e' eq_refl) in E. discriminate.
  - assert (Hgen : forall m0 : dict,
              (md, @None exn)
              = (dict_set (u "Format") (PStr name)
                   (dict_set (u "Dimensions") (PStr (str_of_Z w ++ u "x" ++ str_of_Z h)) m0),
                 None) ->
              is_Some (dict_get (u "Dimensions") md)
              /\ dict_get (u "Format") md = Some (PStr name)).
    { intros m0 H. injection H as ->. split.
      - apply dict_set_keeps. rewrite dict_get_set_eq. eauto.
      - apply dict_get_set_eq. }
    destruct (MetadataPanel.endswith _ _).
    + destruct (bool_decide _).
      * eapply Hgen. symmetry. exact E.
      * destruct (Json.loads _) as [v|e'].
        -- eapply Hgen. symmetry. exact E.
        -- destruct (is_json_decode_error e'); [|discriminate].
           eapply Hgen. symmetry. exact E.
    + eapply Hgen. symmetry. exact E.
Qed.

(* ===================================================================== *)
(** ** Further properties                                                 *)
(* ===================================================================== *)

Import Json Terms PanelSize.

(** ** [_clean_metadata_value] *)

Lemma lstrip_head (s : str) :
  match lstrip s with [] => True | c :: _ => isspace c = false end.
Proof.
  induction s as [|c s IH]; simpl; [exact I|].
  destruct (isspace c) eqn:E; [exact IH|exact E].
Qed.

Lemma lstrip_fixed (s : str) :
  match s with [] => True | c :: _ => isspace c = false end -> lstrip s = s.
Proof. destruct s as [|c s]; simpl; [reflexivity|]. now intros ->. Qed.

Lemma lstrip_suffix (s : str) : exists pre, s = pre ++ lstrip s.
Proof.
  induction s as [|c s [pre IH]]; simpl.
  - now exists [].
  - destruct (isspace c).
    + exists (c :: pre). simpl. now rewrite <- IH.
    + now exists [].
Qed.

Lemma strip_parts (s : str) : exists pre post, s = pre ++ strip s ++ post.
Proof.
  unfold strip.
  destruct (lstrip_suffix s) as [pre E1].
  destruct (lstrip_suffix (rev (lstrip s))) as [post E2].
  exists pre, (rev post).
  rewrite <- rev_app_distr, <- E2, rev_involutive. exact E1.
Qed.

Lemma strip_head (s : str) :
  match strip s with [] => True | c :: _ => isspace c = false end.
Proof.
  unfold strip.
  destruct (lstrip_suffix (rev (lstrip s))) as [post E].
  pose proof (lstrip_head s) as H.
  destruct (lstrip (rev (lstrip s))) as [|x r] using rev_ind; [exact I|].
  rewrite rev_app_distr. simpl.
  apply (f_equal (@rev N)) in E. rewrite rev_involutive, rev_app_distr, rev_app_distr in E.
  simpl in E. rewrite E in H. exact H.
Qed.

Lemma strip_last (s : str) :
  match rev (strip s) with [] => True | c :: _ => isspace c = false end.
Proof. unfold strip. rewrite rev_involutive. apply lstrip_head. Qed.

Lemma strip_fixed (s : str) :
  match s with [] => True | c :: _ => isspace c = false end ->
  match rev s with [] => True | c :: _ => isspace c = false end ->
  strip s = s.
Proof.
  intros H1 H2. unfold strip.
  rewrite (lstrip_fixed s H1), (lstrip_fixed _ H2). apply rev_involutive.
Qed.

Lemma strip_idempotent (s : str) : strip (strip s) = strip s.
Proof. apply strip_fixed; [apply strip_head|apply strip_last]. Qed.

Lemma strip_Forall (P : N -> Prop) (s : str) : Forall P s -> Forall P (strip s).
Proof.
  intros H. destruct (strip_parts s) as (pre & post & E).
  rewrite E in H. apply Forall_app in H as [_ H]. now apply Forall_app in H as [H _].
Qed.

Lemma filter_fixed (f : N -> bool) (s : str) :
  Forall (fun c => f c = true) s -> filter (fun c => f c = true) s = s.
Proof.
  induction 1 as [|c s Hc _ IH]; [reflexivity|].
  rewrite filter_cons, decide_True by exact Hc. now rewrite IH.
Qed.

Lemma filter_holds (f : N -> bool) (s : str) :
  Forall (fun c => f c = true) (filter (fun c => f c = true) s).
Proof.
  apply Forall_forall. intros c Hc.
  now apply list_elem_of_filter in Hc as [Hc _].
Qed.

Lemma filter_keeps (P : N -> Prop) (f : N -> bool) (s : str) :
  Forall P s -> Forall P (filter (fun c => f c = true) s).
Proof.
  rewrite !Forall_forall. intros H c Hc. apply H.
  now apply list_elem_of_filter in Hc as [_ Hc].
Qed.

Lemma last_head_rev {A} (l : list A) : last l = head (rev l).
Proof.
  destruct l as [|x l] using rev_ind; [reflexivity|].
  now rewrite last_snoc, rev_app_distr.
Qed.

Lemma clean_chars (v : pyval) :
  Forall (fun c => negb (Persistence.is_control c) = true)
         (Persistence._clean_metadata_value v) /\
  Forall (fun c => negb (Persistence.is_problem c) = true)
         (Persistence._clean_metadata_value v).
Proof.
  unfold Persistence._clean_metadata_value. split; apply strip_Forall.
  - apply filter_keeps, filter_holds.
  - apply filter_holds.
Qed.

(** X1: cleaning a cleaned value changes nothing. *)
Theorem clean_metadata_value_idempotent (v : pyval) :
  Persistence._clean_metadata_value (PStr (Persistence._clean_metadata_value v))
  = Persistence._clean_metadata_value v.
Proof.
  destruct (clean_chars v) as [H1 H2].
  unfold Persistence._clean_metadata_value at 1. cbn [py_str].
  rewrite (filter_fixed _ _ H1), (filter_fixed _ _ H2).
  unfold Persistence._clean_metadata_value. apply strip_idempotent.
Qed.

(** X2: a cleaned value holds no control character other than tab, line feed
    and carriage return, none of U+FFFD to U+FFFF, and neither begins nor
    ends with white space. *)
Theorem clean_metadata_value_clean (v : pyval) :
  let s := Persistence._clean_metadata_value v in
  (forall c, c ∈ s ->
     (32 <= c \/ c = 9 \/ c = 10 \/ c = 13)%N /\ c <> 127%N /\
     ~ (65533 <= c <= 65535)%N) /\
  (forall c, head s = Some c -> isspace c = false) /\
  (forall c, last s = Some c -> isspace c = false).
Proof.
  intros s. destruct (clean_chars v) as [H1 H2]. fold s in H1, H2.
  split; [|split].
  - intros c Hc.
    rewrite Forall_forall in H1, H2. specialize (H1 c Hc). specialize (H2 c Hc).
    unfold Persistence.is_control in H1. unfold Persistence.is_problem in H2.
    apply negb_true_iff in H1, H2.
    repeat match goal with
           | H : (_ || _) = false |- _ => apply orb_false_iff in H as [? ?]
           | H : (_ && _) = false |- _ => apply andb_false_iff in H as [?|?]
           | H : (_ <=? _)%N = false |- _ => apply N.leb_gt in H
           | H : (_ =? _)%N = false |- _ => apply N.eqb_neq in H
           end; lia.
  - intros c Hc. pose proof (strip_head (filter (fun c => negb (Persistence.is_problem c) = true)
       (filter (fun c => negb (Persistence.is_control c) = true) (py_str v)))) as H.
    change (strip _) with s in H. destruct s; [discriminate|]. now inversion Hc; subst.
  - intros c Hc. pose proof (strip_last (filter (fun c => negb (Persistence.is_problem c) = true)
       (filter (fun c => negb (Persistence.is_control c) = true) (py_str v)))) as H.
    change (strip _) with s in H. rewrite last_head_rev in Hc.
    destruct (rev s); [discriminate|]. now inversion Hc; subst.
Qed.

(** ** The record built for an image *)

Lemma dict_keys_set {V} (k : str) (v : V) (d : list (str * V)) :
  dict_keys (dict_set k v d)
  = if dict_has k d then dict_keys d else dict_keys d ++ [k].
Proof.
  unfold dict_has, dict_keys. induction d as [|[k' v'] d IH]; simpl; [reflexivity|].
  destruct (bool_decide (k = k')) eqn:E; simpl.
  - apply bool_decide_eq_true_1 in E. now subst.
  - rewrite IH. now destruct (dict_get k d).
Qed.

Lemma dict_get_None_keys {V} (k : str) (d : list (str * V)) :
  dict_get k d = None <-> k ∉ dict_keys d.
Proof.
  unfold dict_keys. induction d as [|[k' v'] d IH]; simpl.
  - split; [intros _; apply not_elem_of_nil|reflexivity].
  - rewrite not_elem_of_cons. destruct (bool_decide (k = k')) eqn:E.
    + apply bool_decide_eq_true_1 in E. split; [discriminate|]. intros [H _]. contradiction.
    + apply bool_decide_eq_false_1 in E. rewrite IH. tauto.
Qed.

Lemma dict_set_NoDup {V} (k : str) (v : V) (d : list (str * V)) :
  NoDup (dict_keys d) -> NoDup (dict_keys (dict_set k v d)).
Proof.
  intros H. rewrite dict_keys_set. unfold dict_has.
  destruct (dict_get k d) eqn:E; [exact H|].
  apply NoDup_app. split; [exact H|]. split.
  - intros x Hx Hk. apply list_elem_of_singleton in Hk. subst x.
    now apply dict_get_None_keys in E.
  - apply NoDup_singleton.
Qed.

Lemma copy_params_cons (kv : str * pyval) (md acc : dict) :
  copy_params (kv :: md) acc
  = copy_params md
      (if bool_decide (fst kv ∈ Persistence.reserved_keys) then acc
       else dict_set (u "param_" ++ fst kv) (PStr (Persistence.clean_value (snd kv))) acc).
Proof. reflexivity. Qed.

Lemma copy_params_NoDup (md acc : dict) :
  NoDup (dict_keys acc) -> NoDup (dict_keys (copy_params md acc)).
Proof.
  revert acc. induction md as [|kv md IH]; intros acc H; [exact H|].
  rewrite copy_params_cons. apply IH.
  destruct (bool_decide _); [exact H|]. now apply dict_set_NoDup.
Qed.

Lemma copy_params_other (md acc : dict) (k : str) :
  startswith (u "param_") k = false ->
  dict_get k (copy_params md acc) = dict_get k acc.
Proof.
  intros Hk. revert acc. induction md as [|kv md IH]; intros acc; [reflexivity|].
  rewrite copy_params_cons. cbn [fst snd]. rewrite IH.
  destruct (bool_decide _); [reflexivity|].
  apply dict_get_set_ne. intros <-. vm_compute in Hk. discriminate Hk.
Qed.

Lemma clean_value_length (v : pyval) : (length (Persistence.clean_value v) <= 500)%nat.
Proof.
  unfold Persistence.clean_value.
  destruct (500 <? length _)%nat eqn:E.
  - apply Nat.ltb_lt in E. rewrite length_app, length_take.
    change (length (u "...")) with 3%nat. lia.
  - apply Nat.ltb_ge in E. exact E.
Qed.

Lemma copy_params_param (md acc : dict) (k : str) (v : pyval) :
  dict_get k (copy_params md acc) = Some v ->
  dict_get k acc = Some v \/ exists x, v = PStr (Persistence.clean_value x).
Proof.
  revert acc. induction md as [|kv md IH]; intros acc H; [now left|].
  rewrite copy_params_cons in H. cbn [fst snd] in H.
  apply IH in H as [H|H]; [|now right].
  destruct (bool_decide _); [now left|].
  destruct (decide (u "param_" ++ fst kv = k)) as [<-|Hne].
  - rewrite dict_get_set_eq in H. injection H as <-. right. eauto.
  - rewrite dict_get_set_ne in H by exact Hne. now left.
Qed.

Lemma copy_params_absent (md acc : dict) (k : str) :
  k ∉ dict_keys md ->
  dict_get (u "param_" ++ k) (copy_params md acc) = dict_get (u "param_" ++ k) acc.
Proof.
  revert acc. induction md as [|[k' v'] md IH]; intros acc Hk; [reflexivity|].
  rewrite copy_params_cons. cbn [fst snd].
  cbn [dict_keys map fst] in Hk. apply not_elem_of_cons in Hk as [Hne Hk].
  rewrite IH by exact Hk.
  destruct (bool_decide _); [reflexivity|].
  apply dict_get_set_ne. intros Heq. apply (app_inv_head (u "param_")) in Heq. congruence.
Qed.

Lemma copy_params_stored (md acc : dict) (k : str) (v : pyval) :
  NoDup (dict_keys md) ->
  dict_get k md = Some v ->
  k ∉ Persistence.reserved_keys ->
  dict_get (u "param_" ++ k) (copy_params md acc)
  = Some (PStr (Persistence.clean_value v)).
Proof.
  revert acc. induction md as [|[k' v'] md IH]; intros acc Hnd Hget Hk; [discriminate|].
  rewrite copy_params_cons. cbn [fst snd].
  cbn [dict_get dict_keys map fst] in Hget, Hnd. apply NoDup_cons in Hnd as [Hk' Hnd].
  destruct (bool_decide (k = k')) eqn:E.
  - apply bool_decide_eq_true_1 in E. subst k'. injection Hget as ->.
    rewrite bool_decide_eq_false_2 by exact Hk.
    rewrite copy_params_absent by exact Hk'. apply dict_get_set_eq.
  - now apply IH.
Qed.

Lemma copy_params_reserved (md acc : dict) (k : str) :
  k ∈ Persistence.reserved_keys ->
  dict_get (u "param_" ++ k) (copy_params md acc) = dict_get (u "param_" ++ k) acc.
Proof.
  intros Hk. revert acc. induction md as [|kv md IH]; intros acc; [reflexivity|].
  rewrite copy_params_cons. cbn [fst snd]. rewrite IH.
  destruct (bool_decide (fst kv ∈ Persistence.reserved_keys)) eqn:E; [reflexivity|].
  apply bool_decide_eq_false_1 in E.
  apply dict_get_set_ne. intros Heq. apply (app_inv_head (u "param_")) in Heq. congruence.
Qed.


Lemma technical_lookup (k : str) (basic : dict) (lo : option pyval) :
  k <> u "loras" ->
  dict_get k (match lo with
              | Some (PList loras) =>
                dict_set (u "loras") (PList (Persistence.lora_list loras)) basic
              | Some loras => dict_set (u "loras") (PStr (py_str loras)) basic
              | None => basic
              end) = dict_get k basic.
Proof.
  intros Hk. destruct lo as [[]|]; try reflexivity;
    apply dict_get_set_ne; congruence.
Qed.

Lemma technical_NoDup (basic : dict) (lo : option pyval) :
  NoDup (dict_keys basic) ->
  NoDup (dict_keys (match lo with
                    | Some (PList loras) =>
                      dict_set (u "loras") (PList (Persistence.lora_list loras)) basic
                    | Some loras => dict_set (u "loras") (PStr (py_str loras)) basic
                    | None => basic
                    end)).
Proof. intros H. destruct lo as [[]|]; try exact H; now apply dict_set_NoDup. Qed.

Lemma basic_keys_plain (k : str) :
  k ∈ basic_keys ++ [u "loras"] -> startswith (u "param_") k = false.
Proof.
  assert (H : forallb (fun k => negb (startswith (u "param_") k))
                      (basic_keys ++ [u "loras"]) = true)
    by (vm_compute; reflexivity).
  rewrite forallb_forall in H. intros Hk. apply list_elem_of_In in Hk.
  apply H in Hk. now apply negb_true_iff in Hk.
Qed.

Lemma basic_lookup (v1 v2 v3 v4 v5 v6 v7 v8 v9 v10 v11 v12 : pyval) :
  let basic : dict :=
    [ (u "prompt", v1); (u "negative_prompt", v2); (u "seed", v3); (u "strength", v4);
      (u "style", v5); (u "checkpoint", v6); (u "sampler", v7);
      (u "generation_type", v8); (u "job_kind", v9); (u "timestamp", v10);
      (u "batch_index", v11); (u "total_images", v12) ] in
  (dict_get (u "prompt") basic = Some v1 /\
   dict_get (u "seed") basic = Some v3 /\
   dict_get (u "strength") basic = Some v4 /\
   dict_get (u "generation_type") basic = Some v8 /\
   dict_get (u "job_kind") basic = Some v9 /\
   dict_get (u "timestamp") basic = Some v10 /\
   dict_get (u "batch_index") basic = Some v11 /\
   dict_get (u "total_images") basic = Some v12) /\
  NoDup (dict_keys basic) /\
  dict_keys basic = basic_keys.
Proof.
  intros basic. apply conj; [|apply conj].
  - vm_compute. repeat (apply conj; [reflexivity|]). reflexivity.
  - apply (bool_decide_unpack _). vm_compute. exact I.
  - reflexivity.
Qed.

Lemma basic_keys_not_loras (k : str) : k ∈ basic_keys -> k <> u "loras".
Proof.
  assert (H : forallb (fun k => negb (bool_decide (k = u "loras"))) basic_keys = true)
    by (vm_compute; reflexivity).
  rewrite forallb_forall in H. intros Hk. apply list_elem_of_In in Hk.
  apply H in Hk. apply negb_true_iff in Hk. now apply bool_decide_eq_false_1 in Hk.
Qed.

Lemma basic_key_elem (n : nat) (k : str) : basic_keys !! n = Some k -> k ∈ basic_keys.
Proof. apply list_elem_of_lookup_2. Qed.

Lemma all_metadata_stages (job : Job) (i : nat) (ty : str) :
  Persistence.all_metadata job i ty
  = match strength (params job) with
    | Some s => Ok (image_record job i ty s)
    | None => Raise (AttributeError (u "'JobParams' object has no attribute 'strength'"))
    end.
Proof.
  unfold Persistence.all_metadata. destruct (strength (params job)); reflexivity.
Qed.

Lemma all_metadata_Ok (job : Job) (i : nat) (ty : str) (md : dict) :
  Persistence.all_metadata job i ty = Ok md ->
  exists s, strength (params job) = Some s /\ md = image_record job i ty s.
Proof.
  rewrite all_metadata_stages. destruct (strength (params job)) as [s|]; [|discriminate].
  intros H. exists s. split; [reflexivity|]. congruence.
Qed.

Lemma technical_get (k : str) (md basic : dict) :
  k <> u "loras" -> dict_get k (technical_record md basic) = dict_get k basic.
Proof.
  intros Hk. unfold technical_record.
  destruct (dict_get (u "loras") md) as [[]|]; try reflexivity;
    apply dict_get_set_ne; congruence.
Qed.

Lemma technical_keys_NoDup (md basic : dict) :
  NoDup (dict_keys basic) -> NoDup (dict_keys (technical_record md basic)).
Proof.
  intros H. unfold technical_record.
  destruct (dict_get (u "loras") md) as [[]|]; try exact H; now apply dict_set_NoDup.
Qed.

Lemma technical_keys (k : str) (md basic : dict) :
  k ∈ dict_keys (technical_record md basic) -> k ∈ dict_keys basic ++ [u "loras"].
Proof.
  unfold technical_record. intros H. apply elem_of_app.
  destruct (dict_get (u "loras") md) as [[]|]; try (now left);
    rewrite dict_keys_set in H; destruct (dict_has _ _); try (now left);
    apply elem_of_app in H; exact H.
Qed.

Lemma record_get_basic (job : Job) (i : nat) (ty : str) (s : float) (k : str) :
  k ∈ basic_keys ->
  dict_get k (image_record job i ty s) = dict_get k (basic_record job i ty s).
Proof.
  intros Hk. unfold image_record.
  rewrite copy_params_other.
  - apply technical_get, basic_keys_not_loras, Hk.
  - apply basic_keys_plain, elem_of_app. now left.
Qed.

(** X3: the basic fields of a record are those of the job and of the image,
    whatever the job's further metadata hold. *)
Theorem all_metadata_basic_fields (job : Job) (i : nat) (ty : str) (md : dict) :
  Persistence.all_metadata job i ty = Ok md ->
  dict_get (u "prompt") md
    = Some (PStr (Persistence._clean_metadata_value (PStr (prompt (params job))))) /\
  dict_get (u "seed") md = Some (PInt (seed (params job))) /\
  dict_get (u "strength") md = PFloat <$> strength (params job) /\
  dict_get (u "generation_type") md = Some (PStr ty) /\
  dict_get (u "job_kind") md = Some (PStr (kind_name (kind job))) /\
  dict_get (u "timestamp") md = Some (PStr (strftime_record (timestamp job))) /\
  dict_get (u "batch_index") md = Some (PInt (Z.of_nat i)) /\
  dict_get (u "total_images") md = Some (PInt (Z.of_nat (length (results job)))).
Proof.
  intros H. apply all_metadata_Ok in H as (s & Hs & ->). rewrite Hs. cbn [fmap option_fmap option_map].
  rewrite (record_get_basic job i ty s (u "prompt")) by apply (basic_key_elem 0), eq_refl.
  rewrite (record_get_basic job i ty s (u "seed")) by apply (basic_key_elem 2), eq_refl.
  rewrite (record_get_basic job i ty s (u "strength")) by apply (basic_key_elem 3), eq_refl.
  rewrite (record_get_basic job i ty s (u "generation_type")) by apply (basic_key_elem 7), eq_refl.
  rewrite (record_get_basic job i ty s (u "job_kind")) by apply (basic_key_elem 8), eq_refl.
  rewrite (record_get_basic job i ty s (u "timestamp")) by apply (basic_key_elem 9), eq_refl.
  rewrite (record_get_basic job i ty s (u "batch_index")) by apply (basic_key_elem 10), eq_refl.
  rewrite (record_get_basic job i ty s (u "total_images")) by apply (basic_key_elem 11), eq_refl.
  exact (proj1 (basic_lookup _ _ _ _ _ _ _ _ _ _ _ _)).
Qed.

Lemma record_keys_NoDup (job : Job) (i : nat) (ty : str) (s : float) :
  NoDup (dict_keys (image_record job i ty s)).
Proof.
  apply copy_params_NoDup, technical_keys_NoDup.
  exact (proj1 (proj2 (basic_lookup _ _ _ _ _ _ _ _ _ _ _ _))).
Qed.

Lemma basic_record_keys (job : Job) (i : nat) (ty : str) (s : float) :
  dict_keys (basic_record job i ty s) = basic_keys.
Proof. exact (proj2 (proj2 (basic_lookup _ _ _ _ _ _ _ _ _ _ _ _))). Qed.

Lemma technical_no_param (job : Job) (i : nat) (ty : str) (s : float) (k : str) :
  startswith (u "param_") k = true ->
  dict_get k (technical_record (metadata (params job)) (basic_record job i ty s)) = None.
Proof.
  intros Hk. apply dict_get_None_keys. intros Hin. apply technical_keys in Hin.
  rewrite basic_record_keys in Hin. apply basic_keys_plain in Hin. congruence.
Qed.

(** X4: every entry under a [param_] key is a text of at most 500 characters,
    and the reserved keys of the job's metadata are not copied. *)
Theorem all_metadata_param_entries (job : Job) (i : nat) (ty : str) (md : dict) :
  Persistence.all_metadata job i ty = Ok md ->
  (forall k v, startswith (u "param_") k = true -> dict_get k md = Some v ->
               exists s, v = PStr s /\ (length s <= 500)%nat) /\
  (forall k, k ∈ Persistence.reserved_keys -> dict_get (u "param_" ++ k) md = None).
Proof.
  intros H. apply all_metadata_Ok in H as (s & Hs & ->). split.
  - intros k v Hk Hget. unfold image_record in Hget.
    apply copy_params_param in Hget as [Hget|[x ->]].
    + rewrite technical_no_param in Hget by exact Hk. discriminate.
    + eexists. split; [reflexivity|apply clean_value_length].
  - intros k Hk. unfold image_record. rewrite copy_params_reserved by exact Hk.
    apply technical_no_param. reflexivity.
Qed.

(** X5: a further entry of the job's metadata is found again under its key
    with the prefix [param_], cleaned and cut. *)
Theorem all_metadata_param_stored (job : Job) (i : nat) (ty : str) (md : dict)
        (k : str) (v : pyval) :
  Persistence.all_metadata job i ty = Ok md ->
  NoDup (dict_keys (metadata (params job))) ->
  dict_get k (metadata (params job)) = Some v ->
  k ∉ Persistence.reserved_keys ->
  dict_get (u "param_" ++ k) md = Some (PStr (Persistence.clean_value v)).
Proof.
  intros H Hnd Hget Hk. apply all_metadata_Ok in H as (s & Hs & ->).
  unfold image_record. now apply copy_params_stored.
Qed.

(** ** File names *)

Lemma rfind_index_absent {A} `{EqDecision A} (x : A) (s : list A) :
  x ∉ s -> rfind_index x s = None.
Proof.
  induction s as [|y s IH]; [reflexivity|]. intros H.
  apply not_elem_of_cons in H as [Hne Hs]. simpl. rewrite (IH Hs).
  now rewrite bool_decide_eq_false_2.
Qed.

Lemma rfind_index_last {A} `{EqDecision A} (x : A) (s t : list A) :
  x ∉ t -> rfind_index x (s ++ x :: t) = Some (length s).
Proof.
  intros Ht. induction s as [|y s IH]; simpl.
  - rewrite (rfind_index_absent x t Ht). now rewrite bool_decide_eq_true_2.
  - now rewrite IH.
Qed.

Lemma rfind_index_app_r {A} `{EqDecision A} (x : A) (s t : list A) :
  x ∉ t -> rfind_index x (s ++ t) = rfind_index x s.
Proof.
  intros Ht. induction s as [|y s IH]; simpl.
  - now apply rfind_index_absent.
  - now rewrite IH.
Qed.

Lemma rfind_index_lt {A} `{EqDecision A} (x : A) (s : list A) (j : nat) :
  rfind_index x s = Some j -> (j < length s)%nat.
Proof.
  revert j. induction s as [|y s IH]; intros j; simpl; [discriminate|].
  destruct (rfind_index x s) as [k|].
  - intros [= <-]. specialize (IH k eq_refl). lia.
  - destruct (bool_decide (x = y)); [|discriminate]. intros [= <-]. lia.
Qed.

Lemma index_tail_plain (c : N) (i : nat) :
  c = 47%N \/ c = 46%N -> c ∉ [95%N] ++ str_of_nat i.
Proof.
  intros Hc H. apply elem_of_cons in H as [H|H]; [destruct Hc; congruence|].
  apply digits_of_uint_digit in H. destruct Hc; lia.
Qed.

(** X6: the name of a saved file always has the extension [.png]. *)
Theorem filename_suffix (p : JobParams) (ts ty : str) (i : nat) :
  path_suffix (Persistence.filename p ts ty i) = u ".png".
Proof.
  unfold path_suffix.
  set (f := Persistence.filename p ts ty i).
  assert (Hn : exists pre, path_name f = (pre ++ [95%N] ++ str_of_nat i) ++ 46%N :: u "png").
  { unfold path_name.
    set (A := Persistence.prompt_prefix p ++ u "_" ++ ts ++ u "_" ++ ty).
    assert (Hf : f = A ++ ([95%N] ++ str_of_nat i) ++ 46%N :: u "png").
    { unfold f, A, Persistence.filename. rewrite u_underscore, <- !app_assoc. reflexivity. }
    rewrite Hf. rewrite rfind_index_app_r.
    - destruct (rfind_index 47%N A) as [j|] eqn:E.
      + apply rfind_index_lt in E. rewrite drop_app_le by lia.
        exists (drop (S j) A). now rewrite <- !app_assoc.
      + exists A. now rewrite <- !app_assoc.
    - intros H. apply elem_of_app in H as [H|H].
      + revert H. apply index_tail_plain. now left.
      + vm_compute in H. repeat (apply elem_of_cons in H as [H|H]; [discriminate H|]).
        now apply elem_of_nil in H. }
  destruct Hn as [pre ->].
  set (B := pre ++ [95%N] ++ str_of_nat i).
  assert (HB : (0 < length B)%nat) by (unfold B; rewrite !length_app; simpl; lia).
  rewrite rfind_index_last.
  - rewrite length_app. change (length (46%N :: u "png")) with 4%nat.
    replace (0 <? length B)%nat with true by (symmetry; apply Nat.ltb_lt; lia).
    replace (length B <? length B + 4 - 1)%nat with true
      by (symmetry; apply Nat.ltb_lt; lia).
    cbn [andb]. now rewrite drop_app_length.
  - intros H. vm_compute in H. repeat (apply elem_of_cons in H as [H|H]; [discriminate H|]).
    now apply elem_of_nil in H.
Qed.

(** ** The scan for chunks *)

Lemma lazy_until_Some (stops : list bytes) (data cap rest : bytes) :
  Generation.lazy_until stops data = Some (cap, rest) ->
  data = cap ++ rest /\ begins stops rest = true /\
  forall k, (k < length cap)%nat -> begins stops (drop k data) = false.
Proof.
  revert cap rest. induction data as [|x data IH]; intros cap rest H.
  - simpl in H. fold (begins stops []) in H.
    destruct (begins stops []) eqn:E; [|discriminate].
    injection H as <- <-. repeat split; [exact E|]. simpl. lia.
  - cbn [Generation.lazy_until] in H. fold (begins stops (x :: data)) in H.
    destruct (begins stops (x :: data)) eqn:E.
    + injection H as <- <-. repeat split; [exact E|]. simpl. lia.
    + destruct (Generation.lazy_until stops data) as [[cap' rest']|] eqn:E'; [|discriminate].
      injection H as <- <-. destruct (IH cap' rest' eq_refl) as (-> & Hb & Hmin).
      repeat split; [exact Hb|]. intros [|k] Hk; [exact E|].
      simpl in Hk. apply Hmin. lia.
Qed.

Lemma startswith_app {A} `{EqDecision A} (m s t : list A) :
  startswith m s = true -> startswith m (s ++ t) = true.
Proof.
  revert s. induction m as [|x m IH]; intros [|y s]; simpl; try reflexivity; try discriminate.
  intros H. apply andb_true_iff in H as [-> H]. now rewrite IH.
Qed.

Lemma contains_drop {A} `{EqDecision A} (m s : list A) :
  contains m s = true -> exists k, (k <= length s)%nat /\ startswith m (drop k s) = true.
Proof.
  induction s as [|y s IH]; simpl.
  - rewrite orb_false_r. intros H. exists 0%nat. now split.
  - intros H. apply orb_true_iff in H as [H|H].
    + exists 0%nat. split; [lia|exact H].
    + destruct (IH H) as (k & Hk & Hs). exists (S k). split; [lia|exact Hs].
Qed.

Lemma lazy_until_free (stops : list bytes) (data cap rest m : bytes) :
  Generation.lazy_until stops data = Some (cap, rest) ->
  m ∈ stops -> m <> [] -> contains m cap = false.
Proof.
  intros H Hm Hne. apply lazy_until_Some in H as (-> & _ & Hmin).
  destruct (contains m cap) eqn:E; [|reflexivity]. exfalso.
  apply contains_drop in E as (k & Hk & Hs).
  assert (Hlt : (k < length cap)%nat).
  { destruct (decide (k = length cap)) as [->|]; [|lia].
    rewrite drop_all in Hs. destruct m; [congruence|discriminate]. }
  specialize (Hmin k Hlt). unfold begins in Hmin.
  assert (Hex : existsb (fun m => startswith m (drop k (cap ++ rest))) stops = true).
  { apply existsb_exists. exists m. split; [now apply list_elem_of_In|].
    rewrite drop_app_le by lia. now apply startswith_app. }
  congruence.
Qed.

Lemma findall_from_free (fuel : nat) (start : bytes) (stops : list bytes)
      (data c m : bytes) :
  c ∈ Generation.findall_from fuel start stops data ->
  m ∈ stops -> m <> [] -> contains m c = false.
Proof.
  revert data. induction fuel as [|f IH]; intros data Hc Hm Hne; simpl in Hc.
  - now apply elem_of_nil in Hc.
  - destruct data as [|x t]; [now apply elem_of_nil in Hc|].
    destruct (startswith start (x :: t)).
    + destruct (Generation.lazy_until stops (drop (length start) (x :: t))) as [[cap rest]|] eqn:E.
      * apply elem_of_cons in Hc as [->|Hc].
        -- exact (lazy_until_free _ _ _ _ _ E Hm Hne).
        -- exact (IH _ Hc Hm Hne).
      * exact (IH _ Hc Hm Hne).
    + exact (IH _ Hc Hm Hne).
Qed.

(** X8: no piece that a scan cuts out of a file holds one of the markers at
    which the scan stops: a [tEXt] chunk never holds the letters [tEXt],
    [IDAT] or [IEND]. *)
Theorem findall_holds_no_stop (start : bytes) (stops : list bytes) (data c m : bytes) :
  c ∈ Generation.findall start stops data -> m ∈ stops -> m <> [] -> contains m c = false.
Proof. unfold Generation.findall. apply findall_from_free. Qed.

Lemma findall_holds_no_stop_witness :
  contains (b "IEND") (b "metadata=FR") = false.
Proof.
  apply (findall_holds_no_stop (b "tEXt") [b "tEXt"; b "IDAT"; b "IEND"]
           (b "....tEXtmetadata=FRIEND....IEND")).
  - vm_compute. apply elem_of_cons. now left.
  - apply elem_of_cons; right. apply elem_of_cons; right. apply elem_of_cons. now left.
  - discriminate.
Defined.

Lemma findall_from_absent (fuel : nat) (start : bytes) (stops : list bytes) (data : bytes) :
  contains start data = false -> Generation.findall_from fuel start stops data = [].
Proof.
  revert data. induction fuel as [|f IH]; intros data H; [reflexivity|].
  destruct data as [|x t]; [reflexivity|].
  cbn [contains] in H. apply orb_false_iff in H as [H1 H2].
  cbn [Generation.findall_from]. rewrite H1. now apply IH.
Qed.

(** X9: a file in which the letters [tEXt], [zTXt] and [iTXt] do not occur
    adds nothing to the metadata. *)
Theorem png_chunks_without_text (zlib_decompress : bytes -> result bytes)
        (data : bytes) (metadata : dict) :
  contains (b "tEXt") data = false ->
  contains (b "zTXt") data = false ->
  contains (b "iTXt") data = false ->
  Generation.png_chunks zlib_decompress data metadata = metadata.
Proof.
  intros Ht Hz Hi.
  unfold Generation.png_chunks, Generation.tEXt_chunks_of, Generation.zTXt_chunks_of, Generation.iTXt_chunks_of, Generation.findall.
  rewrite !findall_from_absent by assumption. reflexivity.
Qed.

Lemma png_chunks_without_text_witness :
  Generation.png_chunks Inputs.no_zlib (Png.one_pixel []) [] = [].
Proof.
  apply (png_chunks_without_text Inputs.no_zlib (Png.one_pixel []) []);
    vm_compute; reflexivity.
Defined.

(** ** Reading back what [json.dumps] writes *)

(** *** Strings *)

Lemma hex4_fixed (c : N) (t : str) :
  (c < 32)%N -> hex4 (hex_fixed 4 c ++ t) = Some (c, t).
Proof.
  intros Hc.
  assert (H : c ∈ map N.of_nat (seq 0 32)).
  { apply list_elem_of_In, in_map_iff. exists (N.to_nat c). split; [lia|].
    apply in_seq. lia. }
  vm_compute in H.
  repeat (apply elem_of_cons in H as [->|H]; [reflexivity|]).
  now apply elem_of_nil in H.
Qed.

Lemma escape_char_length (c : N) : (1 <= length (escape_char c))%nat.
Proof.
  unfold escape_char.
  repeat match goal with
         | |- context [if ?b then _ else _] => destruct b
         end; try (rewrite length_app); simpl; lia.
Qed.

Lemma scanstring_escape (c : N) (f : nat) (doc : str) (start idx : nat) (t acc : str) :
  scanstring (S f) doc start idx (escape_char c ++ t) acc
  = scanstring f doc start (idx + length (escape_char c)) t (c :: acc).
Proof.
  unfold escape_char.
  destruct (N.eqb_spec c 34) as [->|H34]; [reflexivity|].
  destruct (N.eqb_spec c 92) as [->|H92]; [reflexivity|].
  destruct (N.eqb_spec c 10) as [->|H10]; [reflexivity|].
  destruct (N.eqb_spec c 13) as [->|H13]; [reflexivity|].
  destruct (N.eqb_spec c 9) as [->|H9]; [reflexivity|].
  destruct (N.eqb_spec c 8) as [->|H8]; [reflexivity|].
  destruct (N.eqb_spec c 12) as [->|H12]; [reflexivity|].
  destruct (N.ltb_spec c 32) as [Hlt|Hge].
  - change (u "\u" ++ hex_fixed 4 c) with (92%N :: 117%N :: hex_fixed 4 c).
    cbn [app scanstring]. change (92 =? 34)%N with false. change (92 =? 92)%N with true.
    change (117 =? 117)%N with true. cbv iota.
    rewrite hex4_fixed by exact Hlt.
    replace ((55296 <=? c)%N) with false by (symmetry; apply N.leb_gt; lia).
    cbn [andb]. rewrite length_cons, length_cons.
    assert (E : length (hex_fixed 4 c) = 4%nat).
    { unfold hex_fixed. rewrite !length_app. reflexivity. }
    rewrite E. reflexivity.
  - cbn [app scanstring length].
    replace (c =? 34)%N with false by (symmetry; now apply N.eqb_neq).
    replace (c =? 92)%N with false by (symmetry; now apply N.eqb_neq).
    replace (c <? 32)%N with false by (symmetry; apply N.ltb_ge; lia).
    now rewrite Nat.add_1_r.
Qed.

Lemma Ok_eq3 {A B C} (a : A) (b b' : B) (c : C) :
  b = b' -> @Ok (A * B * C) (a, b, c) = Ok (a, b', c).
Proof. now intros ->. Qed.

Lemma scanstring_flat (s : str) :
  forall (fuel : nat) (doc : str) (start idx : nat) (rest acc : str),
    (length s < fuel)%nat ->
    scanstring fuel doc start idx (flat_map escape_char s ++ 34%N :: rest) acc
    = Ok (rev acc ++ s, (idx + length (flat_map escape_char s) + 1)%nat, rest).
Proof.
  induction s as [|c s IH]; intros fuel doc start idx rest acc Hf.
  - destruct fuel as [|f]; [simpl in Hf; lia|]. simpl.
    rewrite app_nil_r. apply Ok_eq3. lia.
  - destruct fuel as [|f]; [simpl in Hf; lia|].
    cbn [flat_map]. rewrite <- app_assoc, scanstring_escape.
    rewrite IH by (simpl in Hf; lia).
    cbn [rev]. rewrite <- app_assoc, length_app. cbn [app]. apply Ok_eq3. lia.
Qed.

Lemma flat_map_escape_length (s : str) : (length s <= length (flat_map escape_char s))%nat.
Proof.
  induction s as [|c s IH]; [reflexivity|].
  cbn [flat_map]. rewrite length_app. pose proof (escape_char_length c). simpl. lia.
Qed.

(** *** Numbers *)

Lemma match_number_parts (doc : str) (idx : nat) (s : str) :
  match_number doc idx s
  = let '(neg, s1) := sign_part s in
    let '(ipart, s2) := int_part s1 in
    match ipart with
    | [] => jerr "Expecting value" doc idx
    | _ =>
      let '(frac, s3) := frac_part s2 in
      let '(ex, s4) := exp_part s3 in
      Ok (number_value neg ipart frac ex, (idx + (length s - length s4))%nat, s4)
    end.
Proof.
  unfold match_number, sign_part, int_part, frac_part, exp_part, exp_sign, number_value.
  destruct (match s with 45%N :: t => (true, t) | _ => (false, s) end) as [neg s1].
  destruct (match s1 with 48%N :: t => ([48%N], t) | _ => span_digits s1 end) as [ipart s2].
  destruct ipart as [|d ip]; [reflexivity|].
  destruct (match s2 with
            | 46%N :: t => let '(ds, r) := span_digits t in
                           match ds with [] => ([], s2) | _ => (ds, r) end
            | _ => ([], s2) end) as [frac s3].
  match goal with |- context [let '(ex, s4) := ?X in _] => destruct X as [ex s4] end.
  destruct frac, ex; reflexivity.
Qed.

Ltac split_code c :=
  destruct c as [|c]; [try reflexivity; try congruence|];
  do 7 (try destruct c as [c|c|]); try reflexivity; try congruence.

Lemma sign_part_cons (c : N) (t : str) :
  sign_part (c :: t) = if (c =? 45)%N then (true, t) else (false, c :: t).
Proof.
  destruct (N.eqb_spec c 45) as [->|H]; [reflexivity|]. unfold sign_part. split_code c.
Qed.

Lemma int_part_cons (c : N) (t : str) :
  int_part (c :: t) = if (c =? 48)%N then ([48%N], t) else span_digits (c :: t).
Proof.
  destruct (N.eqb_spec c 48) as [->|H]; [reflexivity|]. unfold int_part. split_code c.
Qed.

Lemma frac_part_cons (c : N) (t : str) :
  frac_part (c :: t)
  = if (c =? 46)%N
    then let '(ds, r) := span_digits t in
         match ds with [] => ([], c :: t) | _ => (ds, r) end
    else ([], c :: t).
Proof.
  destruct (N.eqb_spec c 46) as [->|H]; [reflexivity|]. unfold frac_part. split_code c.
Qed.

Lemma exp_sign_cons (c : N) (t : str) :
  exp_sign (c :: t)
  = if (c =? 45)%N then (-1, t) else if (c =? 43)%N then (1, t) else (1, c :: t).
Proof.
  destruct (N.eqb_spec c 45) as [->|H]; [reflexivity|].
  destruct (N.eqb_spec c 43) as [->|H']; [reflexivity|]. unfold exp_sign. split_code c.
Qed.

Lemma span_digits_app (a rest : str) :
  plain rest ->
  span_digits (a ++ rest) = (fst (span_digits a), snd (span_digits a) ++ rest).
Proof.
  intros Hr. induction a as [|c a IH].
  - destruct rest as [|c r]; [reflexivity|]. simpl in *. destruct Hr as [-> _]. reflexivity.
  - simpl. destruct (is_digit c); [|reflexivity].
    rewrite IH. now destruct (span_digits a).
Qed.

Lemma sign_part_app (s rest : str) :
  s <> [] -> sign_part (s ++ rest) = (fst (sign_part s), snd (sign_part s) ++ rest).
Proof.
  destruct s as [|c t]; [congruence|]. intros _.
  cbn [app]. rewrite !sign_part_cons. now destruct (c =? 45)%N.
Qed.

Lemma int_part_app (s1 rest : str) :
  plain rest ->
  int_part (s1 ++ rest) = (fst (int_part s1), snd (int_part s1) ++ rest).
Proof.
  intros Hr. destruct s1 as [|c t].
  - destruct rest as [|c r]; [reflexivity|]. cbn [app]. rewrite int_part_cons.
    destruct Hr as (Hd & _). destruct (N.eqb_spec c 48) as [->|_]; [discriminate Hd|].
    simpl. now rewrite Hd.
  - cbn [app]. rewrite !int_part_cons. destruct (c =? 48)%N; [reflexivity|].
    now apply (span_digits_app (c :: t)).
Qed.

Lemma frac_part_app (s2 rest : str) :
  plain rest ->
  frac_part (s2 ++ rest) = (fst (frac_part s2), snd (frac_part s2) ++ rest).
Proof.
  intros Hr. destruct s2 as [|c t].
  - destruct rest as [|c r]; [reflexivity|]. cbn [app]. rewrite frac_part_cons.
    destruct Hr as (_ & Hp & _). destruct (N.eqb_spec c 46); [congruence|reflexivity].
  - cbn [app]. rewrite !frac_part_cons. destruct (c =? 46)%N; [|reflexivity].
    rewrite span_digits_app by exact Hr. destruct (span_digits t) as [ds r].
    now destruct ds.
Qed.

Lemma exp_sign_app (t rest : str) :
  plain rest ->
  exp_sign (t ++ rest) = (fst (exp_sign t), snd (exp_sign t) ++ rest).
Proof.
  intros Hr. destruct t as [|c t].
  - destruct rest as [|c r]; [reflexivity|]. cbn [app]. rewrite exp_sign_cons.
    destruct Hr as (_ & _ & _ & _ & Hplus & Hminus).
    destruct (N.eqb_spec c 45); [congruence|]. destruct (N.eqb_spec c 43); [congruence|].
    reflexivity.
  - cbn [app]. rewrite !exp_sign_cons.
    destruct (c =? 45)%N; [reflexivity|]. now destruct (c =? 43)%N.
Qed.

Lemma exp_part_app (s3 rest : str) :
  plain rest ->
  exp_part (s3 ++ rest) = (fst (exp_part s3), snd (exp_part s3) ++ rest).
Proof.
  intros Hr. destruct s3 as [|c t].
  - destruct rest as [|c r]; [reflexivity|]. cbn [app]. unfold exp_part.
    destruct Hr as (_ & _ & He & HE & _).
    destruct (N.eqb_spec c 101); [congruence|]. destruct (N.eqb_spec c 69); [congruence|].
    reflexivity.
  - cbn [app]. unfold exp_part. destruct ((c =? 101) || (c =? 69))%N; [|reflexivity].
    rewrite exp_sign_app by exact Hr. destruct (exp_sign t) as [sgn t1]. cbn [fst snd].
    rewrite span_digits_app by exact Hr. destruct (span_digits t1) as [ds r].
    now destruct ds.
Qed.

Lemma span_digits_length (s : str) :
  length s = (length (fst (span_digits s)) + length (snd (span_digits s)))%nat.
Proof.
  induction s as [|c s IH]; [reflexivity|]. simpl.
  destruct (is_digit c); [|reflexivity]. destruct (span_digits s). simpl in *. lia.
Qed.

(** A number is read in the same way whatever plain text follows it. *)
Lemma match_number_app (doc doc' : str) (idx idx' : nat) (s rest : str)
      (v : pyval) (i : nat) :
  plain rest ->
  match_number doc idx s = Ok (v, i, []) ->
  match_number doc' idx' (s ++ rest) = Ok (v, (idx' + length s)%nat, rest).
Proof.
  intros Hr. rewrite !match_number_parts.
  destruct s as [|c0 s0]; [discriminate|].
  rewrite (sign_part_app (c0 :: s0)) by discriminate.
  destruct (sign_part (c0 :: s0)) as [neg s1]. cbn [fst snd].
  rewrite int_part_app by exact Hr.
  destruct (int_part s1) as [ipart s2]. cbn [fst snd].
  destruct ipart as [|d ip]; [discriminate|].
  rewrite frac_part_app by exact Hr.
  destruct (frac_part s2) as [frac s3]. cbn [fst snd].
  rewrite exp_part_app by exact Hr.
  destruct (exp_part s3) as [ex s4]. cbn [fst snd].
  intros H. injection H as <- _ ->. cbn [app length].
  apply Ok_eq3. rewrite length_app. lia.
Qed.

Lemma digits_acc (d : Decimal.uint) (acc : positive) :
  fold_left digit_step (digits_of_uint d) (Zpos acc) = Zpos (Pos.of_uint_acc d acc).
Proof.
  revert acc. induction d; intros acc; cbn [digits_of_uint fold_left Pos.of_uint_acc];
    try reflexivity;
    match goal with
    | |- fold_left _ _ ?x = _ =>
      match goal with
      | |- _ = Zpos (Pos.of_uint_acc _ ?q) => replace x with (Zpos q) by (unfold digit_step; lia)
      end
    end; apply IHd.
Qed.

Lemma digits_value (d : Decimal.uint) :
  Z_of_digits (digits_of_uint d) = Z.of_N (Pos.of_uint d).
Proof.
  unfold Z_of_digits. change (fun acc c => 10 * acc + (Z.of_N c - 48)) with digit_step.
  induction d; cbn [digits_of_uint fold_left Pos.of_uint]; try reflexivity;
    try (change (digit_step 0 48) with 0; exact IHd);
    match goal with
    | |- fold_left _ _ ?x = Z.of_N (Npos (Pos.of_uint_acc _ ?q)) =>
      change x with (Zpos q); cbn [Z.of_N]; apply digits_acc
    end.
Qed.

Lemma str_of_N_value (n : N) : Z_of_digits (str_of_N n) = Z.of_N n.
Proof.
  unfold str_of_N. rewrite digits_value. f_equal.
  exact (DecimalN.Unsigned.of_to n).
Qed.

Lemma unorm_zero (d l : Decimal.uint) : Decimal.unorm d = D0 l -> l = Nil.
Proof.
  induction d; simpl; intros H; try discriminate; try (now injection H as <-).
  apply IHd, H.
Qed.

Lemma str_of_N_head (p : positive) :
  exists c t, str_of_N (Npos p) = c :: t /\ is_digit c = true /\ c <> 48%N.
Proof.
  unfold str_of_N.
  pose proof (DecimalN.Unsigned.to_of (N.to_uint (Npos p))) as H.
  rewrite DecimalN.Unsigned.of_to in H.
  destruct (N.to_uint (Npos p)) as [|l|l|l|l|l|l|l|l|l|l] eqn:E;
    try (eexists _, _; split; [reflexivity|split; [reflexivity|discriminate]]).
  - apply (f_equal N.of_uint) in E. rewrite DecimalN.Unsigned.of_to in E. discriminate E.
  - symmetry in H. apply unorm_zero in H. subst l.
    apply (f_equal N.of_uint) in E. rewrite DecimalN.Unsigned.of_to in E. discriminate E.
Qed.

Lemma span_digits_all (ds : str) :
  (forall c, c ∈ ds -> (48 <= c <= 57)%N) -> span_digits ds = (ds, []).
Proof.
  induction ds as [|c ds IH]; intros H; [reflexivity|]. simpl.
  assert (Hc : is_digit c = true).
  { unfold is_digit. specialize (H c (list_elem_of_here _ _)).
    apply andb_true_iff. split; apply N.leb_le; lia. }
  rewrite Hc, IH; [reflexivity|]. intros x Hx. apply H. now apply elem_of_cons; right.
Qed.

Lemma match_number_digits (doc : str) (idx : nat) (neg : bool) (p : positive) :
  match_number doc idx ((if neg then [45%N] else []) ++ str_of_N (Npos p))
  = Ok (PInt ((if neg then -1 else 1) * Zpos p),
        (idx + length ((if neg then [45%N] else []) ++ str_of_N (Npos p)))%nat, []).
Proof.
  rewrite match_number_parts.
  destruct (str_of_N_head p) as (c & t & E & Hd & H48).
  pose proof (str_of_N_value (Npos p)) as Hv.
  assert (Hall : forall x, x ∈ str_of_N (Npos p) -> (48 <= x <= 57)%N)
    by (intros x; apply digits_of_uint_digit).
  revert Hv Hall. rewrite E. intros Hv Hall.
  assert (Hs : sign_part ((if neg then [45%N] else []) ++ c :: t) = (neg, c :: t)).
  { destruct neg; [reflexivity|]. cbn [app]. rewrite sign_part_cons.
    destruct (N.eqb_spec c 45) as [->|_]; [discriminate Hd|reflexivity]. }
  rewrite Hs.
  assert (Hi : int_part (c :: t) = (c :: t, [])).
  { rewrite int_part_cons. destruct (N.eqb_spec c 48); [congruence|].
    now apply span_digits_all. }
  rewrite Hi. cbn [frac_part exp_part length number_value].
  rewrite Hv. cbn [Z.of_N]. now rewrite Nat.sub_0_r.
Qed.

Lemma str_of_Z_cases (z : Z) :
  z = 0 \/ exists (neg : bool) (p : positive), z = (if neg then -1 else 1) * Zpos p
                         /\ str_of_Z z = (if neg then [45%N] else []) ++ str_of_N (Npos p).
Proof.
  destruct z as [|p|p]; [now left| |]; right.
  - exists false, p. split; reflexivity.
  - exists true, p. split; reflexivity.
Qed.

Lemma match_number_int (doc : str) (idx : nat) (z : Z) :
  match_number doc idx (str_of_Z z) = Ok (PInt z, (idx + length (str_of_Z z))%nat, []).
Proof.
  destruct (str_of_Z_cases z) as [->|(neg & p & -> & ->)].
  - rewrite match_number_parts. reflexivity.
  - apply match_number_digits.
Qed.

(** *** Values *)

Lemma pyval_induction (P : pyval -> Prop) :
  P PNone -> (forall x, P (PBool x)) -> (forall z, P (PInt z)) ->
  (forall x, P (PFloat x)) -> (forall s, P (PStr s)) ->
  (forall l, Forall P l -> P (PList l)) ->
  (forall d, Forall (fun kv => P (snd kv)) d -> P (PDict d)) ->
  forall v, P v.
Proof.
  intros HN HB HI HF HS HL HD.
  exact (fix IH (v : pyval) : P v :=
           match v with
           | PNone => HN
           | PBool x => HB x
           | PInt z => HI z
           | PFloat x => HF x
           | PStr s => HS s
           | PList l =>
             HL l ((fix go (l : list pyval) : Forall P l :=
                      match l with
                      | [] => @List.Forall_nil _ P
                      | x :: r => @List.Forall_cons _ P x r (IH x) (go r)
                      end) l)
           | PDict d =>
             HD d ((fix go (d : list (str * pyval)) : Forall (fun kv => P (snd kv)) d :=
                      match d with
                      | [] => @List.Forall_nil _ (fun kv => P (snd kv))
                      | kv :: r => @List.Forall_cons _ (fun kv => P (snd kv)) kv r (IH (snd kv)) (go r)
                      end) d)
           end).
Qed.

Lemma float_same_eq (x y : float) : float_same x y = true -> x = y.
Proof.
  destruct x as [s| s| |s m e], y as [s'| s'| |s' m' e']; simpl; try discriminate;
    try reflexivity.
  - intros H. apply Bool.eqb_prop in H. now subst.
  - intros H. apply Bool.eqb_prop in H. now subst.
  - intros H. apply andb_true_iff in H as [H He]. apply andb_true_iff in H as [Hs Hm].
    apply Bool.eqb_prop in Hs. apply Pos.eqb_eq in Hm. apply Z.eqb_eq in He. now subst.
Qed.

Lemma is_digit_cases (c : N) :
  is_digit c = true -> c ∈ [48; 49; 50; 51; 52; 53; 54; 55; 56; 57]%N.
Proof.
  unfold is_digit. intros H. apply andb_true_iff in H as [H1 H2].
  apply N.leb_le in H1, H2.
  assert (H : c ∈ map (fun k => (48 + N.of_nat k)%N) (seq 0 10)).
  { apply list_elem_of_In, in_map_iff. exists (N.to_nat (c - 48)). split; [lia|].
    apply in_seq. lia. }
  exact H.
Qed.

Lemma span_digits_head (c : N) (t ds r : str) :
  span_digits (c :: t) = (ds, r) -> ds <> [] -> is_digit c = true.
Proof. simpl. destruct (is_digit c); [reflexivity|]. intros [= <- _]. congruence. Qed.

Lemma int_part_head (s1 ip s2 : str) :
  int_part s1 = (ip, s2) -> ip <> [] ->
  match s1 with d :: _ => is_digit d = true | [] => False end.
Proof.
  destruct s1 as [|c t]; [simpl; intros [= <- _]; congruence|].
  rewrite int_part_cons. destruct (N.eqb_spec c 48) as [->|_]; [reflexivity|].
  apply span_digits_head.
Qed.

Lemma match_number_head (doc : str) (idx : nat) (s : str) (r : pyval * nat * str) :
  match_number doc idx s = Ok r -> number_head s.
Proof.
  rewrite match_number_parts. destruct s as [|c t].
  - discriminate.
  - rewrite sign_part_cons. destruct (N.eqb_spec c 45) as [->|Hc].
    + destruct (int_part t) as [ip s2] eqn:E. destruct ip as [|d ip]; [discriminate|].
      intros _. right. split; [reflexivity|]. now apply (int_part_head _ _ _ E).
    + destruct (int_part (c :: t)) as [ip s2] eqn:E. destruct ip as [|d ip]; [discriminate|].
      intros _. left. now apply (int_part_head _ _ _ E).
Qed.

Lemma scan_once_number (f : nat) (doc : str) (idx : nat) (s : str) :
  number_head s -> scan_once (S f) doc idx s = match_number doc idx s.
Proof.
  destruct s as [|c t]; [intros []|]. intros [Hc|[-> Ht]].
  - apply is_digit_cases in Hc.
    repeat (apply elem_of_cons in Hc as [->|Hc]; [reflexivity|]).
    now apply elem_of_nil in Hc.
  - destruct t as [|d t']; [destruct Ht|]. apply is_digit_cases in Ht.
    repeat (apply elem_of_cons in Ht as [->|Ht]; [reflexivity|]).
    now apply elem_of_nil in Ht.
Qed.

Lemma delim_plain (rest : str) : delim rest -> plain rest.
Proof.
  destruct rest as [|c r]; [intros H; exact H|]. simpl.
  intros [H|[H|H]]; subst c; repeat split; discriminate.
Qed.

Lemma skip_ws_lead (i : nat) (s : str) : lead s -> skip_ws i s = (i, s).
Proof.
  destruct s as [|c t]; [intros []|]. intros (H & _). simpl.
  unfold ws in H. now rewrite H.
Qed.

Lemma lead_app (s r : str) : lead s -> lead (s ++ r).
Proof. destruct s; [intros []|intros H; exact H]. Qed.

Ltac solve_lead := split; [reflexivity|split; [discriminate|reflexivity]].

Lemma number_head_lead (s : str) : number_head s -> lead s.
Proof.
  destruct s as [|c t]; [intros []|]. intros [Hc|[-> _]].
  - apply is_digit_cases in Hc.
    repeat (apply elem_of_cons in Hc as [->|Hc]; [solve_lead|]).
    now apply elem_of_nil in Hc.
  - solve_lead.
Qed.

Lemma str_of_Z_head (z : Z) (doc : str) (idx : nat) : number_head (str_of_Z z).
Proof.
  apply (match_number_head doc idx _ _ (match_number_int doc idx z)).
Qed.

Lemma float_stable_reads (x : float) :
  float_stable x = true ->
  (x = S754_nan \/ exists s, x = S754_infinity s)
  \/ floatstr x = float_repr x
     /\ exists i, match_number [] 0 (float_repr x) = Ok (PFloat x, i, []).
Proof.
  unfold float_stable. intros Hx.
  assert (Hgen : match match_number [] 0 (float_repr x) with
                 | Ok (PFloat y, _, []) => float_same y x
                 | _ => false
                 end = true ->
                 exists i, match_number [] 0 (float_repr x) = Ok (PFloat x, i, [])).
  { destruct (match_number [] 0 (float_repr x)) as [[[[| | |y| | |] i] [|]]|];
      try discriminate.
    intros Hs. apply float_same_eq in Hs. subst. eauto. }
  destruct x as [s|s| |s m e].
  - right. split; [reflexivity|]. exact (Hgen Hx).
  - left. right. eauto.
  - left. now left.
  - right. split; [reflexivity|]. exact (Hgen Hx).
Qed.

Lemma dumps_lead (v : pyval) : stable v = true -> lead (dumps v).
Proof.
  destruct v as [|[]|z|x|s|l|d]; intros Hv;
    try solve_lead.
  - apply number_head_lead, (str_of_Z_head z [] 0).
  - cbn [stable] in Hv. apply float_stable_reads in Hv as [[->|[[] ->]]|[E [i H]]];
      try solve_lead.
    cbn [dumps]. rewrite E. apply number_head_lead. exact (match_number_head _ _ _ _ H).
Qed.

Lemma scan_once_S (f : nat) (doc : str) (idx : nat) (c : N) (t : str) :
  scan_once (S f) doc idx (c :: t)
  = if (c =? 34)%N then
      r <- scanstring f doc idx (S idx) t [] ;;
      let '(v, i, s') := r in Ok (PStr v, i, s')
    else if (c =? 123)%N then
      let '(i, s') := skip_ws (S idx) t in
      match s' with
      | 125%N :: s'' => Ok (PDict [], S i, s'')
      | _ => parse_pairs f doc i s' []
      end
    else if (c =? 91)%N then
      let '(i, s') := skip_ws (S idx) t in
      match s' with
      | 93%N :: s'' => Ok (PList [], S i, s'')
      | _ => parse_items f doc i s' []
      end
    else if (c =? 110)%N && startswith (u "ull") t then Ok (PNone, (idx + 4)%nat, drop 3 t)
    else if (c =? 116)%N && startswith (u "rue") t then Ok (PBool true, (idx + 4)%nat, drop 3 t)
    else if (c =? 102)%N && startswith (u "alse") t then Ok (PBool false, (idx + 5)%nat, drop 4 t)
    else if (c =? 78)%N && startswith (u "aN") t then Ok (PFloat S754_nan, (idx + 3)%nat, drop 2 t)
    else if (c =? 73)%N && startswith (u "nfinity") t
    then Ok (PFloat (S754_infinity false), (idx + 8)%nat, drop 7 t)
    else if (c =? 45)%N && startswith (u "Infinity") t
    then Ok (PFloat (S754_infinity true), (idx + 9)%nat, drop 8 t)
    else match_number doc idx (c :: t).
Proof. reflexivity. Qed.

Lemma parse_items_S (f : nat) (doc : str) (idx : nat) (s : str) (acc : list pyval) :
  parse_items (S f) doc idx s acc
  = (r <- scan_once f doc idx s ;;
     let '(v, i, s1) := r in
     let '(i1, s2) := skip_ws i s1 in
     match s2 with
     | 93%N :: s3 => Ok (PList (rev (v :: acc)), S i1, s3)
     | 44%N :: s3 =>
       let '(i2, s4) := skip_ws (S i1) s3 in
       parse_items f doc i2 s4 (v :: acc)
     | _ => jerr "Expecting ',' delimiter" doc i1
     end).
Proof. reflexivity. Qed.

Lemma parse_pairs_S (f : nat) (doc : str) (idx : nat) (t : str) (acc : list (str * pyval)) :
  parse_pairs (S f) doc idx (34%N :: t) acc
  = (r <- scanstring f doc idx (S idx) t [] ;;
     let '(key, i, s1) := r in
     let '(i1, s2) := skip_ws i s1 in
     match s2 with
     | 58%N :: s3 =>
       let '(i2, s4) := skip_ws (S i1) s3 in
       r <- scan_once f doc i2 s4 ;;
       let '(v, i3, s5) := r in
       let '(i4, s6) := skip_ws i3 s5 in
       match s6 with
       | 125%N :: s7 => Ok (PDict (dict_of_pairs (rev ((key, v) :: acc))), S i4, s7)
       | 44%N :: s7 =>
         let '(i5, s8) := skip_ws (S i4) s7 in
         parse_pairs f doc i5 s8 ((key, v) :: acc)
       | _ => jerr "Expecting ',' delimiter" doc i4
       end
     | _ => jerr "Expecting ':' delimiter" doc i1
     end).
Proof. reflexivity. Qed.

Lemma list_open (f : nat) (doc : str) (idx : nat) (c : N) (t : str) :
  c <> 93%N ->
  (let '(i, s') := (idx, c :: t) in
   match s' with
   | 93%N :: s'' => Ok (PList [], S i, s'')
   | _ => parse_items f doc i s' []
   end) = parse_items f doc idx (c :: t) [].
Proof.
  intros H. destruct c as [|c]; [reflexivity|].
  repeat (destruct c as [c|c|]; try reflexivity). congruence.
Qed.

Lemma skip_ws_nows (i : nat) (c : N) (t : str) :
  ws c = false -> skip_ws i (c :: t) = (i, c :: t).
Proof. intros H. simpl. unfold ws in H. now rewrite H. Qed.

Lemma join_cons2 (sep p q : str) (r : list str) :
  join sep (p :: q :: r) = p ++ sep ++ join sep (q :: r).
Proof. reflexivity. Qed.

Lemma items_cons2 (v0 v1 : pyval) (l : list pyval) :
  join (u ",") (map dumps (v0 :: v1 :: l))
  = dumps v0 ++ [44%N] ++ join (u ",") (map dumps (v1 :: l)).
Proof. reflexivity. Qed.

Ltac step := cbn [bind]; cbv beta iota zeta.

Lemma parse_items_dumps (l : list pyval) :
  Forall reads_back l -> forallb stable l = true -> l <> [] ->
  forall (fuel : nat) (doc : str) (idx : nat) (rest : str) (acc : list pyval),
    (length (join (u ",") (map dumps l)) < fuel)%nat ->
    parse_items fuel doc idx (join (u ",") (map dumps l) ++ 93%N :: rest) acc
    = Ok (PList (rev acc ++ l),
          (idx + length (join (u ",") (map dumps l)) + 1)%nat, rest).
Proof.
  induction l as [|v0 l IH]; [congruence|].
  intros HF Hst _ fuel doc idx rest acc Hfuel.
  apply Forall_cons in HF as [H0 HF].
  cbn [forallb] in Hst. apply andb_true_iff in Hst as [Hs0 Hst].
  destruct fuel as [|f]; [lia|]. rewrite parse_items_S.
  destruct l as [|v1 l'].
  - cbn [map join] in *.
    rewrite (H0 Hs0 f doc idx (93%N :: rest)) by (simpl; try lia; auto).
    step. rewrite (skip_ws_nows _ 93) by reflexivity. step.
    cbn [rev]. apply Ok_eq3. lia.
  - rewrite items_cons2. rewrite items_cons2 in Hfuel.
    rewrite !length_app in Hfuel. cbn [length] in Hfuel.
    rewrite <- !app_assoc. cbn [app].
    rewrite (H0 Hs0 f doc idx) by (simpl; try lia; auto).
    step. rewrite (skip_ws_nows _ 44) by reflexivity. step.
    assert (Hl : lead (dumps v1)).
    { cbn [forallb] in Hst. apply andb_true_iff in Hst as [Hs1 _]. now apply dumps_lead. }
    rewrite skip_ws_lead.
    2:{ destruct l'; [cbn [map join]; now apply lead_app|].
        rewrite items_cons2, <- app_assoc. now apply lead_app. }
    rewrite (IH HF Hst) by (try discriminate; cbn [length] in *; lia).
    cbn [rev]. rewrite <- app_assoc. cbn [app].
    apply Ok_eq3. rewrite ?length_cons, ?length_app; cbn [length]; lia.
Qed.

Lemma pair_text_cons (k : str) (v : pyval) (rest : str) :
  pair_text (k, v) ++ rest
  = 34%N :: flat_map escape_char k ++ 34%N :: 58%N :: dumps v ++ rest.
Proof.
  unfold pair_text, encode_basestring. cbn [fst snd].
  change (u ":") with [58%N]. rewrite <- !app_assoc. reflexivity.
Qed.

Lemma pair_text_length (k : str) (v : pyval) :
  length (pair_text (k, v))
  = (length (flat_map escape_char k) + length (dumps v) + 3)%nat.
Proof.
  unfold pair_text, encode_basestring. cbn [fst snd].
  change (u ":") with [58%N]. rewrite !length_app. cbn [length]. lia.
Qed.

Lemma pairs_cons2 (kv0 kv1 : str * pyval) (d : dict) :
  join (u ",") (map pair_text (kv0 :: kv1 :: d))
  = pair_text kv0 ++ [44%N] ++ join (u ",") (map pair_text (kv1 :: d)).
Proof. reflexivity. Qed.

Lemma pairs_lead (d : dict) (rest : str) :
  d <> [] -> exists t, join (u ",") (map pair_text d) ++ rest = 34%N :: t.
Proof.
  destruct d as [|[k v] [|kv1 d]]; [congruence| |]; intros _.
  - cbn [map join]. rewrite pair_text_cons. eauto.
  - rewrite pairs_cons2, <- app_assoc, pair_text_cons. eauto.
Qed.

Lemma parse_pairs_dumps (d : dict) :
  Forall (fun kv => reads_back (snd kv)) d ->
  forallb (fun kv => stable (snd kv)) d = true -> d <> [] ->
  forall (fuel : nat) (doc : str) (idx : nat) (rest : str) (acc : dict),
    (length (join (u ",") (map pair_text d)) < fuel)%nat ->
    parse_pairs fuel doc idx (join (u ",") (map pair_text d) ++ 125%N :: rest) acc
    = Ok (PDict (dict_of_pairs (rev acc ++ d)),
          (idx + length (join (u ",") (map pair_text d)) + 1)%nat, rest).
Proof.
  induction d as [|[k v] d IH]; [congruence|].
  intros HF Hst _ fuel doc idx rest acc Hfuel.
  apply Forall_cons in HF as [H0 HF]. cbn [snd] in H0.
  cbn [forallb snd] in Hst. apply andb_true_iff in Hst as [Hs0 Hst].
  pose proof (flat_map_escape_length k) as Hk.
  pose proof (dumps_lead v Hs0) as Hlv.
  destruct fuel as [|f]; [lia|].
  destruct d as [|kv1 d'].
  - cbn [map join] in *. rewrite pair_text_length in Hfuel.
    rewrite pair_text_cons, parse_pairs_S.
    rewrite scanstring_flat by lia. step.
    rewrite (skip_ws_nows _ 58) by reflexivity. step.
    rewrite skip_ws_lead by (now apply lead_app).
    rewrite (H0 Hs0 f doc _ (125%N :: rest)) by (simpl; try lia; auto).
    step. rewrite (skip_ws_nows _ 125) by reflexivity. step.
    cbn [rev app]. rewrite pair_text_length. apply Ok_eq3. lia.
  - rewrite pairs_cons2. rewrite pairs_cons2, !length_app, pair_text_length in Hfuel.
    cbn [length] in Hfuel.
    rewrite <- !app_assoc, pair_text_cons, parse_pairs_S.
    rewrite scanstring_flat by lia. step.
    rewrite (skip_ws_nows _ 58) by reflexivity. step.
    rewrite skip_ws_lead by (now apply lead_app).
    cbn [app].
    rewrite (H0 Hs0 f doc _ (44%N :: _)) by (simpl; try lia; auto).
    step. rewrite (skip_ws_nows _ 44) by reflexivity. step.
    destruct (pairs_lead (kv1 :: d') (125%N :: rest)) as [t Ht]; [discriminate|].
    rewrite Ht, (skip_ws_nows _ 34) by reflexivity. step. rewrite <- Ht.
    rewrite (IH HF Hst) by (try discriminate; lia).
    cbn [rev]. rewrite <- app_assoc. cbn [app].
    apply Ok_eq3. rewrite ?length_cons, ?length_app, ?pair_text_length; cbn [length]; lia.
Qed.

Lemma dict_set_absent {V} (k : str) (v : V) (d : list (str * V)) :
  k ∉ dict_keys d -> dict_set k v d = d ++ [(k, v)].
Proof.
  induction d as [|[k' v'] d IH]; [reflexivity|]. intros H.
  cbn [dict_keys map fst] in H. apply not_elem_of_cons in H as [Hne H].
  cbn [dict_set]. rewrite bool_decide_eq_false_2 by exact Hne.
  cbn [app]. now rewrite (IH H).
Qed.

Lemma fold_dict_set (pairs acc : dict) :
  NoDup (dict_keys (acc ++ pairs)) ->
  fold_left (fun d kv => dict_set (fst kv) (snd kv) d) pairs acc = acc ++ pairs.
Proof.
  revert acc. induction pairs as [|[k v] pairs IH]; intros acc H.
  - now rewrite app_nil_r.
  - cbn [fold_left fst snd]. rewrite dict_set_absent.
    + rewrite IH; rewrite <- app_assoc; [reflexivity|exact H].
    + unfold dict_keys in H. rewrite map_app in H. apply NoDup_app in H as (_ & H & _).
      intros Hin. apply (H k Hin). cbn [map fst]. apply list_elem_of_here.
Qed.

Lemma dict_of_pairs_NoDup (d : dict) : NoDup (dict_keys d) -> dict_of_pairs d = d.
Proof. intros H. unfold dict_of_pairs. now rewrite fold_dict_set. Qed.

Lemma dumps_length_pos (v : pyval) : stable v = true -> (0 < length (dumps v))%nat.
Proof.
  intros H. apply dumps_lead in H. destruct (dumps v); [destruct H|simpl; lia].
Qed.

Lemma number_head_app (s rest : str) : number_head s -> number_head (s ++ rest).
Proof.
  destruct s as [|c t]; [intros []|]. intros [H|[H1 H2]]; [now left|].
  right. split; [exact H1|]. destruct t; [destruct H2|exact H2].
Qed.

Lemma scan_once_dumps (v : pyval) : reads_back v.
Proof.
  induction v as [|x|z|x|s|l IH|d IH] using pyval_induction;
    intros Hv fuel doc idx rest Hfuel Hrest;
    pose proof (dumps_length_pos _ Hv) as Hpos;
    (destruct fuel as [|f]; [lia|]).
  - reflexivity.
  - destruct x; reflexivity.
  - cbn [dumps] in *.
    rewrite scan_once_number by apply number_head_app, (str_of_Z_head z doc idx).
    apply (match_number_app doc doc idx idx _ rest _ _ (delim_plain _ Hrest)
             (match_number_int doc idx z)).
  - cbn [stable] in Hv. cbn [dumps] in *.
    apply float_stable_reads in Hv as [[->|[[] ->]]|[E [i H]]]; try reflexivity.
    rewrite E in *.
    rewrite scan_once_number.
    + exact (match_number_app _ doc _ idx _ rest _ _ (delim_plain _ Hrest) H).
    + apply number_head_app. exact (match_number_head _ _ _ _ H).
  - cbn [dumps] in *. unfold encode_basestring in *.
    rewrite !length_app in Hfuel. cbn [length] in Hfuel.
    pose proof (flat_map_escape_length s) as Hs.
    cbn [app]. rewrite <- app_assoc. cbn [app]. rewrite scan_once_S.
    change (34 =? 34)%N with true. cbv iota.
    rewrite scanstring_flat by lia. step.
    apply Ok_eq3. rewrite ?length_cons, ?length_app; cbn [length]; lia.
  - cbn [stable] in Hv. cbn [dumps] in *.
    change (u "[") with [91%N] in *. change (u "]") with [93%N] in *.
    rewrite !length_app in Hfuel. cbn [length] in Hfuel.
    rewrite <- !app_assoc. cbn [app]. rewrite scan_once_S.
    change (91 =? 34)%N with false. change (91 =? 123)%N with false.
    change (91 =? 91)%N with true. cbv iota.
    destruct l as [|v0 l'].
    + cbn [map join app]. rewrite (skip_ws_nows _ 93) by reflexivity. step.
      apply Ok_eq3. cbn [length]. lia.
    + assert (Hl : lead (join (u ",") (map dumps (v0 :: l')) ++ 93%N :: rest)).
      { cbn [forallb] in Hv. apply andb_true_iff in Hv as [Hs0 _].
        apply dumps_lead in Hs0.
        destruct l'; [cbn [map join]; now apply lead_app|].
        rewrite items_cons2, <- app_assoc. now apply lead_app. }
      rewrite skip_ws_lead by exact Hl.
      destruct (join (u ",") (map dumps (v0 :: l')) ++ 93%N :: rest) as [|c t] eqn:E;
        [destruct Hl|].
      rewrite list_open by (apply Hl). rewrite <- E.
      rewrite (parse_items_dumps _ IH Hv) by (try discriminate; lia).
      cbn [rev app]. apply Ok_eq3. rewrite ?length_cons, ?length_app; cbn [length]; lia.
  - cbn [stable] in Hv. apply andb_true_iff in Hv as [Hnd Hv].
    apply bool_decide_eq_true_1 in Hnd.
    cbn [dumps] in *. fold pair_text in *.
    change (fun kv : list N * pyval => encode_basestring kv.1 ++ u ":" ++ dumps kv.2)
      with pair_text in *.
    change (u "{") with [123%N] in *. change (u "}") with [125%N] in *.
    rewrite !length_app in Hfuel. cbn [length] in Hfuel.
    rewrite <- !app_assoc. cbn [app]. rewrite scan_once_S.
    change (123 =? 34)%N with false. change (123 =? 123)%N with true. cbv iota.
    destruct d as [|kv0 d'].
    + cbn [map join app]. rewrite (skip_ws_nows _ 125) by reflexivity. step.
      apply Ok_eq3. cbn [length]. lia.
    + destruct (pairs_lead (kv0 :: d') (125%N :: rest)) as [t Ht]; [discriminate|].
      rewrite Ht, (skip_ws_nows _ 34) by reflexivity. step. rewrite <- Ht.
      rewrite (parse_pairs_dumps _ IH Hv) by (try discriminate; lia).
      cbn [rev app]. rewrite (dict_of_pairs_NoDup _ Hnd).
      apply Ok_eq3. rewrite ?length_cons, ?length_app; cbn [length]; lia.
Qed.

Lemma bom_match {A} (c : N) (t : str) (a b : A) :
  c <> 65279%N -> match c :: t with 65279%N :: _ => a | _ => b end = b.
Proof.
  intros H. destruct c as [|c]; [reflexivity|].
  repeat (destruct c as [c|c|]; try reflexivity). congruence.
Qed.

(** A stable value is read back from its compact text. *)
Lemma loads_dumps (v : pyval) : stable v = true -> loads (dumps v) = Ok v.
Proof.
  intros Hv. pose proof (dumps_lead v Hv) as Hl.
  pose proof (scan_once_dumps v Hv (2 * length (dumps v) + 2)%nat (dumps v) 0%nat []) as H.
  rewrite app_nil_r in H.
  unfold loads. destruct (dumps v) as [|c t] eqn:E; [destruct Hl|].
  rewrite (bom_match c t) by (destruct Hl as (_ & _ & Hc); lia).
  rewrite skip_ws_lead by exact Hl.
  rewrite H by (simpl; try lia; auto). reflexivity.
Qed.

Lemma str_of_N_inj (a b : N) : str_of_N a = str_of_N b -> a = b.
Proof.
  intros H. apply (f_equal Z_of_digits) in H. rewrite !str_of_N_value in H. lia.
Qed.

Lemma str_of_Z_inj (a b : Z) : str_of_Z a = str_of_Z b -> a = b.
Proof.
  assert (Hd : forall n t, str_of_N n = 45%N :: t -> False).
  { intros n t E. pose proof (digits_of_uint_digit (N.to_uint n) 45) as H.
    unfold str_of_N in E. rewrite E in H. specialize (H (list_elem_of_here _ _)). lia. }
  destruct a as [|p|p], b as [|q|q]; cbn [str_of_Z]; intros H;
    try reflexivity;
    try (apply str_of_N_inj in H; cbn in H; congruence);
    try (exfalso; eapply Hd; eauto; fail);
    try (exfalso; symmetry in H; eapply Hd; eauto; fail).
  injection H as H. apply str_of_N_inj in H. congruence.
Qed.

(** ** The text stored with an image reads back as the record *)

Lemma stable_values_get (k : str) (dflt : pyval) (md : dict) :
  forallb (fun kv => stable (snd kv)) md = true -> stable dflt = true ->
  stable (dict_get_default k dflt md) = true.
Proof.
  intros Hmd Hd. unfold dict_get_default.
  induction md as [|[k' v'] md IH]; [exact Hd|].
  cbn [forallb snd] in Hmd. apply andb_true_iff in Hmd as [Hv Hmd].
  cbn [dict_get]. destruct (bool_decide (k = k')); [exact Hv|now apply IH].
Qed.

Lemma float_one_stable : float_stable float_one = true.
Proof. vm_compute. reflexivity. Qed.

Lemma essential_stable (md : dict) :
  stable (PDict md) = true -> stable (PDict (Persistence.essential_metadata md)) = true.
Proof.
  cbn [stable]. intros H. apply andb_true_iff in H as [_ H].
  apply andb_true_iff. split.
  - apply bool_decide_eq_true_2, (bool_decide_unpack _). vm_compute. exact I.
  - unfold Persistence.essential_metadata. cbn [forallb snd].
    rewrite !(stable_values_get _ _ md H) by (try reflexivity; apply float_one_stable).
    reflexivity.
Qed.

Lemma dumps_dict_strip (d : dict) : strip (dumps (PDict d)) = dumps (PDict d).
Proof.
  cbn [dumps]. change (u "{") with [123%N]. change (u "}") with [125%N].
  apply strip_fixed.
  - reflexivity.
  - rewrite app_assoc, rev_app_distr. reflexivity.
Qed.

Lemma metadata_json_dumps (md : dict) :
  Persistence.metadata_json md
  = dumps (PDict (if (4000 <? length (dumps (PDict md)))%nat
                  then Persistence.essential_metadata md else md)).
Proof.
  unfold Persistence.metadata_json. now destruct (4000 <? _)%nat.
Qed.

Lemma metadata_json_loads (md : dict) :
  stable (PDict md) = true ->
  let stored := if (4000 <? length (dumps (PDict md)))%nat
                then Persistence.essential_metadata md else md in
  loads (Persistence.metadata_json md) = Ok (PDict stored)
  /\ loads (strip (Persistence.metadata_json md)) = Ok (PDict stored).
Proof.
  intros H stored. rewrite metadata_json_dumps. fold stored.
  rewrite dumps_dict_strip.
  assert (Hs : stable (PDict stored) = true).
  { unfold stored. destruct (4000 <? _)%nat; [now apply essential_stable|exact H]. }
  split; now apply loads_dumps.
Qed.

(** X10: the text stored under the key [metadata] is read back by [json.loads],
    with or without [strip], as the record it was made from, or as the
    reduced record when the text of the record exceeds 4000 characters. *)
Theorem metadata_json_reads_back (md : dict) :
  stable (PDict md) = true ->
  let stored := if (4000 <? length (dumps (PDict md)))%nat
                then Persistence.essential_metadata md else md in
  loads (Persistence.metadata_json md) = Ok (PDict stored)
  /\ loads (strip (Persistence.metadata_json md)) = Ok (PDict stored).
Proof. exact (metadata_json_loads md). Qed.

Lemma stable_get (k : str) (v : pyval) (md : dict) :
  forallb (fun kv => stable (snd kv)) md = true -> dict_get k md = Some v ->
  stable v = true.
Proof.
  intros Hmd. induction md as [|[k' v'] md IH]; [discriminate|].
  cbn [forallb snd] in Hmd. apply andb_true_iff in Hmd as [Hv Hmd].
  cbn [dict_get]. destruct (bool_decide (k = k')); [now intros [= <-]|now apply IH].
Qed.

Lemma dict_set_stable (k : str) (v : pyval) (d : dict) :
  stable v = true -> forallb (fun kv => stable (snd kv)) d = true ->
  forallb (fun kv => stable (snd kv)) (dict_set k v d) = true.
Proof.
  intros Hv. induction d as [|[k' v'] d IH]; intros Hd.
  - cbn. now rewrite Hv.
  - cbn [forallb snd] in Hd. apply andb_true_iff in Hd as [Hv' Hd].
    cbn [dict_set]. destruct (bool_decide (k = k')); cbn [forallb snd].
    + now rewrite Hv, Hd.
    + now rewrite Hv', (IH Hd).
Qed.

Lemma lora_list_stable (loras : list pyval) :
  forallb stable loras = true -> forallb stable (Persistence.lora_list loras) = true.
Proof.
  induction loras as [|lora loras IH]; [reflexivity|].
  cbn [forallb]. intros H. apply andb_true_iff in H as [Hl H].
  unfold Persistence.lora_list. cbn [flat_map]. fold (Persistence.lora_list loras).
  rewrite forallb_app, (IH H), andb_true_r.
  destruct lora as [| | | | | |d]; try reflexivity.
  destruct (truthy _); [|reflexivity].
  cbn [stable] in Hl. apply andb_true_iff in Hl as [_ Hd].
  cbn [forallb stable snd]. rewrite (stable_values_get _ _ d Hd) by apply float_one_stable.
  rewrite !andb_true_r. apply bool_decide_eq_true_2, (bool_decide_unpack _).
  vm_compute. exact I.
Qed.

Lemma copy_params_stable (md acc : dict) :
  forallb (fun kv => stable (snd kv)) acc = true ->
  forallb (fun kv => stable (snd kv)) (copy_params md acc) = true.
Proof.
  revert acc. induction md as [|kv md IH]; intros acc H; [exact H|].
  rewrite copy_params_cons. apply IH.
  destruct (bool_decide _); [exact H|]. now apply dict_set_stable.
Qed.

Lemma record_stable (job : Job) (i : nat) (ty : str) (s : float) :
  float_stable s = true ->
  forallb (fun kv => stable (snd kv)) (metadata (params job)) = true ->
  stable (PDict (image_record job i ty s)) = true.
Proof.
  intros Hs Hmd. cbn [stable]. apply andb_true_iff. split.
  - apply bool_decide_eq_true_2, record_keys_NoDup.
  - unfold image_record. apply copy_params_stable. unfold technical_record.
    assert (Hb : forallb (fun kv => stable (snd kv)) (basic_record job i ty s) = true).
    { unfold basic_record. cbn [forallb snd stable]. now rewrite Hs. }
    destruct (dict_get (u "loras") (metadata (params job))) as [v|] eqn:E; [|exact Hb].
    pose proof (stable_get _ _ _ Hmd E) as Hv.
    destruct v; try (now apply dict_set_stable).
    apply dict_set_stable; [|exact Hb]. cbn [stable] in *. now apply lora_list_stable.
Qed.

(** X11: what a save stores under [metadata] for an image reads back as the
    record built for that image, or as the reduced record. *)
Theorem saved_text_reads_back (job : Job) (i : nat) (ty : str) (md : dict) :
  Persistence.all_metadata job i ty = Ok md ->
  (forall s, strength (params job) = Some s -> float_stable s = true) ->
  forallb (fun kv => stable (snd kv)) (metadata (params job)) = true ->
  loads (Persistence.metadata_json md)
  = Ok (PDict (if (4000 <? length (dumps (PDict md)))%nat
               then Persistence.essential_metadata md else md)).
Proof.
  intros H Hs Hmd. apply all_metadata_Ok in H as (s & E & ->).
  apply metadata_json_loads, record_stable; auto.
Qed.


Lemma text_keys_keep (reader : MetadataPanel.QImageReader) (k : str) (keys : list str) (md0 : dict) :
  k ∉ keys ->
  dict_get k (fold_left (fun md key =>
                           if bool_decide (key ∈ [u "metadata"]) then md
                           else dict_set key (PStr (MetadataPanel.text reader key)) md)
                        keys md0)
  = dict_get k md0.
Proof.
  revert md0. induction keys as [|key keys IH]; intros md0 Hk; [reflexivity|].
  apply not_elem_of_cons in Hk as [Hne Hk]. cbn [fold_left]. rewrite (IH _ Hk).
  destruct (bool_decide _); [reflexivity|]. apply dict_get_set_ne. congruence.
Qed.

Lemma key_ne (k k' : str) : bool_decide (k = k') = false -> k <> k'.
Proof. apply bool_decide_eq_false_1. Qed.

(** X12: the metadata panel finds the record again: from the text that a save
    stored under [metadata], it shows the record under [AI_METADATA_JSON],
    unless the file has a text key of that very name. *)
Theorem panel_reads_record (path : str) (reader : MetadataPanel.QImageReader) (md : dict) :
  stable (PDict md) = true ->
  MetadataPanel.endswith (u ".png") (Generation.str_lower path) = true ->
  MetadataPanel.text reader (u "metadata") = Persistence.metadata_json md ->
  Generation.AI_METADATA_JSON ∉ MetadataPanel.textKeys reader ->
  exists out log,
    MetadataPanel._extract_image_metadata path reader = Ok (out, log)
    /\ dict_get Generation.AI_METADATA_JSON out
       = Some (PDict (if (4000 <? length (dumps (PDict md)))%nat
                      then Persistence.essential_metadata md else md)).
Proof.
  intros Hmd Hpng Htext Hkeys.
  destruct (metadata_json_loads md Hmd) as [Hloads _].
  set (stored := if (4000 <? length (dumps (PDict md)))%nat
                 then Persistence.essential_metadata md else md) in *.
  unfold MetadataPanel._extract_image_metadata, MetadataPanel.extract_steps.
  rewrite Hpng, Htext, Hloads.
  rewrite bool_decide_eq_false_2
    by (rewrite metadata_json_dumps; discriminate).
  set (m1 := fold_left _ (MetadataPanel.textKeys reader) _).
  assert (H1 : dict_get Generation.AI_METADATA_JSON m1 = Some (PDict stored)).
  { unfold m1. rewrite text_keys_keep by exact Hkeys. apply dict_get_set_eq. }
  set (m2 := match MetadataPanel.size reader with Some (w, h) => _ | None => m1 end).
  assert (H2 : dict_get Generation.AI_METADATA_JSON m2 = Some (PDict stored)).
  { unfold m2. destruct (MetadataPanel.size reader) as [[w h]|]; [|exact H1].
    rewrite dict_get_set_ne; [exact H1|]. apply key_ne. vm_compute. reflexivity. }
  destruct (MetadataPanel.format reader) as [|x fmt]; [eauto|].
  destruct (MetadataPanel.utf8_decode (x :: fmt)); [|eauto].
  do 2 eexists. split; [reflexivity|].
  rewrite dict_get_set_ne; [exact H2|]. apply key_ne. vm_compute. reflexivity.
Qed.

(** ** The two implementations of auto-save *)

Section Agree.
Variable prepare_for_save : Job -> nat -> str -> result dict.
Variable get_image_type : Job -> str.
Variable env : Env.
Variable job : Job.
Hypothesis same_record : forall i ty, prepare_for_save job i ty = Persistence.all_metadata job i ty.

Lemma save_image_agrees (tf ty : str) (i : nat) (img : Image) (c : nat) (w : World) :
  exists c',
    AutoSave.save_image prepare_for_save env job tf ty i img c w
    = (fst (Persistence.auto_save_image env job tf ty i img w), Ok c')
    /\ snd (Persistence.auto_save_image env job tf ty i img w) = Ok tt.
Proof.
  unfold AutoSave.save_image, Persistence.auto_save_image, AutoSave.image_path,
    bindM, tryM, datetime_now, log_info, log_warning, lift, image_save, ret.
  cbn [ticks dirs files log]. rewrite same_record.
  destruct (Persistence.all_metadata job i ty) as [md|e]; cbn [ticks dirs files log].
  - destruct (save_refused env _ img); eexists; split; reflexivity.
  - eexists; split; reflexivity.
Qed.

Lemma save_images_agree (tf ty : str) (imgs : list Image) :
  forall (i c : nat) (w : World),
  exists c',
    AutoSave.save_images prepare_for_save env job tf ty imgs i c w
    = (fst (Persistence.auto_save_loop env job tf ty imgs i w), Ok c')
    /\ snd (Persistence.auto_save_loop env job tf ty imgs i w) = Ok tt.
Proof.
  induction imgs as [|img imgs IH]; intros i c w.
  - exists c. split; reflexivity.
  - cbn [AutoSave.save_images Persistence.auto_save_loop]. unfold bindM.
    destruct (save_image_agrees tf ty i img c w) as (c1 & -> & Hs).
    destruct (Persistence.auto_save_image env job tf ty i img w) as [w1 r1].
    cbn [fst snd] in *. subst r1. apply IH.
Qed.

Hypothesis same_type : get_image_type job = Persistence.image_type job.

(** X13: for a saved document, the manager of the plugin and the code inlined in
    [persistence.py] act alike on a job with results: the same folders,
    files, clock readings and log entries, and both return or both raise. *)
Theorem auto_save_implementations_agree (w : World) :
  auto_save_generated env = true -> results job <> [] -> document_filename env <> [] ->
  fst (AutoSave.save_job_images prepare_for_save get_image_type env job w)
  = fst (Persistence._auto_save_images env job w)
  /\ is_ok (snd (AutoSave.save_job_images prepare_for_save get_image_type env job w))
     = is_ok (snd (Persistence._auto_save_images env job w)).
Proof.
  intros Hon Hres Hdoc.
  unfold AutoSave.save_job_images, Persistence._auto_save_images.
  rewrite Hon, same_type. cbn [negb].
  destruct (results job) as [|img0 rest0] eqn:Er; [congruence|]. rewrite <- Er.
  unfold AutoSave.doc_name, Persistence.doc_name.
  rewrite !bool_decide_eq_false_2 by exact Hdoc.
  set (base := auto_save_folder env).
  set (doc := path_join base (path_stem (document_filename env))).
  set (tfold := path_join doc (Persistence.image_type job)).
  unfold bindM, log_info, mkdir. cbn [ticks dirs files log].
  destruct (mkdir_refused env base); [split; reflexivity|].
  destruct (files w !! base); [split; reflexivity|].
  cbn [ticks dirs files log].
  destruct (mkdir_refused env doc); [split; reflexivity|].
  destruct (files w !! doc); [split; reflexivity|].
  cbn [ticks dirs files log].
  destruct (mkdir_refused env tfold); [split; reflexivity|].
  destruct (files w !! tfold); [split; reflexivity|].
  cbn [ticks dirs files log].
  match goal with
  | |- context [AutoSave.save_images _ _ _ _ _ _ _ _ ?w0] =>
    destruct (save_images_agree tfold (Persistence.image_type job) (results job) 0 0 w0)
      as (c' & -> & Hs)
  end.
  cbn [fst snd]. rewrite Hs. split; reflexivity.
Qed.
End Agree.

(** ** Saving the whole history *)

Section History.
Variable prepare_for_save : Job -> nat -> str -> result dict.
Variable get_image_type : Job -> str.
Variable env : Env.

Let save_job_images := AutoSave.save_job_images prepare_for_save get_image_type env.
Let save_entries := AutoSave.save_entries prepare_for_save get_image_type env.
Let save_all_history_images :=
  AutoSave.save_all_history_images prepare_for_save get_image_type env.

Lemma count_ok_le (job : Job) (tf it : str) (imgs : list Image) :
  forall i t, (Spec.count_ok prepare_for_save env job tf it imgs i t <= length imgs)%nat.
Proof.
  induction imgs as [|img imgs IH]; intros i t; [reflexivity|].
  cbn [Spec.count_ok length]. specialize (IH (S i) (S t)).
  destruct (Spec.loop_ok _ _ _ _ _ _ _ _); lia.
Qed.

Lemma save_job_images_count (job : Job) (w : World) :
  match snd (save_job_images job w) with
  | Ok n => (n <= length (results job))%nat
  | Raise _ => True
  end.
Proof.
  destruct (auto_save_generated env) eqn:Hon; cycle 1.
  { unfold save_job_images, AutoSave.save_job_images. rewrite Hon. simpl. lia. }
  destruct (results job) as [|img0 rest0] eqn:Er.
  { unfold save_job_images, AutoSave.save_job_images. rewrite Hon, Er. simpl. lia. }
  rewrite <- Er.
  destruct (save_job_images_prelude prepare_for_save get_image_type env job w Hon)
    as [(w1 & e & pre & Hraise & _)|(w0 & pre & _ & _ & _ & _ & Hloop)].
  { rewrite Er. discriminate. }
  { unfold save_job_images. rewrite Hraise. exact I. }
  unfold save_job_images. rewrite Hloop.
  destruct (save_images_run prepare_for_save env job
              (AutoSave.type_folder get_image_type env job) (get_image_type job)
              (results job) 0 0 w0) as (w2 & -> & _).
  cbn [snd]. apply count_ok_le.
Qed.

Lemma save_entries_total (entries : list Job) :
  forall (total : nat) (w : World),
  exists w' n,
    save_entries entries total w = (w', Ok n)
    /\ (n <= total + sum_list_with (fun j => length (results j))
                       (filter (fun j => AutoSave.selected j = true) entries))%nat.
Proof.
  induction entries as [|job entries IH]; intros total w.
  - exists w, total. split; [reflexivity|]. simpl. lia.
  - unfold save_entries. cbn [AutoSave.save_entries]. rewrite filter_cons.
    destruct (AutoSave.selected job) eqn:Hsel.
    + rewrite decide_True by reflexivity. cbn [sum_list_with].
      fold save_job_images. unfold bindM at 1. unfold tryM. unfold bindM at 1.
      pose proof (save_job_images_count job w) as Hc.
      destruct (save_job_images job w) as [w1 [n1|e1]]; cbn [snd] in Hc.
      * unfold bindM, log_info, ret. cbn [ticks dirs files log].
        match goal with
        | |- context [AutoSave.save_entries _ _ _ _ ?t ?w0] =>
          destruct (IH t w0) as (w' & n & Hrun & Hn)
        end.
        exists w', n. split; [exact Hrun|]. lia.
      * unfold bindM, log_warning, ret. cbn [ticks dirs files log].
        match goal with
        | |- context [AutoSave.save_entries _ _ _ _ ?t ?w0] =>
          destruct (IH t w0) as (w' & n & Hrun & Hn)
        end.
        exists w', n. split; [exact Hrun|]. lia.
    + rewrite decide_False by discriminate. apply IH.
Qed.

(** X14: saving the whole history either raises, and then no file has been
    written and no line logged, or returns a number that is at most the
    number of images of the jobs that are taken into account. *)
Theorem save_all_history_images_outcome (entries : list Job) (w : World) :
  (exists e, snd (save_all_history_images entries w) = Raise e
             /\ files (fst (save_all_history_images entries w)) = files w
             /\ log (fst (save_all_history_images entries w)) = log w)
  \/ (exists n, snd (save_all_history_images entries w) = Ok n
                /\ (n <= sum_list_with (fun j => length (results j))
                           (filter (fun j => AutoSave.selected j = true) entries))%nat).
Proof.
  unfold save_all_history_images, AutoSave.save_all_history_images.
  destruct (auto_save_generated env); cbn [negb]; [|right; exists 0%nat; split; [reflexivity|lia]].
  set (base := auto_save_folder env).
  set (doc := path_join base (AutoSave.doc_name env)).
  unfold bindM, mkdir. cbn [ticks dirs files log].
  destruct (mkdir_refused env base); [left; eexists; repeat split; reflexivity|].
  destruct (files w !! base); [left; eexists; repeat split; reflexivity|].
  cbn [ticks dirs files log].
  destruct (mkdir_refused env doc); [left; eexists; repeat split; reflexivity|].
  destruct (files w !! doc); [left; eexists; repeat split; reflexivity|].
  right.
  match goal with
  | |- context [AutoSave.save_entries _ _ _ ?l 0%nat ?w0] =>
    destruct (save_entries_total l 0%nat w0) as (w' & n & Hrun & Hn)
  end.
  unfold save_entries in Hrun. rewrite Hrun. exists n. split; [reflexivity|exact Hn].
Qed.

(** X15: jobs without results, and jobs of another kind than diffusion,
    animation and upscaling, leave no trace when the history is saved. *)
Theorem save_all_history_images_selected (entries : list Job) (w : World) :
  save_all_history_images entries w
  = save_all_history_images (filter (fun j => AutoSave.selected j = true) entries) w.
Proof.
  unfold save_all_history_images, AutoSave.save_all_history_images.
  assert (H : forall total w0,
             AutoSave.save_entries prepare_for_save get_image_type env entries total w0
             = AutoSave.save_entries prepare_for_save get_image_type env
                 (filter (fun j => AutoSave.selected j = true) entries) total w0).
  { induction entries as [|job entries' IH]; intros total w0; [reflexivity|].
    rewrite filter_cons. cbn [AutoSave.save_entries].
    destruct (AutoSave.selected job) eqn:Hsel.
    - rewrite decide_True by reflexivity. cbn [AutoSave.save_entries]. rewrite Hsel.
      unfold bindM. destruct (tryM _ _ w0) as [w1 [c|e]]; [apply IH|reflexivity].
    - rewrite decide_False by discriminate. apply IH. }
  destruct (auto_save_generated env); [|reflexivity]. cbn [negb].
  unfold bindM. destruct (mkdir env _ w) as [w1 [[]|e]]; [|reflexivity].
  destruct (mkdir env _ w1) as [w2 [[]|e]]; [|reflexivity].
  now rewrite H.
Qed.
End History.

Lemma sum_delete (m : gmap Z Z) (k : Z) :
  map_fold (fun _ v acc => v + acc) 0 (delete k m)
  = map_fold (fun _ v acc => v + acc) 0 m - default 0 (m !! k).
Proof.
  destruct (m !! k) as [x|] eqn:E; simpl.
  - pose proof (map_fold_delete_L (fun _ v acc => v + acc) 0 k x m) as H.
    cbv beta in H. rewrite H; [lia| |exact E]. intros. lia.
  - rewrite delete_id by exact E. lia.
Qed.

Lemma annotation_name_inj (s s' : Z) :
  Sync.annotation_name s = Sync.annotation_name s' -> s = s'.
Proof.
  unfold Sync.annotation_name. intros E.
  apply app_inv_head, app_inv_tail in E. now apply str_of_Z_inj.
Qed.

Lemma prune_loop_spec (limit : Z) (history : list Sync._HistoryResult) :
  forall (used : Z) (memory : gmap Z Z) (document : Sync.annotations),
    used = map_fold (fun _ v acc => v + acc) 0 memory ->
    exists n,
      let '(history', memory', document') :=
        Sync.prune_loop limit used history memory document in
      history' = drop n history
      /\ (map_fold (fun _ v acc => v + acc) 0 memory' <= limit \/ history' = [])
      /\ (used <= limit -> n = 0%nat /\ memory' = memory /\ document' = document)
      /\ (forall s, s ∉ map Sync.slot (take n history) ->
                    memory' !! s = memory !! s
                    /\ document' !! Sync.annotation_name s
                       = document !! Sync.annotation_name s).
Proof.
  induction history as [|h rest IH]; intros used memory document Hused.
  - exists 0%nat. cbn. repeat split; auto.
  - cbn [Sync.prune_loop]. destruct (Z.ltb_spec limit used) as [Hlt|Hge].
    + specialize (IH (used - default 0 (memory !! Sync.slot h))
                     (delete (Sync.slot h) memory)
                     (delete (Sync.annotation_name (Sync.slot h)) document)).
      destruct IH as [n IH]; [rewrite sum_delete; lia|].
      exists (S n).
      destruct (Sync.prune_loop _ _ rest _ _) as [[history' memory'] document'].
      destruct IH as (Hh & Hb & _ & Hs).
      split; [exact Hh|]. split; [exact Hb|]. split; [lia|].
      intros s H. cbn [take map] in H. apply not_elem_of_cons in H as [Hne H].
      destruct (Hs s H) as [H1 H2]. split.
      * rewrite H1. apply lookup_delete_ne. congruence.
      * rewrite H2. apply lookup_delete_ne. intros E.
        apply annotation_name_inj in E. congruence.
    + exists 0%nat. split; [reflexivity|]. split; [left; lia|].
      split; [auto|]. intros s _. split; reflexivity.
Qed.

(** X16: pruning brings the stored images under the limit unless the history
    runs out first; it removes the oldest entries only, nothing at all
    when the images are within the limit, and leaves the sizes and the
    annotations of the other slots as they are. *)
Theorem prune_spec (history_storage : Z) (self : Sync.ModelSync)
        (document : Sync.annotations) :
  let limit := history_storage * 1024 * 1024 in
  let self' := fst (Sync._prune history_storage self document) in
  let document' := snd (Sync._prune history_storage self document) in
  exists n,
    Sync._history self' = drop n (Sync._history self)
    /\ (Sync.memory_used self' <= limit \/ Sync._history self' = [])
    /\ (Sync.memory_used self <= limit -> self' = self /\ document' = document)
    /\ (forall s, s ∉ map Sync.slot (take n (Sync._history self)) ->
                  Sync._memory_used self' !! s = Sync._memory_used self !! s
                  /\ document' !! Sync.annotation_name s
                     = document !! Sync.annotation_name s).
Proof.
  intros limit self' document'.
  destruct (prune_loop_spec limit (Sync._history self) (Sync.memory_used self)
              (Sync._memory_used self) document eq_refl) as [n H].
  exists n. unfold self', document', Sync._prune. fold limit.
  destruct (Sync.prune_loop _ _ _ _ _) as [[history' memory'] doc'].
  destruct H as (Hh & Hb & Hid & Hs). cbn [fst snd Sync._history Sync._memory_used].
  split; [exact Hh|]. split; [exact Hb|]. split; [|exact Hs].
  intros Hle. destruct (Hid Hle) as (-> & -> & ->). rewrite drop_0 in Hh. subst.
  split; [|reflexivity]. now destruct self.
Qed.

Lemma clicked_in_step (st : Panel * Settings) (b : button) :
  in_step st -> in_step (clicked st b).
Proof.
  destruct st as [p s]. unfold in_step. cbn [fst snd].
  intros (H1 & H2 & H3 & H4 & H5 & H6).
  destruct b; cbn [clicked fst snd];
    unfold _decrease_font_size, _increase_font_size, _decrease_height, _increase_height;
    match goal with |- context [if ?c then _ else _] => destruct c end;
    cbn; repeat split; try assumption; lia.
Qed.

Lemma init_in_step (settings : Settings) : in_step (__init__ settings).
Proof.
  unfold __init__, in_step.
  destruct (metadata_font_size settings =? 10) eqn:E1;
    destruct (metadata_widget_height settings =? 220) eqn:E2; cbn;
    repeat split; try reflexivity.
  all: try (apply Z.eqb_eq in E2; lia).
Qed.

(** X17: however the buttons are clicked, the text area stays ten pixels lower
    than the widget, Qt has been told the current heights and font size, and
    the settings hold the current font size and height. *)
Theorem panel_sizes_in_step (settings : Settings) (clicks : list button) :
  let st := after_clicks settings clicks in
  _text_height (fst st) = _widget_height (fst st) - 10
  /\ maximumHeight (fst st) = _widget_height (fst st)
  /\ text_maximumHeight (fst st) = _text_height (fst st)
  /\ text_style_size (fst st) = _font_size (fst st)
  /\ metadata_font_size (snd st) = _font_size (fst st)
  /\ metadata_widget_height (snd st) = _widget_height (fst st).
Proof.
  intros st. change (in_step st). unfold st, after_clicks.
  generalize (init_in_step settings). generalize (__init__ settings).
  induction clicks as [|b clicks IH]; intros st0 H; [exact H|].
  cbn [fold_left]. apply IH, clicked_in_step, H.
Qed.

Lemma clicked_bounds (st : Panel * Settings) (b : button) :
  let f := _font_size (fst st) in
  let h := _widget_height (fst st) in
  let f' := _font_size (fst (clicked st b)) in
  let h' := _widget_height (fst (clicked st b)) in
  (8 <= f <= 20 -> 8 <= f' <= 20)
  /\ (100 < h < 420 -> 100 < h' < 420)
  /\ (120 <= h <= 400 /\ h mod 20 = 0 -> 120 <= h' <= 400 /\ h' mod 20 = 0).
Proof.
  destruct st as [p s]. cbn [fst snd].
  destruct b; cbn [clicked fst snd];
    unfold _decrease_font_size, _increase_font_size, _decrease_height, _increase_height;
    match goal with |- context [if ?c then _ else _] => destruct c eqn:E end;
    cbn [fst _font_size _widget_height];
    try (apply Z.ltb_lt in E); try (apply Z.ltb_ge in E);
    (split; [|split]); intros Hb; try exact Hb; try lia;
    destruct Hb as [Hb Hm]; Z.div_mod_to_equations; lia.
Qed.

(** X18: the font size stays between 8 and 20 once it is there.  The height
    stays between 120 and 400, and a multiple of 20, when it starts so;
    from any start above 100 and below 420 it stays above 100 and below
    420. *)
Theorem panel_sizes_bounded (settings : Settings) (clicks : list button) :
  let f0 := _font_size (fst (__init__ settings)) in
  let h0 := _widget_height (fst (__init__ settings)) in
  let f := _font_size (fst (after_clicks settings clicks)) in
  let h := _widget_height (fst (after_clicks settings clicks)) in
  (8 <= f0 <= 20 -> 8 <= f <= 20)
  /\ (100 < h0 < 420 -> 100 < h < 420)
  /\ (120 <= h0 <= 400 /\ h0 mod 20 = 0 -> 120 <= h <= 400 /\ h mod 20 = 0).
Proof.
  unfold after_clicks. generalize (__init__ settings).
  induction clicks as [|b clicks IH]; intros st0; cbn [fold_left].
  - split; [|split]; intros Hb; exact Hb.
  - destruct (IH (clicked st0 b)) as (H1 & H2 & H3).
    destruct (clicked_bounds st0 b) as (C1 & C2 & C3).
    split; [|split]; intros Hb.
    + apply H1, C1, Hb.
    + apply H2, C2, Hb.
    + apply H3, C3, Hb.
Qed.

Lemma panel_sizes_bounded_witness :
  let settings := {| metadata_font_size := 10; metadata_widget_height := 220 |} in
  let clicks := [font_smaller; height_larger; height_larger; font_larger] in
  8 <= _font_size (fst (after_clicks settings clicks)) <= 20
  /\ 120 <= _widget_height (fst (after_clicks settings clicks)) <= 400.
Proof.
  intros settings clicks.
  destruct (panel_sizes_bounded settings clicks) as (H1 & _ & H3).
  split.
  - apply H1. vm_compute. split; discriminate.
  - apply H3. vm_compute. repeat split; discriminate.
Defined.

(** X19: a setting that was set is the one that is got, where the feature
    exists; where it does not, nothing is set and the default comes back.
    Other settings are got as before. *)
Theorem feature_setting_round_trip (self : Config.features)
        (feature_name setting_name : str) (value default : pyval) :
  Config.get_feature_setting feature_name setting_name default
    (Config.set_feature_setting feature_name setting_name value self)
  = (if dict_has feature_name self then value else default)
  /\ forall feature_name' setting_name',
       (feature_name', setting_name') <> (feature_name, setting_name) ->
       Config.get_feature_setting feature_name' setting_name' default
         (Config.set_feature_setting feature_name setting_name value self)
       = Config.get_feature_setting feature_name' setting_name' default self.
Proof.
  unfold Config.set_feature_setting, Config.get_feature_setting, Config.get_feature, dict_has.
  destruct (dict_get feature_name self) as [f|] eqn:E.
  - split.
    + rewrite dict_get_set_eq. cbn [Config.with_settings Config.settings].
      destruct (dict_set setting_name value (Config.settings f)) eqn:Es.
      * destruct (Config.settings f) as [|[k v] r]; [discriminate Es|].
        cbn [dict_set] in Es. destruct (bool_decide _); discriminate Es.
      * rewrite <- Es. unfold dict_get_default. now rewrite dict_get_set_eq.
    + intros fn sn Hne. destruct (decide (feature_name = fn)) as [<-|Hf].
      * rewrite dict_get_set_eq, E. cbn [Config.with_settings Config.settings].
        assert (Hs : setting_name <> sn) by congruence.
        destruct (Config.settings f) as [|kv r] eqn:Es0.
        -- cbn [dict_set]. unfold dict_get_default. cbn [dict_get].
           now rewrite bool_decide_eq_false_2 by congruence.
        -- destruct (dict_set setting_name value (kv :: r)) eqn:Es.
           ++ destruct kv as [k v]. cbn [dict_set] in Es.
              destruct (bool_decide _); discriminate Es.
           ++ rewrite <- Es. unfold dict_get_default.
              now rewrite dict_get_set_ne by exact Hs.
      * now rewrite dict_get_set_ne by exact Hf.
  - split; [now rewrite E|]. reflexivity.
Qed.

Lemma enabled_features_set (self : Config.features) (feature_name : str)
      (f : Config.CustomFeatureConfig) (e : bool) :
  NoDup (dict_keys self) -> dict_get feature_name self = Some f ->
  Config.get_enabled_features (dict_set feature_name (Config.with_enabled f e) self)
  = flat_map (fun kv => if bool_decide (fst kv = feature_name)
                        then (if e then [fst kv] else [])
                        else (if Config.enabled (snd kv) then [fst kv] else [])) self.
Proof.
  unfold Config.get_enabled_features.
  induction self as [|[k c] self IH]; [discriminate|]. intros Hnd Hget.
  cbn [dict_keys map fst] in Hnd. apply NoDup_cons in Hnd as [Hk Hnd].
  cbn [dict_get] in Hget. cbn [dict_set flat_map fst snd].
  destruct (bool_decide (feature_name = k)) eqn:E.
  - apply bool_decide_eq_true_1 in E. subst k.
    rewrite bool_decide_eq_true_2 by reflexivity.
    rewrite filter_cons. cbn [snd Config.with_enabled Config.enabled].
    assert (Hrest : map fst (filter (fun kv => Config.enabled (snd kv) = true) self)
                    = flat_map (fun kv => if bool_decide (fst kv = feature_name)
                                          then (if e then [fst kv] else [])
                                          else (if Config.enabled (snd kv) then [fst kv] else []))
                               self).
    { clear -Hk. induction self as [|[k' c'] self IH]; [reflexivity|].
      cbn [dict_keys map fst] in Hk. apply not_elem_of_cons in Hk as [Hne Hk].
      rewrite filter_cons. cbn [flat_map fst snd].
      rewrite bool_decide_eq_false_2 by congruence.
      destruct (Config.enabled c').
      - rewrite decide_True by reflexivity. cbn [map fst app]. now rewrite (IH Hk).
      - rewrite decide_False by discriminate. cbn [app]. apply (IH Hk). }
    destruct e.
    + rewrite decide_True by reflexivity. cbn [map fst app]. now rewrite Hrest.
    + rewrite decide_False by discriminate. cbn [app]. exact Hrest.
  - apply bool_decide_eq_false_1 in E.
    rewrite (bool_decide_eq_false_2 (k = feature_name)) by congruence.
    rewrite filter_cons. cbn [snd].
    destruct (Config.enabled c).
    + rewrite decide_True by reflexivity. cbn [map fst app]. now rewrite (IH Hnd Hget).
    + rewrite decide_False by discriminate. cbn [app]. exact (IH Hnd Hget).
Qed.

Lemma enabled_features_filter (self : Config.features) (feature_name : str) :
  flat_map (fun kv => if bool_decide (fst kv = feature_name) then []
                      else (if Config.enabled (snd kv) then [fst kv] else [])) self
  = filter (fun k => k <> feature_name) (Config.get_enabled_features self).
Proof.
  unfold Config.get_enabled_features.
  induction self as [|[k c] self IH]; [reflexivity|].
  cbn [flat_map fst snd]. rewrite filter_cons. cbn [snd].
  destruct (bool_decide (k = feature_name)) eqn:E.
  - apply bool_decide_eq_true_1 in E. subst k. cbn [app].
    destruct (Config.enabled c).
    + rewrite decide_True by reflexivity. cbn [map fst]. rewrite filter_cons.
      rewrite decide_False by (intros H; now apply H). exact IH.
    + rewrite decide_False by discriminate. exact IH.
  - apply bool_decide_eq_false_1 in E.
    destruct (Config.enabled c).
    + rewrite decide_True by reflexivity. cbn [map fst app]. rewrite filter_cons.
      rewrite decide_True by exact E. now rewrite IH.
    + rewrite decide_False by discriminate. cbn [app]. exact IH.
Qed.

Lemma enabled_features_absent (self : Config.features) (feature_name : str) :
  dict_get feature_name self = None ->
  filter (fun k => k <> feature_name) (Config.get_enabled_features self)
  = Config.get_enabled_features self.
Proof.
  unfold Config.get_enabled_features.
  induction self as [|[k c] self IH]; [reflexivity|]. cbn [dict_get].
  destruct (bool_decide (feature_name = k)) eqn:E; [discriminate|].
  apply bool_decide_eq_false_1 in E. intros H.
  rewrite filter_cons. cbn [snd]. destruct (Config.enabled c).
  - rewrite decide_True by reflexivity. cbn [map fst]. rewrite filter_cons.
    rewrite decide_True by congruence. now rewrite (IH H).
  - rewrite decide_False by discriminate. exact (IH H).
Qed.

(** X20: disabling a feature takes it, and nothing else, out of the list of the
    enabled features, which keeps its order; the feature then counts as
    disabled, and an unknown feature is never enabled. *)
Theorem disable_feature_spec (self : Config.features) (feature_name : str) :
  NoDup (dict_keys self) ->
  Config.get_enabled_features (Config.disable_feature feature_name self)
  = filter (fun k => k <> feature_name) (Config.get_enabled_features self)
  /\ Config.is_feature_enabled feature_name (Config.disable_feature feature_name self) = false
  /\ (dict_has feature_name self = false ->
      Config.is_feature_enabled feature_name (Config.enable_feature feature_name self)
      = false).
Proof.
  intros Hnd. unfold Config.disable_feature, Config.enable_feature,
    Config.is_feature_enabled, Config.get_feature, dict_has.
  destruct (dict_get feature_name self) as [f|] eqn:E.
  - split; [|split].
    + rewrite (enabled_features_set self feature_name f false Hnd E).
      apply enabled_features_filter.
    + now rewrite dict_get_set_eq.
    + discriminate.
  - split; [|split].
    + symmetry. now apply enabled_features_absent.
    + now rewrite E.
    + now rewrite E.
Qed.

Lemma export_metadata_stable (m : SaveDocument.Model) :
  float_stable (SaveDocument.strength m) = true ->
  stable (PDict (SaveDocument.export_metadata m)) = true.
Proof.
  intros Hs. unfold SaveDocument.export_metadata.
  destruct (SaveDocument.style m) as [fn|]; cbn [stable]; apply andb_true_iff; split.
  - apply bool_decide_eq_true_2, (bool_decide_unpack _). vm_compute. exact I.
  - repeat (apply dict_set_stable; [reflexivity|]). cbn [forallb snd stable]. now rewrite Hs.
  - apply bool_decide_eq_true_2, (bool_decide_unpack _). vm_compute. exact I.
  - repeat (apply dict_set_stable; [reflexivity|]). cbn [forallb snd stable]. now rewrite Hs.
Qed.

(** X21: when the document is saved with its metadata, the file holds under
    [metadata] a text that [json.loads] reads back as the whole record,
    however long it is, and no other file is touched. *)
Theorem export_reads_back (env : Env) (m : SaveDocument.Model) (w w' : World) (path : str) :
  float_stable (SaveDocument.strength m) = true ->
  SaveDocument._save_document_with_metadata env m w = (w', SaveDocument.Success path) ->
  path = SaveDocument.chosen_path m
  /\ (exists img text,
        SaveDocument.current_image m = Ok img
        /\ files w' !! path = Some (img, [(u "metadata", text)])
        /\ loads text = Ok (PDict (SaveDocument.export_metadata m)))
  /\ (forall p, p <> path -> files w' !! p = files w !! p).
Proof.
  intros Hs. unfold SaveDocument._save_document_with_metadata.
  destruct (SaveDocument.has_document m); cbn [negb]; [|discriminate].
  destruct (SaveDocument.chosen_path m) as [|c t] eqn:Ep; [discriminate|].
  destruct (SaveDocument.current_image m) as [img|e]; [|discriminate].
  unfold image_save. destruct (save_refused env (c :: t) img); [discriminate|].
  intros H. injection H as <- <-. split; [reflexivity|]. split.
  - exists img, (dumps (PDict (SaveDocument.export_metadata m))).
    split; [reflexivity|]. split.
    + cbn [files]. apply lookup_insert_eq.
    + apply loads_dumps, export_metadata_stable, Hs.
  - intros p Hp. cbn [files]. apply lookup_insert_ne. congruence.
Qed.

Lemma all_metadata_basic_fields_witness :
  let job := Cases.tagged_job in
  let md := Inputs.record_of job in
  dict_get (u "prompt") md
    = Some (PStr (Persistence._clean_metadata_value (PStr (prompt (params job)))))
  /\ dict_get (u "seed") md = Some (PInt (seed (params job)))
  /\ dict_get (u "strength") md = PFloat <$> strength (params job)
  /\ dict_get (u "generation_type") md = Some (PStr (Persistence.image_type job))
  /\ dict_get (u "job_kind") md = Some (PStr (kind_name (kind job)))
  /\ dict_get (u "timestamp") md = Some (PStr (strftime_record (timestamp job)))
  /\ dict_get (u "batch_index") md = Some (PInt (Z.of_nat 0))
  /\ dict_get (u "total_images") md = Some (PInt (Z.of_nat (length (results job)))).
Proof.
  intros job md.
  apply (all_metadata_basic_fields job 0 (Persistence.image_type job) md).
  vm_compute. reflexivity.
Defined.

Lemma all_metadata_param_entries_witness :
  let job := Cases.tagged_job in
  let md := Inputs.record_of job in
  (forall k v, startswith (u "param_") k = true -> dict_get k md = Some v ->
               exists s, v = PStr s /\ (length s <= 500)%nat)
  /\ (forall k, k ∈ Persistence.reserved_keys -> dict_get (u "param_" ++ k) md = None).
Proof.
  intros job md.
  apply (all_metadata_param_entries job 0 (Persistence.image_type job) md).
  vm_compute. reflexivity.
Defined.

Lemma all_metadata_param_stored_witness :
  let job := Cases.tagged_job in
  let md := Inputs.record_of job in
  dict_get (u "param_" ++ u "steps") md = Some (PStr (Persistence.clean_value (PInt 20))).
Proof.
  intros job md.
  apply (all_metadata_param_stored job 0 (Persistence.image_type job) md (u "steps") (PInt 20)).
  - vm_compute. reflexivity.
  - apply (bool_decide_unpack _). vm_compute. exact I.
  - vm_compute. reflexivity.
  - apply (bool_decide_unpack _). vm_compute. exact I.
Defined.

Lemma metadata_json_reads_back_witness :
  let md := Inputs.record_of Cases.tagged_job in
  let stored := if (4000 <? length (dumps (PDict md)))%nat
                then Persistence.essential_metadata md else md in
  loads (Persistence.metadata_json md) = Ok (PDict stored)
  /\ loads (strip (Persistence.metadata_json md)) = Ok (PDict stored).
Proof.
  intros md. apply (metadata_json_reads_back md). vm_compute. reflexivity.
Defined.

Lemma saved_text_reads_back_witness :
  let job := Cases.tagged_job in
  let md := Inputs.record_of job in
  loads (Persistence.metadata_json md)
  = Ok (PDict (if (4000 <? length (dumps (PDict md)))%nat
               then Persistence.essential_metadata md else md)).
Proof.
  intros job md.
  apply (saved_text_reads_back job 0 (Persistence.image_type job) md).
  - vm_compute. reflexivity.
  - intros s Hs. vm_compute in Hs. injection Hs as <-. vm_compute. reflexivity.
  - vm_compute. reflexivity.
Defined.

Lemma panel_reads_record_witness :
  let md := Inputs.record_of Inputs.generate_job in
  exists out log,
    MetadataPanel._extract_image_metadata (u "/home/me/out/cat.PNG")
      (Cases.saved_reader Inputs.generate_job) = Ok (out, log)
    /\ dict_get Generation.AI_METADATA_JSON out
       = Some (PDict (if (4000 <? length (dumps (PDict md)))%nat
                      then Persistence.essential_metadata md else md)).
Proof.
  intros md.
  apply (panel_reads_record (u "/home/me/out/cat.PNG")
           (Cases.saved_reader Inputs.generate_job) md).
  - vm_compute. reflexivity.
  - vm_compute. reflexivity.
  - vm_compute. reflexivity.
  - apply (bool_decide_unpack _). vm_compute. exact I.
Defined.

Lemma auto_save_implementations_agree_witness :
  let P := Persistence.all_metadata in
  let G := Persistence.image_type in
  fst (AutoSave.save_job_images P G Inputs.calm Inputs.batch_job Inputs.empty_world)
  = fst (Persistence._auto_save_images Inputs.calm Inputs.batch_job Inputs.empty_world)
  /\ is_ok (snd (AutoSave.save_job_images P G Inputs.calm Inputs.batch_job
                   Inputs.empty_world))
     = is_ok (snd (Persistence._auto_save_images Inputs.calm Inputs.batch_job
                     Inputs.empty_world)).
Proof.
  intros P G.
  apply (auto_save_implementations_agree P G Inputs.calm Inputs.batch_job).
  - intros i ty. reflexivity.
  - reflexivity.
  - reflexivity.
  - discriminate.
  - vm_compute. discriminate.
Defined.

Lemma disable_feature_spec_witness :
  Config.get_enabled_features (Config.disable_feature (u "auto_save") Config.__init__)
  = filter (fun k => k <> u "auto_save") (Config.get_enabled_features Config.__init__)
  /\ Config.is_feature_enabled (u "auto_save")
       (Config.disable_feature (u "auto_save") Config.__init__) = false
  /\ (dict_has (u "auto_save") Config.__init__ = false ->
      Config.is_feature_enabled (u "auto_save")
        (Config.enable_feature (u "auto_save") Config.__init__) = false).
Proof.
  apply (disable_feature_spec Config.__init__ (u "auto_save")).
  apply (bool_decide_unpack _). vm_compute. exact I.
Defined.

Lemma export_reads_back_witness :
  let run := SaveDocument._save_document_with_metadata Inputs.calm Cases.drawing
               Inputs.empty_world in
  let path := SaveDocument.chosen_path Cases.drawing in
  path = SaveDocument.chosen_path Cases.drawing
  /\ (exists img text,
        SaveDocument.current_image Cases.drawing = Ok img
        /\ files (fst run) !! path = Some (img, [(u "metadata", text)])
        /\ loads text = Ok (PDict (SaveDocument.export_metadata Cases.drawing)))
  /\ (forall p, p <> path -> files (fst run) !! p = files Inputs.empty_world !! p).
Proof.
  intros run path.
  apply (export_reads_back Inputs.calm Cases.drawing Inputs.empty_world (fst run) path).
  - vm_compute. reflexivity.
  - vm_compute. reflexivity.
Defined.
